(** * LOTL chat service and planning agent

    A shallow embedding of [chat_server.py] (the HTTP chat service with
    retrieval-augmented prompts) and [taba_agent.py] (the static lookup
    tools of the planning agent), with the properties the specification
    states about them.

    Conventions.
    - A Python [str] is a list of Unicode code points ([pystr]), so that
      [len] counts code points as Python does.  Literals are written as
      UTF-8 text and decoded by [lit].
    - A line break inside a one-line string literal of the source is the
      newline character.
    - Code that raises is modelled with [result]; code that talks to the
      outside world threads a [State] and reads the outside world's replies
      from an [Env].
    - Values are typed as the annotations and the data model have them: a
      search result is a record, the arguments of [rag_search] are an
      integer, a float, a boolean and an optional JSON value.  What the
      vector store sends under "results" is a list of such records or any
      value that is not a list.
    - Library functions the code calls ([str.encode], [json.dumps],
      [raise_for_status]) are modelled from their documentation.
    - A response is the call that sends it: [_send_json(obj, status)] is
      recorded as the status, the headers and [obj].  The bytes written
      for [obj] are not part of the model; those of the stream are. *)

From Stdlib Require Import String Ascii.
From Stdlib Require Import List NArith ZArith Bool Lia DecimalString.
Import ListNotations.

Set Warnings "-register-all".

(* ================================================================== *)
(** * Python strings *)
(* ================================================================== *)

Module Py.

Definition pystr := list N.

Definition bytes_of (s : string) : list N :=
  map N_of_ascii (list_ascii_of_string s).

(** UTF-8 decoding of a literal: [acc] is the code point being assembled
    and [need] the number of continuation bytes still expected. *)
Fixpoint utf8_go (acc : N) (need : nat) (bs : list N) : pystr :=
  match bs with
  | [] => []
  | b :: bs' =>
      match need with
      | O =>
          if (b <? 128)%N then b :: utf8_go 0 0 bs'
          else if (b <? 224)%N then utf8_go (b - 192) 1 bs'
          else if (b <? 240)%N then utf8_go (b - 224) 2 bs'
          else utf8_go (b - 240) 3 bs'
      | S O => (acc * 64 + (b - 128))%N :: utf8_go 0 0 bs'
      | S n => utf8_go (acc * 64 + (b - 128)) n bs'
      end
  end.

Definition lit (s : string) : pystr := utf8_go 0 0 (bytes_of s).

Definition NL : N := 10.

Definition pystr_eqb (a b : pystr) : bool :=
  if list_eq_dec N.eq_dec a b then true else false.

(** [len(s)] *)
Definition len (s : pystr) : Z := Z.of_nat (length s).

(** [str.isspace] on one code point: the characters [str.strip()] removes. *)
Definition isspace (c : N) : bool :=
  ((9 <=? c) && (c <=? 13) || (28 <=? c) && (c <=? 32)
   || (c =? 133) || (c =? 160) || (c =? 5760)
   || (8192 <=? c) && (c <=? 8202)
   || (c =? 8232) || (c =? 8233) || (c =? 8239) || (c =? 8287)
   || (c =? 12288))%N.

Fixpoint lstrip (s : pystr) : pystr :=
  match s with
  | [] => []
  | c :: s' => if isspace c then lstrip s' else s
  end.

Definition rstrip (s : pystr) : pystr := rev (lstrip (rev s)).

(** [s.strip()] *)
Definition strip (s : pystr) : pystr := rstrip (lstrip s).

(** [sep.join(parts)] *)
Fixpoint join (sep : pystr) (parts : list pystr) : pystr :=
  match parts with
  | [] => []
  | [p] => p
  | p :: ps => p ++ sep ++ join sep ps
  end.

(** [str(n)] for a non-negative integer. *)
Definition str_of_nat (n : nat) : pystr :=
  bytes_of (NilZero.string_of_uint (Nat.to_uint n)).

(** Truth value of an optional string, as [x or default] tests it: [None]
    and the empty string are false. *)
Definition truthy_str (o : option pystr) : bool :=
  match o with
  | Some (_ :: _) => true
  | _ => false
  end.

(** ** Exceptions and results *)

Inductive exn_class :=
| RuntimeError | ValueError | TypeError | AttributeError | IndexError
| UnicodeEncodeError | BrokenPipeError | OtherException.

(** An exception object; [str(e)] is [exn_msg e].  Every class above is a
    subclass of [Exception], so [except Exception] catches all of them. *)
Record exn := mkExn { exn_cls : exn_class; exn_msg : pystr }.

Inductive result (A : Type) :=
| Ok (a : A)
| Raise (e : exn).
Arguments Ok {A} a.
Arguments Raise {A} e.

(** ** Python values that travel as JSON *)

(** A float as data: finite doubles are [m * 2^e]. *)
Inductive pyfloat :=
| Finite (m e : Z)
| Infinity (negative : bool)
| NaN.

Inductive json :=
| JNull
| JBool (b : bool)
| JInt (z : Z)
| JFloat (f : pyfloat)
| JStr (s : pystr)
| JArr (items : list json)
| JObj (fields : list (pystr * json)).

(** Truth value of a Python object, as [if x], [not x] and [x or y] test it. *)
Definition truthy (v : json) : bool :=
  match v with
  | JNull => false
  | JBool b => b
  | JInt z => negb (z =? 0)%Z
  | JFloat (Finite m _) => negb (m =? 0)%Z
  | JFloat _ => true
  | JStr s => match s with [] => false | _ => true end
  | JArr l => match l with [] => false | _ => true end
  | JObj o => match o with [] => false | _ => true end
  end.

(** [d.get(k)]: [None] when the key is absent. *)
Fixpoint dict_get {V : Type} (k : pystr) (d : list (pystr * V)) : option V :=
  match d with
  | [] => None
  | (k', v) :: d' => if pystr_eqb k' k then Some v else dict_get k d'
  end.

(** [d[k] = v]: replaces the value in place, or appends a new key. *)
Fixpoint dict_set {V : Type} (k : pystr) (v : V) (d : list (pystr * V))
  : list (pystr * V) :=
  match d with
  | [] => [(k, v)]
  | (k', v') :: d' =>
      if pystr_eqb k' k then (k, v) :: d' else (k', v') :: dict_set k v d'
  end.

(** [d.pop(k, None)] *)
Fixpoint dict_pop {V : Type} (k : pystr) (d : list (pystr * V))
  : list (pystr * V) :=
  match d with
  | [] => []
  | (k', v') :: d' =>
      if pystr_eqb k' k then dict_pop k d' else (k', v') :: dict_pop k d'
  end.

(** [{k: v for k, v in items}]: a later item overwrites an earlier one
    with the same key. *)
Definition dict_of_items {V : Type} (items : list (pystr * V))
  : list (pystr * V) :=
  fold_left (fun d kv => dict_set (fst kv) (snd kv) d) items [].

(** [s.split(sep)] for a one-character separator. *)
Fixpoint split_on (sep : N) (s : pystr) : list pystr :=
  match s with
  | [] => [[]]
  | c :: s' =>
      if (c =? sep)%N then [] :: split_on sep s'
      else match split_on sep s' with
           | [] => [[c]]
           | p :: ps => (c :: p) :: ps
           end
  end.

Definition nonempty (s : pystr) : bool :=
  match s with [] => false | _ => true end.

(** ** Encoding to UTF-8

    [s.encode("utf-8")] fails on a lone surrogate (a code point from
    U+D800 to U+DFFF) and on nothing else. *)

Definition is_surrogate (c : N) : bool := ((55296 <=? c) && (c <=? 57343))%N.

Definition encodable (s : pystr) : bool :=
  forallb (fun c => negb (is_surrogate c)) s.

Definition utf8_char (c : N) : list N :=
  if (c <? 128)%N then [c]
  else if (c <? 2048)%N then [192 + c / 64; 128 + c mod 64]%N
  else if (c <? 65536)%N then
    [224 + c / 4096; 128 + (c / 64) mod 64; 128 + c mod 64]%N
  else
    [240 + c / 262144; 128 + (c / 4096) mod 64; 128 + (c / 64) mod 64;
     128 + c mod 64]%N.

Definition utf8_bytes (s : pystr) : list N := flat_map utf8_char s.

Definition hex_digit (d : N) : N :=
  if (d <? 10)%N then (48 + d)%N else (87 + d)%N.

(** Four lower-case hexadecimal digits. *)
Definition hex4 (c : N) : pystr :=
  [ hex_digit ((c / 4096) mod 16); hex_digit ((c / 256) mod 16);
    hex_digit ((c / 16) mod 16); hex_digit (c mod 16) ]%N.

Fixpoint take_surrogates (s : pystr) : pystr :=
  match s with
  | [] => []
  | c :: s' => if is_surrogate c then c :: take_surrogates s' else []
  end.

(** The position of the first surrogate and the run of surrogates that
    begins there. *)
Fixpoint first_surrogates (i : nat) (s : pystr) : nat * pystr :=
  match s with
  | [] => (i, [])
  | c :: s' =>
      if is_surrogate c then (i, c :: take_surrogates s')
      else first_surrogates (S i) s'
  end.

(** The [UnicodeEncodeError] that [s.encode("utf-8")] raises. *)
Definition encode_error (s : pystr) : exn :=
  let (i, run) := first_surrogates 0 s in
  mkExn UnicodeEncodeError
    (lit "'utf-8' codec can't encode "
     ++ match run with
        | [c] =>
            lit "character '\u" ++ hex4 c ++ lit "' in position "
            ++ str_of_nat i
        | _ =>
            lit "characters in position " ++ str_of_nat i ++ lit "-"
            ++ str_of_nat (i + length run - 1)
        end
     ++ lit ": surrogates not allowed").

(** [s.encode("utf-8")] *)
Definition encode_utf8 (s : pystr) : result (list N) :=
  if encodable s then Ok (utf8_bytes s) else Raise (encode_error s).

(** ** Serialisation to JSON text

    [json.dumps(v, ensure_ascii=False)]: the separators are [", "] and
    [": "]; in a string only the quote, the backslash and the control
    characters below U+0020 are escaped.  [float_repr] is [float.__repr__]
    on finite floats. *)

Definition escape_char (c : N) : pystr :=
  if (c =? 34)%N then lit "\" ++ [34%N]
  else if (c =? 92)%N then lit "\\"
  else if (c =? 10)%N then lit "\n"
  else if (c =? 13)%N then lit "\r"
  else if (c =? 9)%N then lit "\t"
  else if (c =? 8)%N then lit "\b"
  else if (c =? 12)%N then lit "\f"
  else if (c <? 32)%N then lit "\u" ++ hex4 c
  else [c].

Definition quoted (s : pystr) : pystr :=
  [34%N] ++ flat_map escape_char s ++ [34%N].

(** [str(z)] for an integer. *)
Definition str_of_Z (z : Z) : pystr :=
  if (z <? 0)%Z then lit "-" ++ str_of_nat (Z.to_nat (- z))
  else str_of_nat (Z.to_nat z).

Section Dumps.

Variable float_repr : pyfloat -> pystr.

Fixpoint dumps (v : json) : pystr :=
  match v with
  | JNull => lit "null"
  | JBool true => lit "true"
  | JBool false => lit "false"
  | JInt z => str_of_Z z
  | JFloat NaN => lit "NaN"
  | JFloat (Infinity false) => lit "Infinity"
  | JFloat (Infinity true) => lit "-Infinity"
  | JFloat f => float_repr f
  | JStr s => quoted s
  | JArr items => lit "[" ++ join (lit ", ") (map dumps items) ++ lit "]"
  | JObj fields =>
      lit "{"
      ++ join (lit ", ")
           (map (fun kv => let '(k, x) := kv in
                           quoted k ++ lit ": " ++ dumps x) fields)
      ++ lit "}"
  end.

End Dumps.

Lemma pystr_eqb_eq (a b : pystr) : pystr_eqb a b = true <-> a = b.
Proof.
  unfold pystr_eqb. destruct (list_eq_dec N.eq_dec a b); split; congruence.
Qed.

Lemma pystr_eqb_refl (a : pystr) : pystr_eqb a a = true.
Proof. now apply pystr_eqb_eq. Qed.

Lemma pystr_eqb_neq (a b : pystr) : pystr_eqb a b = false <-> a <> b.
Proof.
  unfold pystr_eqb. destruct (list_eq_dec N.eq_dec a b); split; congruence.
Qed.

Lemma lstrip_all_space (s : pystr) :
  forallb isspace s = true -> lstrip s = [].
Proof.
  induction s as [|c s IH]; simpl; [reflexivity|].
  intros H. apply andb_true_iff in H as [Hc Hs]. rewrite Hc. now apply IH.
Qed.

Lemma strip_whitespace_only (s : pystr) :
  forallb isspace s = true -> strip s = [].
Proof.
  intros H. unfold strip. now rewrite (lstrip_all_space s H).
Qed.

Lemma length_join (sep : pystr) (parts : list pystr) :
  length (join sep parts) =
  (list_sum (map (@length N) parts) + length sep * pred (length parts))%nat.
Proof.
  induction parts as [|p ps IH]; [simpl; lia|].
  destruct ps as [|q ps].
  - simpl. lia.
  - change (join sep (p :: q :: ps)) with (p ++ sep ++ join sep (q :: ps)).
    rewrite !length_app, IH. simpl. lia.
Qed.

(** *** Facts about encoding *)

Lemma encodable_app (a b : pystr) :
  encodable (a ++ b) = encodable a && encodable b.
Proof. unfold encodable. apply forallb_app. Qed.

Lemma encode_utf8_ok (s : pystr) :
  encodable s = true -> encode_utf8 s = Ok (utf8_bytes s).
Proof. intros H. unfold encode_utf8. now rewrite H. Qed.

Lemma encode_utf8_raise (s : pystr) :
  encodable s = false -> encode_utf8 s = Raise (encode_error s).
Proof. intros H. unfold encode_utf8. now rewrite H. Qed.

Lemma small_not_surrogate (c : N) : (c < 55296)%N -> is_surrogate c = false.
Proof.
  intros H. unfold is_surrogate.
  destruct (55296 <=? c)%N eqn:E; [|reflexivity].
  apply N.leb_le in E. lia.
Qed.

Lemma encodable_small (s : pystr) :
  Forall (fun c => (c < 55296)%N) s -> encodable s = true.
Proof.
  induction 1 as [|c s Hc _ IH]; [reflexivity|].
  unfold encodable in *. cbn [forallb].
  now rewrite (small_not_surrogate c Hc), IH.
Qed.

(** A text written with one-byte characters can be encoded. *)
Lemma encodable_bytes_of (s : string) : encodable (bytes_of s) = true.
Proof.
  apply encodable_small. unfold bytes_of.
  apply Forall_forall. intros c Hc.
  apply in_map_iff in Hc as (a & <- & _).
  pose proof (N_ascii_bounded a). lia.
Qed.

Lemma encodable_str_of_nat (n : nat) : encodable (str_of_nat n) = true.
Proof. apply encodable_bytes_of. Qed.

Lemma hex_digit_small (d : N) : (hex_digit d < 55296)%N \/ (16 <= d)%N.
Proof.
  unfold hex_digit. destruct (d <? 10)%N eqn:E.
  - apply N.ltb_lt in E. left. lia.
  - destruct (N.lt_ge_cases d 16); [left; lia | now right].
Qed.

Lemma encodable_hex4 (c : N) : encodable (hex4 c) = true.
Proof.
  apply encodable_small. unfold hex4.
  repeat apply Forall_cons; try apply Forall_nil;
    match goal with
    | |- (hex_digit ?d < _)%N =>
        destruct (hex_digit_small d) as [H|H]; [exact H|];
        exfalso;
        match d with
        | (?x mod 16)%N => pose proof (N.mod_lt x 16 ltac:(discriminate)); lia
        end
    end.
Qed.

Lemma encodable_escape_char (c : N) :
  encodable (escape_char c) = negb (is_surrogate c).
Proof.
  unfold escape_char.
  destruct (N.eqb_spec c 34) as [->|_]; [reflexivity|].
  destruct (N.eqb_spec c 92) as [->|_]; [reflexivity|].
  destruct (N.eqb_spec c 10) as [->|_]; [reflexivity|].
  destruct (N.eqb_spec c 13) as [->|_]; [reflexivity|].
  destruct (N.eqb_spec c 9) as [->|_]; [reflexivity|].
  destruct (N.eqb_spec c 8) as [->|_]; [reflexivity|].
  destruct (N.eqb_spec c 12) as [->|_]; [reflexivity|].
  destruct (c <? 32)%N eqn:E.
  - apply N.ltb_lt in E.
    rewrite encodable_app, encodable_hex4.
    rewrite (small_not_surrogate c) by lia. reflexivity.
  - unfold encodable. cbn [forallb]. now rewrite andb_true_r.
Qed.

Lemma encodable_escaped (s : pystr) :
  encodable (flat_map escape_char s) = encodable s.
Proof.
  induction s as [|c s IH]; [reflexivity|].
  cbn [flat_map]. rewrite encodable_app, encodable_escape_char, IH.
  reflexivity.
Qed.

(** Quoting a string neither adds nor removes a surrogate. *)
Lemma encodable_quoted (s : pystr) : encodable (quoted s) = encodable s.
Proof.
  unfold quoted. rewrite !encodable_app, encodable_escaped.
  change (encodable [34%N]) with true. now rewrite andb_true_r.
Qed.

Lemma encodable_join (sep : pystr) (parts : list pystr) :
  encodable sep = true ->
  encodable (join sep parts) = forallb encodable parts.
Proof.
  intros Hsep. induction parts as [|p ps IH]; [reflexivity|].
  destruct ps as [|q ps].
  - cbn [join forallb]. now rewrite andb_true_r.
  - change (join sep (p :: q :: ps)) with (p ++ sep ++ join sep (q :: ps)).
    rewrite !encodable_app, Hsep, IH. reflexivity.
Qed.

(** The text of the encoding error is plain ASCII. *)
Lemma encode_error_encodable (s : pystr) :
  encodable (exn_msg (encode_error s)) = true.
Proof.
  unfold encode_error.
  destruct (first_surrogates 0 s) as [i run]. cbn [exn_msg].
  destruct run as [|c [|c' run]];
    rewrite ?encodable_app, ?encodable_str_of_nat, ?encodable_hex4;
    reflexivity.
Qed.

End Py.

Import Py.

(* ================================================================== *)
(** * taba_agent.py: the static lookup tools *)
(* ================================================================== *)

Module taba_agent.

Definition BEER_SHEVA : pystr := Eval vm_compute in lit "באר שבע".
Definition INDUSTRIAL_ZONE : pystr := Eval vm_compute in lit "אזור תעשייה".
Definition PARCELS_ANSWER : pystr := Eval vm_compute in
  lit "המגרשים 123, 456 נמצאים באזור תעשייה בבאר שבע, תכניות בניין עיר: 100/1, 200/2.".
Definition PARCELS_NOT_FOUND : pystr := Eval vm_compute in
  lit "לא נמצאו מגרשים התואמים לקריטריונים.".

Definition PLAN_100_1 : pystr := Eval vm_compute in lit "100/1".
Definition PLAN_ANSWER : pystr := Eval vm_compute in
  lit "תכנית 100/1 מיועדת לאזור תעשייה, מאפשרת 500% זכויות בניה, מטרות: הרחבת אזור תעשייה קיים.".
Definition PLAN_NOT_FOUND : pystr := Eval vm_compute in
  lit "לא נמצאו פרטים לתכנית זו.".

Definition get_parcels_by_zoning (city zoning_type : pystr) : pystr :=
  if pystr_eqb city BEER_SHEVA && pystr_eqb zoning_type INDUSTRIAL_ZONE
  then PARCELS_ANSWER
  else PARCELS_NOT_FOUND.

Definition get_plan_details (plan_number : pystr) : pystr :=
  if pystr_eqb plan_number PLAN_100_1 then PLAN_ANSWER else PLAN_NOT_FOUND.

(** ** The search tool *)

Definition UNKNOWN_NUMBER : pystr := Eval vm_compute in lit "לא ידוע".
Definition UNKNOWN_NAME : pystr := Eval vm_compute in lit "שם לא ידוע".
Definition NO_PLANS : pystr := Eval vm_compute in
  lit "לא נמצאו תכניות תואמות בתוצאות האתר. ייתכן והפרמטרים לא נכונים או שהאתר לא מכיל מידע על החיפוש.".
Definition PLANS_FOUND : pystr := Eval vm_compute in
  lit "התוכניות הבאות נמצאו באתר: ".
Definition CONNECTION_ERROR : pystr := Eval vm_compute in
  lit "שגיאה בחיבור לאתר: ".

(** The query parameters, built key by key from the arguments that are
    not empty. *)
Definition search_params (gush chelka plan locality : pystr)
  : list (pystr * pystr) :=
  let params := [] in
  let params :=
    if nonempty plan then dict_set (lit "number") plan params else params in
  let params :=
    if nonempty locality then dict_set (lit "locality") locality params
    else params in
  let params :=
    if nonempty gush
    then dict_set (lit "__Invariant") (lit "Block")
           (dict_set (lit "block") gush params)
    else params in
  let params :=
    if nonempty chelka then dict_set (lit "lot") chelka params else params in
  params.

(** An element of the result page: the text of its plan-number span and
    of its h4 heading, [None] when [item.find] finds none. *)
Record PlanItem := {
  number_text : option pystr;
  name_text : option pystr
}.

(** The page as the tool reads it: the div elements of class plan-item
    and the a elements of class plan-link, in document order. *)
Record Page := {
  plan_item_divs : list PlanItem;
  plan_links : list PlanItem
}.

(** What fetching the page gives: a [RequestException] of [requests.get]
    or [raise_for_status], another exception, or the parsed page. *)
Inductive Fetch :=
| RequestError (e : exn)
| OtherError (e : exn)
| Fetched (page : Page).

(** The f-string [name (number)] of one item. *)
Definition format_plan (item : PlanItem) : pystr :=
  let number :=
    match number_text item with Some t => t | None => UNKNOWN_NUMBER end in
  let name :=
    match name_text item with Some t => t | None => UNKNOWN_NAME end in
  name ++ lit " (" ++ number ++ lit ")".

(** The [for] loop over the items, appending to [results]. *)
Fixpoint collect_plans (items : list PlanItem) (results : list pystr)
  : list pystr :=
  match items with
  | [] => results
  | item :: rest => collect_plans rest (results ++ [format_plan item])
  end.

Definition search_taba_info (site : list (pystr * pystr) -> Fetch)
    (gush chelka plan locality : pystr) : result pystr :=
  let params := search_params gush chelka plan locality in
  match site params with
  | RequestError e => Ok (CONNECTION_ERROR ++ exn_msg e)
  | OtherError e => Raise e
  | Fetched page =>
      let plan_items :=
        match plan_item_divs page with
        | [] => plan_links page
        | divs => divs
        end in
      let results := collect_plans plan_items [] in
      match results with
      | [] => Ok NO_PLANS
      | _ => Ok (PLANS_FOUND ++ join (lit ", ") results)
      end
  end.

(** The items the tool lists: the divs, or the links when there is no
    div. *)
Definition listed_items (page : Page) : list PlanItem :=
  match plan_item_divs page with
  | [] => plan_links page
  | divs => divs
  end.

Lemma parcels_answers_differ : PARCELS_ANSWER <> PARCELS_NOT_FOUND.
Proof. apply pystr_eqb_neq. vm_compute. reflexivity. Qed.

Lemma plan_answers_differ : PLAN_ANSWER <> PLAN_NOT_FOUND.
Proof. apply pystr_eqb_neq. vm_compute. reflexivity. Qed.

(** C9. Both lookup tools are total functions of their arguments:
    [get_parcels_by_zoning] gives the hardcoded parcel-and-plan answer
    exactly when the city is Be'er Sheva and the zoning type is the
    industrial zone, and the not-found string for every other pair;
    [get_plan_details] gives the hardcoded plan summary exactly when the
    plan number is 100/1, and the not-found string for every other
    input. *)
Theorem static_lookup_tools (city zoning_type plan_number : pystr) :
  (get_parcels_by_zoning city zoning_type = PARCELS_ANSWER <->
     city = BEER_SHEVA /\ zoning_type = INDUSTRIAL_ZONE)
  /\ (~ (city = BEER_SHEVA /\ zoning_type = INDUSTRIAL_ZONE) ->
      get_parcels_by_zoning city zoning_type = PARCELS_NOT_FOUND)
  /\ (get_plan_details plan_number = PLAN_ANSWER <-> plan_number = PLAN_100_1)
  /\ (plan_number <> PLAN_100_1 ->
      get_plan_details plan_number = PLAN_NOT_FOUND).
Proof.
  unfold get_parcels_by_zoning, get_plan_details.
  destruct (pystr_eqb city BEER_SHEVA) eqn:Hc;
    destruct (pystr_eqb zoning_type INDUSTRIAL_ZONE) eqn:Hz;
    destruct (pystr_eqb plan_number PLAN_100_1) eqn:Hp; simpl;
    rewrite ?pystr_eqb_eq, ?pystr_eqb_neq in *;
    pose proof parcels_answers_differ as Hd1;
    pose proof plan_answers_differ as Hd2;
    repeat split; intros; try tauto; try congruence;
    try (exfalso; intuition congruence).
Qed.

Lemma collect_plans_map (items : list PlanItem) :
  forall results,
    collect_plans items results = results ++ map format_plan items.
Proof.
  induction items as [|item rest IH]; intros results; cbn [collect_plans map].
  - now rewrite app_nil_r.
  - rewrite IH, <- app_assoc. reflexivity.
Qed.

(** X21. The query [search_taba_info] sends holds a parameter for each
    argument that is not empty and for no other: number for the plan,
    locality, block for the gush, lot for the chelka; the marker
    __Invariant=Block goes with the block and only with it.  With no
    argument the query is empty. *)
Theorem search_params_follow_arguments (gush chelka plan locality : pystr) :
  let params := search_params gush chelka plan locality in
  dict_get (lit "number") params
  = (if nonempty plan then Some plan else None)
  /\ dict_get (lit "locality") params
     = (if nonempty locality then Some locality else None)
  /\ dict_get (lit "block") params
     = (if nonempty gush then Some gush else None)
  /\ dict_get (lit "__Invariant") params
     = (if nonempty gush then Some (lit "Block") else None)
  /\ dict_get (lit "lot") params
     = (if nonempty chelka then Some chelka else None)
  /\ (forall k v, In (k, v) params ->
                  In k [ lit "number"; lit "locality"; lit "block";
                         lit "__Invariant"; lit "lot" ])
  /\ (gush = [] -> chelka = [] -> plan = [] -> locality = [] ->
      params = []).
Proof.
  cbv zeta. unfold search_params.
  destruct (nonempty plan) eqn:Hp; destruct (nonempty locality) eqn:Hl;
    destruct (nonempty gush) eqn:Hg; destruct (nonempty chelka) eqn:Hc;
    (split; [reflexivity|]); (split; [reflexivity|]);
    (split; [reflexivity|]); (split; [reflexivity|]);
    (split; [reflexivity|]);
    (split;
     [ intros k v Hin; vm_compute in Hin |- *;
       repeat (destruct Hin as [Hin | Hin];
               [inversion Hin; subst; tauto|]);
       contradiction
     | intros -> -> -> ->; cbn [nonempty] in *;
       first [congruence | reflexivity] ]).
Qed.

(** X22. [search_taba_info] turns a request error into a string that
    starts with the connection-error text and ends with the text of the
    exception.  On a fetched page it lists the plan-item divs, or the
    plan-link anchors when there is no div: one entry per item, in page
    order, as name (number), a missing name or number replaced by its
    placeholder.  When neither selector finds anything the answer is the
    not-found string. *)
Theorem search_taba_info_answers
    (site : list (pystr * pystr) -> Fetch)
    (gush chelka plan locality : pystr) :
  let fetch := site (search_params gush chelka plan locality) in
  (forall e, fetch = RequestError e ->
             search_taba_info site gush chelka plan locality
             = Ok (CONNECTION_ERROR ++ exn_msg e))
  /\ (forall page, fetch = Fetched page -> listed_items page = [] ->
                   search_taba_info site gush chelka plan locality
                   = Ok NO_PLANS)
  /\ (forall page, fetch = Fetched page -> listed_items page <> [] ->
                   search_taba_info site gush chelka plan locality
                   = Ok (PLANS_FOUND
                         ++ join (lit ", ")
                              (map format_plan (listed_items page))))
  /\ (forall page, plan_item_divs page <> [] ->
                   listed_items page = plan_item_divs page)
  /\ (forall page, plan_item_divs page = [] ->
                   listed_items page = plan_links page).
Proof.
  cbv zeta. unfold search_taba_info.
  split; [intros e ->; reflexivity|].
  split; [|split; [|split]].
  - intros page -> Hnone. fold (listed_items page).
    now rewrite collect_plans_map, Hnone.
  - intros page -> Hsome. fold (listed_items page).
    rewrite collect_plans_map. cbn [app].
    destruct (listed_items page) as [|item rest]; [congruence|].
    reflexivity.
  - intros page Hdivs. unfold listed_items.
    destruct (plan_item_divs page); [congruence | reflexivity].
  - intros page Hdivs. unfold listed_items. now rewrite Hdivs.
Qed.

Definition a_site (params : list (pystr * pystr)) : Fetch :=
  match dict_get (lit "number") params with
  | Some _ =>
      Fetched {| plan_item_divs := [];
                 plan_links :=
                   [ {| number_text := Some (lit "100/1");
                        name_text := None |} ] |}
  | None => RequestError (mkExn OtherException (lit "timed out"))
  end.

Lemma search_params_follow_arguments_witness :
  search_params [] [] [] [] = []
  /\ dict_get (lit "__Invariant") (search_params (lit "38") [] [] [])
     = Some (lit "Block").
Proof.
  split.
  - exact (proj2 (proj2 (proj2 (proj2 (proj2 (proj2
             (search_params_follow_arguments [] [] [] [])))))) 
             eq_refl eq_refl eq_refl eq_refl).
  - exact (proj1 (proj2 (proj2 (proj2
             (search_params_follow_arguments (lit "38") [] [] []))))).
Defined.

Lemma search_taba_info_answers_witness :
  search_taba_info a_site [] [] [] []
  = Ok (CONNECTION_ERROR ++ lit "timed out")
  /\ search_taba_info a_site [] [] (lit "100/1") []
     = Ok (PLANS_FOUND ++ UNKNOWN_NAME ++ lit " (100/1)").
Proof.
  split.
  - exact (proj1 (search_taba_info_answers a_site [] [] [] []) _ eq_refl).
  - refine (proj1 (proj2 (proj2
              (search_taba_info_answers a_site [] [] (lit "100/1") [])))
              _ eq_refl _).
    discriminate.
Defined.

End taba_agent.

(* ================================================================== *)
(** * chat_server.py *)
(* ================================================================== *)

Module chat_server.

(** ** Configuration (the module-level constants read from the environment) *)

Record Config := {
  OPENAI_API_KEY : pystr;
  CHAT_MODEL : pystr;
  CHAT_USE_RESP : bool;
  PORT : Z;
  VS_API_BASE : pystr;
  VS_API_KEY : pystr;
  CHAT_API_SECRET : pystr;
  CORS_ALLOW_ORIGINS : pystr;      (* the raw value of the variable *)
  LOG_LEVEL : pystr;
  TIMEOUT_S : Z;
  TOP_K_DEFAULT : Z;
  THRESH_DEFAULT : pyfloat;
  requests_installed : bool;       (* [requests is not None] *)
  openai_installed : bool          (* [OpenAI is not None] *)
}.

(** [CORS_ALLOW = [o.strip() for o in value.split(",") if o.strip()]] *)
Definition CORS_ALLOW (cfg : Config) : list pystr :=
  map strip
    (filter (fun o => nonempty (strip o))
       (split_on 44 (CORS_ALLOW_ORIGINS cfg))).

(** ** The data model *)

(** A search result of the vector store.  A field is [None] when the key
    is absent or null, which is what [r.get(key)] returns. *)
Record SearchResult := {
  doc_id : option pystr;
  filename : option pystr;
  score : option pyfloat;
  excerpt : option pystr;
  tags : option json
}.

(** ** CORS *)

Definition allow_origin (cfg : Config) (origin : option pystr)
  : option pystr :=
  match CORS_ALLOW cfg with
  | [] => Some (lit "*")
  | _ =>
      match origin with
      | Some o =>
          if nonempty o && existsb (pystr_eqb o) (CORS_ALLOW cfg)
          then Some o else None
      | None => None
      end
  end.

(** ** Prompt composer *)

Definition NO_CONTEXT : pystr := Eval vm_compute in lit "[אין הקשר ממקורות]".
Definition SOURCE_OPEN : pystr := Eval vm_compute in lit "[מקור: ".

(** [r.get("filename") or r.get("doc_id") or "source"] *)
Definition source_name (r : SearchResult) : pystr :=
  match filename r, doc_id r with
  | Some (c :: s), _ => c :: s
  | _, Some (c :: s) => c :: s
  | _, _ => lit "source"
  end.

(** [(r.get("excerpt") or '').strip()] *)
Definition excerpt_text (r : SearchResult) : pystr :=
  strip (match excerpt r with Some s => s | None => [] end).

(** The f-string [[source: fn] NL ex NL] of one snippet. *)
Definition format_chunk (r : SearchResult) : pystr :=
  SOURCE_OPEN ++ source_name r ++ lit "]" ++ [NL] ++ excerpt_text r ++ [NL].

(** The [for] loop of [build_context], with its two variables [used] and
    [out]; [break] leaves the loop with [out] as it stands. *)
Fixpoint build_context_loop (results : list SearchResult) (max_chars : Z)
    (used : Z) (out : list pystr) : list pystr :=
  match results with
  | [] => out
  | r :: rest =>
      let chunk := format_chunk r in
      if (used + len chunk >? max_chars)%Z then out
      else build_context_loop rest max_chars (used + len chunk)%Z
             (out ++ [chunk])
  end.

Definition build_context (results : list SearchResult) (max_chars : Z)
  : pystr :=
  match results with
  | [] => NO_CONTEXT
  | _ => join [NL] (build_context_loop results max_chars 0 [])
  end.

Definition DEFAULT_MAX_CHARS : Z := 3500.

(** Summed length of the formatted snippets of a list. *)
Definition total_len (rs : list SearchResult) : Z :=
  fold_right (fun r acc => (len (format_chunk r) + acc)%Z) 0%Z rs.

(** The specification's "one chunk's overshoot allowance": the length of
    one formatted snippet of the input, taken as large as the input
    offers. *)
Definition overshoot_allowance (rs : list SearchResult) : Z :=
  fold_right (fun r acc => Z.max (len (format_chunk r)) acc) 0%Z rs.

Definition tiny_result : SearchResult :=
  {| doc_id := None; filename := Some (lit "a"); score := None;
     excerpt := None; tags := None |}.

(** ** Prompt text *)

Definition QUOTE : N := 34.

Definition SYSTEM_HE : pystr := Eval vm_compute in
  join [NL]
    [ lit "אתה מומחה רב-תחומי במקרקעין עבור LOTL.";
      lit "התאם את הכובע המקצועי לתוכן השאלה:";
      lit "- שמאי מקרקעין: הערכות שווי, עסקאות השוואה, תקינה שמאית.";
      lit "- אדריכל/מתכנן: ייעודי קרקע, קווי בניין, זכויות בנייה, תב" ++ [QUOTE] ++ lit "עות.";
      lit "- עו" ++ [QUOTE] ++ lit "ד מקרקעין/תכנון: היתרים, חריגות, הליכים סטטוטוריים, סיכונים משפטיים.";
      lit "- מודד/קדסטר: גושים/חלקות, מדידות, מפות.";
      lit "- מיסוי מקרקעין: מס רכישה, שבח, היטלי השבחה.";
      lit "כל תשובה תישען על מקורות שנשלפו מהמאגרים (RAG). כאשר אין ראיה מספקת, כתוב: 'על פי הידוע לי כעת, ייתכן חוסר או שינוי במידע'.";
      lit "אל תמציא עובדות. כתוב עברית מקצועית ותמציתית, והוסף בסוגריים שמות קבצים/מסמכים כמקורות היכן שרלוונטי.";
      lit "הוסף 'הסתייגויות' בסוף במקרה של אי-ודאות או שונות בין מקורות.";
      lit "אין לראות באמור ייעוץ משפטי/שמאות מחייב." ].

(** [TEMPLATE_HE.format(question=question, n=n, context=context)] *)
Definition TEMPLATE_HE (question : pystr) (n : nat) (context : pystr)
  : pystr :=
  lit "שאלה: " ++ question ++ [NL; NL]
  ++ lit "מקטעי רקע רלוונטיים (עד " ++ str_of_nat n ++ lit "):" ++ [NL]
  ++ context ++ [NL; NL]
  ++ lit "הנחיות ניסוח:" ++ [NL]
  ++ lit "- ענה בתמצית, במבנה נקודתי ברור." ++ [NL]
  ++ lit "- ציין מקורות בקצרה (שם קובץ/מסמך)." ++ [NL]
  ++ lit "- אם יש פערים/סתירות במקורות – הדגש והצע דרך בדיקה." ++ [NL].

(** A chat message [{"role": role, "content": content}]. *)
Definition message := (pystr * pystr)%type.

Definition compose_messages (question : pystr) (results : list SearchResult)
  : list message :=
  let ctx := build_context results DEFAULT_MAX_CHARS in
  let prompt := TEMPLATE_HE question (length results) ctx in
  [ (lit "system", SYSTEM_HE); (lit "user", prompt) ].

(** ** The outside world

    The service talks to three collaborators: the vector store (through
    [requests.post]), the language-model provider (through the client
    object), and the HTTP client that sent the request.  What they answer
    is read from an [Env]; what the service does to them is recorded in
    the [trace] of the [State]. *)

Record Usage := {
  prompt_tokens : option Z;
  completion_tokens : option Z
}.

(** The object [responses.create] returns. *)
Record ResponsesReply := {
  output_text : option pystr;
  responses_usage : option Usage
}.

(** The object [chat.completions.create] returns: the list holds
    [c.choices[i].message.content]. *)
Record ChatCompletion := {
  message_contents : list (option pystr);
  completion_usage : option Usage
}.

(** The items of a streamed completion.  For [content] and [delta],
    [None] stands for a missing attribute or for the value [None]; for
    [choices] it stands for a missing attribute. *)
Record Delta := { content : option pystr }.
Record Choice := { delta : option Delta }.
Record ChatChunk := { choices : option (list Choice) }.

(** A streamed completion: the items it delivers, and the exception that
    ends the iteration if it does not end normally. *)
Record ChatStream := {
  stream_items : list ChatChunk;
  stream_failure : option exn
}.

(** The object [requests.post] returns.  [http_error] is the [HTTPError]
    that [r.raise_for_status()] builds for this response when it raises;
    [json_body] is what [r.json()] returns or raises. *)
Record Response (B : Type) := {
  status_code : Z;
  http_error : exn;
  json_body : result B
}.
Arguments status_code {B} r.
Arguments http_error {B} r.
Arguments json_body {B} r.

(** The exception [r.raise_for_status()] raises, if it raises: the
    requests library raises for the client and server errors, that is for
    the status codes 400 to 599, and for no other. *)
Definition status_error {B : Type} (r : Response B) : option exn :=
  if ((400 <=? status_code r) && (status_code r <? 600))%Z
  then Some (http_error r) else None.

Inductive Outcome (B : Type) :=
| Transport (e : exn)               (* [requests.post] itself raised *)
| Responded (r : Response B).
Arguments Transport {B} e.
Arguments Responded {B} r.

(** A value that is not a list. *)
Inductive NonList :=
| NLNull
| NLBool (b : bool)
| NLInt (z : Z)
| NLFloat (f : pyfloat)
| NLStr (s : pystr)
| NLObj (fields : list (pystr * json)).

Definition json_of_nonlist (v : NonList) : json :=
  match v with
  | NLNull => JNull
  | NLBool b => JBool b
  | NLInt z => JInt z
  | NLFloat f => JFloat f
  | NLStr s => JStr s
  | NLObj fields => JObj fields
  end.

(** What the vector store sends under "results", and so what
    [rag_search] may return: a list of result dictionaries, or a value
    that is not a list (null, a number, a string, an object). *)
Inductive SearchValue :=
| ResultList (rs : list SearchResult)
| NotAList (v : NonList).

(** The body of a search response as [rag_search] reads it: [ok] is
    [data.get("ok")] and [results] is the value under ["results"], [None]
    when the key is absent. *)
Inductive SearchJson :=
| NotAnObject (type_name : pystr)
| SearchObject (ok : option json) (results : option SearchValue).

Inductive post_data :=
| JsonData (j : json)               (* [data=json.dumps(j)] *)
| RawData (b : list N).

Inductive last_error :=
| NoError
| ErrData (d : SearchJson)
| ErrExn (e : exn).

(** What the service does.  The three [Call...] events mark the entry
    into [rag_search], [llm_answer] and [llm_stream]; the others are the
    calls these functions make. *)
Inductive event :=
| CallRagSearch (query : pystr) (top_k : Z) (threshold : pyfloat)
    (include_text : bool) (filters : json)
| CallLlmAnswer (question : pystr) (results : list SearchResult)
| CallLlmStream (question : pystr) (results : list SearchResult)
| Post (url : pystr) (headers : list (pystr * pystr)) (data : post_data)
    (timeout : Z)
| Sleep
| Log (err : last_error)
| ResponsesCreate (model input : pystr)
| ChatCreate (model : pystr) (messages : list message) (stream : bool)
| PrintExc (e : exn)
| WroteStream (status : Z) (headers : list (pystr * pystr))
    (chunks : list (list N)).     (* written before an exception left *)

Record Env := {
  now : Z;                                     (* [int(time.time())] *)
  server_header : pystr;                       (* sent by [send_response] *)
  date_header : pystr;
  vs_search : nat -> Outcome SearchJson;       (* i-th post to the search *)
  vs_index : Outcome json;                     (* post to the ingestion *)
  responses_create : result ResponsesReply;
  chat_create : result ChatCompletion;
  chat_create_stream : result ChatStream
}.

(** Built-in conversions and codecs of the Python runtime, and the static
    page [CHAT_HTML].  [str_of_float] is also [float.__repr__], which
    [json.dumps] writes for a finite float.  [dumps_error v] is the
    exception [json.dumps(v)] raises, if it raises: it does for an integer
    with more digits than the interpreter converts to text.  [urlparse]
    gives the path and the query of a request target, or raises as
    [urllib.parse.urlparse] does on a malformed host. *)
Record Runtime := {
  int_of_str : pystr -> result Z;              (* [int(s)] *)
  float_of_str : pystr -> result pyfloat;      (* [float(s)] *)
  int_of_json : json -> result Z;              (* [int(v)] *)
  float_of_json : json -> result pyfloat;      (* [float(v)] *)
  str_of_int : Z -> pystr;                     (* [str(n)] *)
  str_of_float : pyfloat -> pystr;
  decode_utf8 : list N -> result pystr;        (* [raw.decode("utf-8")] *)
  json_loads : pystr -> result json;
  dumps_error : json -> option exn;            (* raised by [json.dumps(v)] *)
  urlparse : pystr -> result (pystr * pystr);  (* path and query *)
  parse_qs : pystr -> list (pystr * list pystr);
  CHAT_HTML : pystr
}.

Record State := {
  client_made : bool;                 (* [_client is not None] *)
  search_posts : nat;                 (* posts made to the search so far *)
  trace : list event
}.

(** ** State and exceptions *)

Definition M (A : Type) : Type := State -> result A * State.

Definition ret {A : Type} (a : A) : M A := fun st => (Ok a, st).

Definition raise {A : Type} (e : exn) : M A := fun st => (Raise e, st).

Definition bind {A B : Type} (m : M A) (k : A -> M B) : M B :=
  fun st =>
    match m st with
    | (Ok a, st') => k a st'
    | (Raise e, st') => (Raise e, st')
    end.

(** [try: m except Exception as e: h e] *)
Definition try_except {A : Type} (m : M A) (h : exn -> M A) : M A :=
  fun st =>
    match m st with
    | (Ok a, st') => (Ok a, st')
    | (Raise e, st') => h e st'
    end.

Definition lift {A : Type} (r : result A) : M A := fun st => (r, st).

Definition emit (ev : event) : M unit :=
  fun st =>
    (Ok tt, {| client_made := client_made st;
               search_posts := search_posts st;
               trace := trace st ++ [ev] |}).

Notation "x <- m ;; k" := (bind m (fun x => k))
  (at level 61, m at next level, right associativity).
Notation "m ;;; k" := (bind m (fun _ => k))
  (at level 61, right associativity).

(** ** HTTP messages *)

Inductive Method := GET | POST | OPTIONS.

(** A request as the routes read it, once the target has been parsed:
    [req_path] and [req_query] are [urlparse(self.path).path] and
    [parse_qs] of its query, [req_headers] is [self.headers.items()],
    [req_rfile] the bytes that can be read from [self.rfile].  The
    parsing itself, which can raise, is [parsed_request] below. *)
Record Request := {
  req_command : Method;
  req_path : pystr;
  req_query : list (pystr * list pystr);
  req_headers : list (pystr * pystr);
  req_rfile : list N
}.

(** The request as the handler object holds it: [self.command],
    [self.path] (the request target, not yet parsed), [self.headers] and
    [self.rfile]. *)
Record RawRequest := {
  raw_command : Method;
  raw_path : pystr;
  raw_headers : list (pystr * pystr);
  raw_rfile : list N
}.

(** What [llm_stream] yields: bytes. *)
Definition chunk : Type := list N.

Inductive Body :=
| JsonBody (j : json)               (* [json.dumps(j)] *)
| TextBody (s : pystr)
| StreamBody (chunks : list chunk)
| NoBody.

Record HttpResponse := {
  status : Z;
  sent_headers : list (pystr * pystr);
  body : Body
}.

Definition lower_char (c : N) : N :=
  if ((65 <=? c) && (c <=? 90))%N then (c + 32)%N else c.

Definition lower (s : pystr) : pystr := map lower_char s.

(** [self.headers.get(name)]: header names are ASCII tokens and are
    compared without regard to case; the first match is returned. *)
Fixpoint header_get (name : pystr) (hs : list (pystr * pystr))
  : option pystr :=
  match hs with
  | [] => None
  | (k, v) :: hs' =>
      if pystr_eqb (lower k) (lower name) then Some v
      else header_get name hs'
  end.

Definition header_get_default (name default : pystr)
    (hs : list (pystr * pystr)) : pystr :=
  match header_get name hs with Some v => v | None => default end.

Definition ACAO : pystr := lit "Access-Control-Allow-Origin".
Definition ACAC : pystr := lit "Access-Control-Allow-Credentials".

Definition type_name (v : json) : pystr :=
  match v with
  | JNull => lit "NoneType"
  | JBool _ => lit "bool"
  | JInt _ => lit "int"
  | JFloat _ => lit "float"
  | JStr _ => lit "str"
  | JArr _ => lit "list"
  | JObj _ => lit "dict"
  end.

Definition no_attribute (ty attr : pystr) : exn :=
  mkExn AttributeError
    (lit "'" ++ ty ++ lit "' object has no attribute '" ++ attr ++ lit "'").

Definition index_error : exn :=
  mkExn IndexError (lit "list index out of range").

Definition opt_str (o : option pystr) : json :=
  match o with Some s => JStr s | None => JNull end.

Definition opt_float (o : option pyfloat) : json :=
  match o with Some f => JFloat f | None => JNull end.

Definition opt_int (o : option Z) : json :=
  match o with Some z => JInt z | None => JNull end.

Definition opt_json (o : option json) : json :=
  match o with Some j => j | None => JNull end.

(** [{"prompt": ..., "completion": ...} if usage else None] *)
Definition usage_json (u : option Usage) : json :=
  match u with
  | Some u =>
      JObj [ (lit "prompt", opt_int (prompt_tokens u));
             (lit "completion", opt_int (completion_tokens u)) ]
  | None => JNull
  end.

Definition truthy_opt (o : option json) : bool :=
  match o with Some v => truthy v | None => false end.

(** ** A concrete configuration, runtime and world for closed examples *)

Fixpoint digits_value (acc : Z) (s : pystr) : option Z :=
  match s with
  | [] => Some acc
  | c :: s' =>
      if ((48 <=? c) && (c <=? 57))%N
      then digits_value (acc * 10 + (Z.of_N c - 48))%Z s'
      else None
  end.

Definition invalid_int_literal (s : pystr) : exn :=
  mkExn ValueError
    (lit "invalid literal for int() with base 10: '" ++ s ++ lit "'").

(** [int(s)] on plain decimal digits; anything else is refused. *)
Definition demo_int_of_str (s : pystr) : result Z :=
  match s with
  | [] => Raise (invalid_int_literal s)
  | _ =>
      match digits_value 0 s with
      | Some z => Ok z
      | None => Raise (invalid_int_literal s)
      end
  end.

Definition demo_float_of_str (s : pystr) : result pyfloat :=
  match demo_int_of_str s with
  | Ok z => Ok (Finite z 0)
  | Raise _ =>
      Raise (mkExn ValueError (lit "could not convert string to float"))
  end.

(** The text of a JSON object with the message hi, and the object. *)
Definition HI_BODY : pystr :=
  lit "{" ++ [QUOTE] ++ lit "message" ++ [QUOTE] ++ lit ": "
  ++ [QUOTE] ++ lit "hi" ++ [QUOTE] ++ lit "}".

Definition HI_JSON : json := JObj [ (lit "message", JStr (lit "hi")) ].

(** A request target whose host opens a bracket and does not close it. *)
Definition BAD_TARGET : pystr := lit "http://[x/".

Fixpoint before_query (s : pystr) : pystr * pystr :=
  match s with
  | [] => ([], [])
  | c :: s' =>
      if (c =? 63)%N then ([], s')
      else let (p, q) := before_query s' in (c :: p, q)
  end.

(** [urlparse] on the targets of the examples: [BAD_TARGET] is refused,
    any other target is cut at its first question mark. *)
Definition demo_urlparse (target : pystr) : result (pystr * pystr) :=
  if pystr_eqb target BAD_TARGET
  then Raise (mkExn ValueError (lit "Invalid IPv6 URL"))
  else Ok (before_query target).

(** A runtime whose [int] and [float] read plain decimal digits, whose
    JSON parser knows two documents only, the empty object and
    [HI_BODY], and whose [json.dumps] never raises. *)
Definition demo_rt : Runtime :=
  {| int_of_str := demo_int_of_str;
     float_of_str := demo_float_of_str;
     int_of_json := fun v =>
       match v with
       | JInt z => Ok z
       | _ => Raise (mkExn TypeError (lit "int() argument"))
       end;
     float_of_json := fun v =>
       match v with
       | JFloat f => Ok f
       | JInt z => Ok (Finite z 0)
       | _ => Raise (mkExn TypeError (lit "float() argument"))
       end;
     str_of_int := fun z => str_of_nat (Z.to_nat z);
     str_of_float := fun _ => lit "0";
     decode_utf8 := fun b => Ok (utf8_go 0 0 b);
     json_loads := fun s =>
       if pystr_eqb s (lit "{}") then Ok (JObj [])
       else if pystr_eqb s HI_BODY then Ok HI_JSON
       else Raise (mkExn ValueError (lit "Expecting value"));
     dumps_error := fun _ => None;
     urlparse := demo_urlparse;
     parse_qs := fun _ => [];
     CHAT_HTML := lit "<!doctype html>" |}.

Definition demo_cfg (secret cors : pystr) (with_requests : bool) : Config :=
  {| OPENAI_API_KEY := lit "sk-test";
     CHAT_MODEL := lit "gpt-4o-mini";
     CHAT_USE_RESP := true;
     PORT := 8004;
     VS_API_BASE := lit "http://localhost:8003";
     VS_API_KEY := lit "vs-key";
     CHAT_API_SECRET := secret;
     CORS_ALLOW_ORIGINS := cors;
     LOG_LEVEL := lit "INFO";
     TIMEOUT_S := 60;
     TOP_K_DEFAULT := 5;
     THRESH_DEFAULT := Finite 3602879701896397 (-54);
     requests_installed := with_requests;
     openai_installed := true |}.

Definition a_result : SearchResult :=
  {| doc_id := Some (lit "d1"); filename := Some (lit "plan.pdf");
     score := Some (Finite 3 (-2)); excerpt := Some (lit " zoning text ");
     tags := None |}.

Definition HTTP_ERROR : exn := mkExn OtherException (lit "HTTP error").

Definition search_reply (ok : option json) (rs : list SearchResult)
  : Outcome SearchJson :=
  Responded {| status_code := 200; http_error := HTTP_ERROR;
               json_body := Ok (SearchObject ok (Some (ResultList rs))) |}.

Definition demo_env (search : nat -> Outcome SearchJson)
    (index : Outcome json) : Env :=
  {| now := 1700000000;
     server_header := lit "LOTL-CHAT/1.2";
     date_header := lit "Thu, 01 Jan 2026 00:00:00 GMT";
     vs_search := search;
     vs_index := index;
     responses_create :=
       Ok {| output_text := Some (lit "answer"); responses_usage := None |};
     chat_create :=
       Ok {| message_contents := [Some (lit "answer")];
             completion_usage := None |};
     chat_create_stream :=
       Ok {| stream_items :=
               [ {| choices := Some [ {| delta := Some {| content := Some (lit "an") |} |} ] |};
                 {| choices := Some [ {| delta := Some {| content := Some (lit "swer") |} |} ] |} ];
             stream_failure := None |} |}.

Definition index_ok : Outcome json :=
  Responded {| status_code := 200; http_error := HTTP_ERROR;
               json_body := Ok (JObj [ (lit "ok", JBool true) ]) |}.

Definition env0 : Env :=
  demo_env (fun _ => search_reply (Some (JBool true)) [a_result]) index_ok.

Definition st0 : State :=
  {| client_made := false; search_posts := 0; trace := [] |}.

Definition request (m : Method) (path : pystr)
    (headers : list (pystr * pystr)) (rfile : list N) : Request :=
  {| req_command := m; req_path := path; req_query := [];
     req_headers := headers; req_rfile := rfile |}.

Definition GOOD_ORIGIN : pystr := lit "https://good.example".

Definition BOOM : exn := mkExn OtherException (lit "connection refused").

(** A world in which the vector store and the provider are unreachable. *)
Definition env_down : Env :=
  {| now := 1700000000;
     server_header := lit "LOTL-CHAT/1.2";
     date_header := lit "Thu, 01 Jan 2026 00:00:00 GMT";
     vs_search := fun _ => Transport BOOM;
     vs_index := Transport BOOM;
     responses_create := Raise BOOM;
     chat_create := Raise BOOM;
     chat_create_stream := Raise BOOM |}.


Definition upload_request (content_length : pystr) : Request :=
  request POST (lit "/api/upload")
    [ (lit "Host", lit "chat.example");
      (lit "Content-Length", content_length) ]
    (lit "abc").

Definition chat_request (rfile : list N) : Request :=
  request POST (lit "/api/chat")
    [ (lit "Content-Length", str_of_nat (length rfile)) ] rfile.

(** The world of [env0] with a provider that is down. *)
Definition env_llm_down : Env :=
  {| now := now env0;
     server_header := server_header env0;
     date_header := date_header env0;
     vs_search := vs_search env0;
     vs_index := vs_index env0;
     responses_create := Raise BOOM;
     chat_create := Raise BOOM;
     chat_create_stream := Raise BOOM |}.

Definition cfg_fallback : Config :=
  {| OPENAI_API_KEY := lit "sk-test";
     CHAT_MODEL := lit "gpt-4o-mini";
     CHAT_USE_RESP := false;
     PORT := 8004;
     VS_API_BASE := lit "http://localhost:8003";
     VS_API_KEY := lit "vs-key";
     CHAT_API_SECRET := [];
     CORS_ALLOW_ORIGINS := [];
     LOG_LEVEL := lit "INFO";
     TIMEOUT_S := 60;
     TOP_K_DEFAULT := 5;
     THRESH_DEFAULT := Finite 3602879701896397 (-54);
     requests_installed := true;
     openai_installed := true |}.

(** [demo_rt] with a JSON parser that also knows the empty list. *)
Definition rt_lists : Runtime :=
  {| int_of_str := int_of_str demo_rt;
     float_of_str := float_of_str demo_rt;
     int_of_json := int_of_json demo_rt;
     float_of_json := float_of_json demo_rt;
     str_of_int := str_of_int demo_rt;
     str_of_float := str_of_float demo_rt;
     decode_utf8 := decode_utf8 demo_rt;
     json_loads := fun s =>
       if pystr_eqb s (lit "[]") then Ok (JArr []) else json_loads demo_rt s;
     dumps_error := dumps_error demo_rt;
     urlparse := urlparse demo_rt;
     parse_qs := parse_qs demo_rt;
     CHAT_HTML := CHAT_HTML demo_rt |}.

(** A configuration without provider key. *)
Definition cfg_no_key : Config :=
  {| OPENAI_API_KEY := [];
     CHAT_MODEL := lit "gpt-4o-mini";
     CHAT_USE_RESP := true;
     PORT := 8004;
     VS_API_BASE := lit "http://localhost:8003";
     VS_API_KEY := [];
     CHAT_API_SECRET := [];
     CORS_ALLOW_ORIGINS := lit " , ,";
     LOG_LEVEL := lit "WARNING";
     TIMEOUT_S := 60;
     TOP_K_DEFAULT := 5;
     THRESH_DEFAULT := Finite 3602879701896397 (-54);
     requests_installed := true;
     openai_installed := true |}.

Definition stream_request (top_k : pystr) : Request :=
  {| req_command := GET;
     req_path := lit "/api/chat/stream";
     req_query := [ (lit "q", [lit " hi "]); (lit "top_k", [top_k]);
                    (lit "threshold", [lit "1"]) ];
     req_headers := [];
     req_rfile := [] |}.

(** A text written with apostrophes for the double quotes. *)
Definition json_text (s : string) : pystr :=
  map (fun c => if (c =? 39)%N then QUOTE else c) (lit s).

(** [demo_rt] with a [repr] that knows the score 0.75 of [a_result]. *)
Definition demo_float_repr (f : pyfloat) : pystr :=
  match f with
  | Finite m e => if ((m =? 3) && (e =? -2))%Z then lit "0.75" else lit "0.0"
  | Infinity negative => if negative then lit "-inf" else lit "inf"
  | NaN => lit "nan"
  end.

Definition rt_floats : Runtime :=
  {| int_of_str := int_of_str demo_rt;
     float_of_str := float_of_str demo_rt;
     int_of_json := int_of_json demo_rt;
     float_of_json := float_of_json demo_rt;
     str_of_int := str_of_int demo_rt;
     str_of_float := demo_float_repr;
     decode_utf8 := decode_utf8 demo_rt;
     json_loads := json_loads demo_rt;
     dumps_error := dumps_error demo_rt;
     urlparse := urlparse demo_rt;
     parse_qs := parse_qs demo_rt;
     CHAT_HTML := CHAT_HTML demo_rt |}.

(** An integer of 4301 digits, and a runtime whose [json.dumps] refuses a
    top_k that long. *)
Definition HUGE : Z := (10 ^ 4300)%Z.

Definition DIGITS_ERROR : exn :=
  mkExn ValueError
    (lit "Exceeds the limit (4300 digits) for integer string conversion").

Definition rt_limit : Runtime :=
  {| int_of_str := int_of_str demo_rt;
     float_of_str := float_of_str demo_rt;
     int_of_json := int_of_json demo_rt;
     float_of_json := float_of_json demo_rt;
     str_of_int := str_of_int demo_rt;
     str_of_float := str_of_float demo_rt;
     decode_utf8 := decode_utf8 demo_rt;
     json_loads := json_loads demo_rt;
     dumps_error := fun v =>
       match v with
       | JObj fields =>
           match dict_get (lit "top_k") fields with
           | Some (JInt z) =>
               if (HUGE <=? Z.abs z)%Z then Some DIGITS_ERROR else None
           | _ => None
           end
       | _ => None
       end;
     urlparse := urlparse demo_rt;
     parse_qs := parse_qs demo_rt;
     CHAT_HTML := CHAT_HTML demo_rt |}.

(** The vector store answers every search with status 300, a true flag
    and one result. *)
Definition redirect_reply : Outcome SearchJson :=
  Responded {| status_code := 300; http_error := HTTP_ERROR;
               json_body :=
                 Ok (SearchObject (Some (JBool true))
                       (Some (ResultList [a_result]))) |}.

Definition env_redirect : Env := demo_env (fun _ => redirect_reply) index_ok.

(** The vector store answers every search with
    [{"ok": true, "results": null}]. *)
Definition null_reply : Outcome SearchJson :=
  Responded {| status_code := 200; http_error := HTTP_ERROR;
               json_body :=
                 Ok (SearchObject (Some (JBool true))
                       (Some (NotAList NLNull))) |}.

Definition env_null : Env := demo_env (fun _ => null_reply) index_ok.

(** A result whose doc_id ends with a lone surrogate. *)
Definition surrogate_result : SearchResult :=
  {| doc_id := Some (lit "d" ++ [55296%N]);
     filename := Some (lit "plan.pdf");
     score := Some (Finite 3 (-2)); excerpt := None; tags := None |}.

Definition raw_request (m : Method) (target : pystr)
    (headers : list (pystr * pystr)) (rfile : list N) : RawRequest :=
  {| raw_command := m; raw_path := target;
     raw_headers := headers; raw_rfile := rfile |}.

Definition text_item (s : pystr) : ChatChunk :=
  {| choices := Some [ {| delta := Some {| content := Some s |} |} ] |}.

Definition no_choice_item : ChatChunk := {| choices := Some [] |}.

(** ** Specification vocabulary *)

(** A failed attempt against the vector store, as the claim words it: a
    transport error, a status outside 200 to 299, or a response whose
    success flag is absent or false. *)
Inductive claimed_failure : Outcome SearchJson -> Prop :=
| claimed_transport (e : exn) : claimed_failure (Transport e)
| claimed_status (r : Response SearchJson) :
    ~ (200 <= status_code r < 300)%Z -> claimed_failure (Responded r)
| claimed_flag_absent (r : Response SearchJson) results :
    json_body r = Ok (SearchObject None results) ->
    claimed_failure (Responded r)
| claimed_flag_false (r : Response SearchJson) results :
    json_body r = Ok (SearchObject (Some (JBool false)) results) ->
    claimed_failure (Responded r).

Definition is_post (ev : event) : bool :=
  match ev with Post _ _ _ _ => true | _ => false end.

(** The number of [requests.post] calls among some events. *)
Definition posts_in (evs : list event) : nat := length (filter is_post evs).

(** ** The service *)

Section Server.

Variable cfg : Config.
Variable env : Env.
Variable rt : Runtime.

(** [client()]: the lazily created, then reused, API client. *)
Definition client : M unit :=
  fun st =>
    if nonempty (OPENAI_API_KEY cfg) then
      if client_made st then (Ok tt, st)
      else if openai_installed cfg then
        (Ok tt, {| client_made := true;
                   search_posts := search_posts st;
                   trace := trace st |})
      else (Raise (mkExn RuntimeError (lit "Missing 'openai' package")), st)
    else (Raise (mkExn RuntimeError (lit "Missing OPENAI_API_KEY")), st).

(** [log(...)] prints when [LOG_LEVEL in ("DEBUG", "INFO")]. *)
Definition log (err : last_error) : M unit :=
  if pystr_eqb (LOG_LEVEL cfg) (lit "DEBUG")
     || pystr_eqb (LOG_LEVEL cfg) (lit "INFO")
  then emit (Log err) else ret tt.

(** *** RAG client *)

(** [requests.post(url, headers=..., data=json.dumps(body), timeout=...)]
    against the search endpoint.  The argument [json.dumps(body)] is
    evaluated first: when it raises, no post is made. *)
Definition post_search (url : pystr) (headers : list (pystr * pystr))
    (body : json) : M (Response SearchJson) :=
  fun st =>
    match dumps_error rt body with
    | Some e => (Raise e, st)
    | None =>
        let st' := {| client_made := client_made st;
                      search_posts := S (search_posts st);
                      trace := trace st
                               ++ [Post url headers (JsonData body)
                                     (TIMEOUT_S cfg)] |} in
        match vs_search env (search_posts st) with
        | Transport e => (Raise e, st')
        | Responded r => (Ok r, st')
        end
    end.

(** [r.raise_for_status()] *)
Definition raise_for_status {B : Type} (r : Response B) : M unit :=
  match status_error r with
  | Some e => raise e
  | None => ret tt
  end.

(** How one pass through the body of the [for] loop ends: by [return],
    or by falling through to the next iteration with [last_err] set. *)
Inductive attempt :=
| Returned (results : SearchValue)
| Failed (err : last_error).

(** The [try] statement inside the loop of [rag_search]. *)
Definition search_attempt (url : pystr) (headers : list (pystr * pystr))
    (body : json) : M attempt :=
  try_except
    (r <- post_search url headers body ;;
     raise_for_status r ;;;
     data <- lift (json_body r) ;;
     match data with
     | NotAnObject ty => raise (no_attribute ty (lit "get"))
     | SearchObject ok results =>
         if truthy_opt ok
         then ret (Returned (match results with
                             | Some v => v
                             | None => ResultList []
                             end))
         else ret (Failed (ErrData data))
     end)
    (fun e => emit Sleep ;;; ret (Failed (ErrExn e))).

(** [for _ in range(n): ...], followed by the code after the loop.  The
    value under "results" is returned as it is. *)
Fixpoint search_loop (n : nat) (url : pystr)
    (headers : list (pystr * pystr)) (body : json) (last_err : last_error)
  : M SearchValue :=
  match n with
  | O => log last_err ;;; ret (ResultList [])
  | S n' =>
      a <- search_attempt url headers body ;;
      match a with
      | Returned v => ret v
      | Failed err => search_loop n' url headers body err
      end
  end.

Definition rag_search (query : pystr) (top_k : Z) (threshold : pyfloat)
    (include_text : bool) (filters : option json)
  : M SearchValue :=
  let filters' :=
    match filters with
    | Some f => if truthy f then f else JObj []
    | None => JObj []
    end in
  emit (CallRagSearch query top_k threshold include_text filters') ;;;
  if negb (requests_installed cfg) then ret (ResultList [])
  else
    let url := VS_API_BASE cfg ++ lit "/api/vs/search" in
    let headers := [ (lit "Content-Type", lit "application/json") ] in
    let headers :=
      if nonempty (VS_API_KEY cfg)
      then dict_set (lit "X-LOT-KEY") (VS_API_KEY cfg) headers
      else headers in
    let body :=
      JObj [ (lit "query", JStr query);
             (lit "top_k", JInt top_k);
             (lit "threshold", JFloat threshold);
             (lit "include_text", JBool include_text);
             (lit "filters", filters') ] in
    search_loop 2 url headers body NoError.

(** *** LLM invoker *)

(** [client().responses.create(model=..., input=..., temperature=0.2)] *)
Definition call_responses (input : pystr) : M ResponsesReply :=
  client ;;;
  emit (ResponsesCreate (CHAT_MODEL cfg) input) ;;;
  lift (responses_create env).

(** [client().chat.completions.create(model=..., messages=msgs,
    temperature=0.2)] *)
Definition call_chat (msgs : list message) : M ChatCompletion :=
  client ;;;
  emit (ChatCreate (CHAT_MODEL cfg) msgs false) ;;;
  lift (chat_create env).

(** The same call with [stream=True]. *)
Definition call_chat_stream (msgs : list message) : M ChatStream :=
  client ;;;
  emit (ChatCreate (CHAT_MODEL cfg) msgs true) ;;;
  lift (chat_create_stream env).

(** [msgs[i]["content"]] *)
Definition content_at (i : nat) (msgs : list message) : pystr :=
  snd (nth i msgs ([], [])).

(** The body of the [try] in [llm_answer]: the primary, responses-style
    call on one string, or the forced failure when the flag is off. *)
Definition primary_call (msgs : list message) : M (pystr * json) :=
  if CHAT_USE_RESP cfg then
    let text_input :=
      strip (content_at 0 msgs ++ [NL; NL] ++ content_at 1 msgs) in
    resp <- call_responses text_input ;;
    let txt :=
      strip (match output_text resp with Some s => s | None => [] end) in
    ret (txt, usage_json (responses_usage resp))
  else raise (mkExn RuntimeError (lit "FORCE_FALLBACK")).

(** The body of the [except] in [llm_answer]: the multi-message
    chat-completion call.  Nothing here is inside a [try]. *)
Definition fallback_call (msgs : list message) : M (pystr * json) :=
  c <- call_chat msgs ;;
  txt <- match message_contents c with
         | [] => raise index_error
         | None :: _ => raise (no_attribute (lit "NoneType") (lit "strip"))
         | Some s :: _ => ret (strip s)
         end ;;
  ret (txt, usage_json (completion_usage c)).

Definition source_json (r : SearchResult) : json :=
  JObj [ (lit "doc_id", opt_str (doc_id r));
         (lit "filename", opt_str (filename r));
         (lit "score", opt_float (score r));
         (lit "excerpt", opt_str (excerpt r));
         (lit "tags", opt_json (tags r)) ].

(** The dictionary [llm_answer] returns. *)
Definition answer_json (tu : pystr * json) (results : list SearchResult)
  : json :=
  JObj [ (lit "ok", JBool true);
         (lit "answer", JStr (fst tu));
         (lit "sources", JArr (map source_json results));
         (lit "tokens", snd tu) ].

Definition llm_answer (question : pystr) (results : list SearchResult)
  : M json :=
  emit (CallLlmAnswer question results) ;;;
  let msgs := compose_messages question results in
  tu <- try_except (primary_call msgs) (fun _ => fallback_call msgs) ;;
  ret (answer_json tu results).

Definition not_iterable (ty : pystr) : exn :=
  mkExn TypeError (lit "'" ++ ty ++ lit "' object is not iterable").

Definition no_len (ty : pystr) : exn :=
  mkExn TypeError (lit "object of type '" ++ ty ++ lit "' has no len()").

(** What [compose_messages(question, v)] raises for a value that is not
    a list.  [build_context] returns the placeholder for a falsy value
    and iterates over a truthy one, whose items (the characters of a
    string, the keys of an object) have no [get]; then [len(v)] is
    taken.  Nothing is raised for [''] and [{}]. *)
Definition compose_error (v : NonList) : option exn :=
  match v with
  | NLStr [] | NLObj [] => None
  | NLStr _ | NLObj _ => Some (no_attribute (lit "str") (lit "get"))
  | _ =>
      if truthy (json_of_nonlist v)
      then Some (not_iterable (type_name (json_of_nonlist v)))
      else Some (no_len (type_name (json_of_nonlist v)))
  end.

(** [llm_answer(question, v)] for whatever [rag_search] returned.  On a
    value that is not a list the first line, [compose_messages], raises,
    except on [''] and [{}], which have no item and length 0 as the empty
    list has. *)
Definition llm_answer_any (question : pystr) (v : SearchValue) : M json :=
  match v with
  | ResultList rs => llm_answer question rs
  | NotAList o =>
      match compose_error o with
      | Some e => raise e
      | None => llm_answer question []
      end
  end.

Definition meta_json (r : SearchResult) : json :=
  JObj [ (lit "doc_id", opt_str (doc_id r));
         (lit "filename", opt_str (filename r));
         (lit "score", opt_float (score r)) ].

(** The document of the meta line and that of the error line. *)
Definition meta_doc (results : list SearchResult) : json :=
  JObj [ (lit "type", JStr (lit "meta"));
         (lit "sources", JArr (map meta_json results)) ].

Definition error_doc (e : exn) : json :=
  JObj [ (lit "type", JStr (lit "error"));
         (lit "detail", JStr (exn_msg e)) ].

(** [json.dumps(v, ensure_ascii=False)] *)
Definition json_dumps (v : json) : pystr := dumps (str_of_float rt) v.

(** The first [yield]: the meta line, encoded. *)
Definition meta_line (results : list SearchResult) : result chunk :=
  encode_utf8 (json_dumps (meta_doc results) ++ [NL]).

(** The [yield] of the [except] clause. *)
Definition error_line (e : exn) : result chunk :=
  encode_utf8 ([NL] ++ json_dumps (error_doc e) ++ [NL]).

(** The [for chunk in stream] loop as far as it reads the stream: the
    texts it reaches, and the exception that interrupts it, if one does.
    An item without choices, without a delta or without text is skipped;
    an empty list of choices makes [choices[0]] raise. *)
Fixpoint relay (items : list ChatChunk) : list pystr * option exn :=
  match items with
  | [] => ([], None)
  | ch :: rest =>
      match choices ch with
      | Some [] => ([], Some index_error)
      | Some (c :: _) =>
          match delta c with
          | Some d =>
              match content d with
              | Some (x :: s) =>
                  let (fs, e) := relay rest in ((x :: s) :: fs, e)
              | _ => relay rest
              end
          | None => relay rest
          end
      | None => relay rest
      end
  end.

(** [yield txt.encode("utf-8")] for the texts the loop reaches, one after
    the other: the chunks yielded, up to the first text that cannot be
    encoded, and the exception it raises. *)
Fixpoint encode_texts (texts : list pystr) : list chunk * option exn :=
  match texts with
  | [] => ([], None)
  | t :: rest =>
      match encode_utf8 t with
      | Raise e => ([], Some e)
      | Ok b => let (bs, e) := encode_texts rest in (b :: bs, e)
      end
  end.

(** What the body of the [try] of [llm_stream] yields once the stream
    object is there, and the exception that ends it, if one does: the
    encoded texts, then the final newline when nothing was raised. *)
Definition stream_frames (s : ChatStream) : list chunk * option exn :=
  let (texts, interrupted) := relay (stream_items s) in
  let (frames, unencodable) := encode_texts texts in
  match unencodable with
  | Some e => (frames, Some e)
  | None =>
      match interrupted with
      | Some e => (frames, Some e)
      | None =>
          match stream_failure s with
          | Some e => (frames, Some e)
          | None => (frames ++ [[NL]], None)
          end
      end
  end.

(** The [except] clause of [llm_stream]: the error line, or the exception
    its encoding raises, which then leaves the generator. *)
Definition closing (e : exn) : list chunk * option exn :=
  match error_line e with
  | Ok line => ([line], None)
  | Raise e' => ([], Some e')
  end.

(** [llm_stream], consumed to its end: the chunks it yields, and the
    exception that leaves the generator, if one does.  The meta line is
    built and encoded before the [try]. *)
Definition llm_stream (question : pystr) (results : list SearchResult)
  : M (list chunk * option exn) :=
  emit (CallLlmStream question results) ;;;
  match meta_line results with
  | Raise e => ret ([], Some e)
  | Ok meta =>
      let msgs := compose_messages question results in
      tried <- try_except
                 (s <- call_chat_stream msgs ;; ret (stream_frames s))
                 (fun e => ret ([], Some e)) ;;
      match snd tried with
      | None => ret (meta :: fst tried, None)
      | Some e =>
          ret (meta :: fst tried ++ fst (closing e), snd (closing e))
      end
  end.

(** What the list comprehension of the meta line raises for a value that
    is not a list. *)
Definition meta_error (v : NonList) : option exn :=
  match v with
  | NLStr [] | NLObj [] => None
  | NLStr _ | NLObj _ => Some (no_attribute (lit "str") (lit "get"))
  | _ => Some (not_iterable (type_name (json_of_nonlist v)))
  end.

(** [llm_stream(question, v)] for whatever [rag_search] returned. *)
Definition llm_stream_any (question : pystr) (v : SearchValue)
  : M (list chunk * option exn) :=
  match v with
  | ResultList rs => llm_stream question rs
  | NotAList o =>
      match meta_error o with
      | Some e => ret ([], Some e)
      | None => llm_stream question []
      end
  end.

(** The exception that ends the consumption of a stream, if one does:
    raised while an item is handled, or by the iteration itself. *)
Definition stream_exception (s : ChatStream) : option exn :=
  match snd (relay (stream_items s)) with
  | Some e => Some e
  | None => stream_failure s
  end.

(** *** HTTP front door *)

Definition _send_headers (req : Request) (status : Z)
    (content_type : pystr) (extra : list (pystr * pystr))
  : list (pystr * pystr) :=
  let origin := header_get (lit "Origin") (req_headers req) in
  let allow := allow_origin cfg origin in
  [ (lit "Server", server_header env); (lit "Date", date_header env) ]
  ++ match allow with
     | Some (c :: a) =>
         [ (ACAO, c :: a);
           (lit "Vary", lit "Origin");
           (ACAC, lit "true");
           (lit "Access-Control-Allow-Headers", lit "Content-Type, X-LOT-KEY");
           (lit "Access-Control-Allow-Methods", lit "GET, POST, OPTIONS") ]
     | _ => []
     end
  ++ [ (lit "Cache-Control", lit "no-cache");
       (lit "Content-Type", content_type) ]
  ++ extra.

Definition _send_json (req : Request) (obj : json) (status : Z)
  : HttpResponse :=
  {| status := status;
     sent_headers := _send_headers req status (lit "application/json") [];
     body := JsonBody obj |}.

Definition _auth_ok (req : Request) : bool :=
  if negb (nonempty (CHAT_API_SECRET cfg)) then true
  else pystr_eqb
         (header_get_default (lit "X-LOT-KEY") [] (req_headers req))
         (CHAT_API_SECRET cfg).

Definition UNAUTHORIZED : json :=
  JObj [ (lit "error", JStr (lit "unauthorized")) ].

Definition NOT_FOUND : json :=
  JObj [ (lit "error", JStr (lit "not_found")) ].

Definition EMPTY_QUESTION : pystr := Eval vm_compute in lit "שאלה ריקה.".

Definition error_json (e : exn) : json :=
  JObj [ (lit "ok", JBool false); (lit "error", JStr (exn_msg e)) ].

Definition do_OPTIONS (req : Request) : M HttpResponse :=
  ret {| status := 204;
         sent_headers := _send_headers req 204 (lit "application/json") [];
         body := NoBody |}.

(** [qs.get(key, [default])[0]] *)
Definition qs_first (key default : pystr) (qs : list (pystr * list pystr))
  : result pystr :=
  match dict_get key qs with
  | None => Ok default
  | Some [] => Raise index_error
  | Some (v :: _) => Ok v
  end.

(** [do_GET] after its first line, [parsed = urlparse(self.path)], which
    [serve] below runs first.  The streaming route is modelled for a
    client that reads the stream to its end.  The headers are sent before
    the generator runs: when an exception leaves the generator, it leaves
    [do_GET] too, after the headers and the chunks yielded so far have
    been written. *)
Definition do_GET (req : Request) : M HttpResponse :=
  if pystr_eqb (req_path req) (lit "/health") then
    ret (_send_json req
           (JObj [ (lit "ok", JBool true);
                   (lit "time", JInt (now env));
                   (lit "port", JInt (PORT cfg));
                   (lit "model", JStr (CHAT_MODEL cfg));
                   (lit "vs", JStr (VS_API_BASE cfg)) ]) 200)
  else if pystr_eqb (req_path req) (lit "/api/chat/stream") then
    if negb (_auth_ok req) then ret (_send_json req UNAUTHORIZED 401)
    else
      q0 <- lift (qs_first (lit "q") [] (req_query req)) ;;
      let q := strip q0 in
      k0 <- lift (qs_first (lit "top_k")
                    (str_of_int rt (TOP_K_DEFAULT cfg)) (req_query req)) ;;
      top_k <- lift (int_of_str rt k0) ;;
      t0 <- lift (qs_first (lit "threshold")
                    (str_of_float rt (THRESH_DEFAULT cfg)) (req_query req)) ;;
      thr <- lift (float_of_str rt t0) ;;
      results <- rag_search q top_k thr true None ;;
      run <- llm_stream_any q results ;;
      let sent :=
        _send_headers req 200 (lit "text/plain; charset=utf-8")
          [ (lit "Connection", lit "keep-alive") ] in
      match snd run with
      | None =>
          ret {| status := 200; sent_headers := sent;
                 body := StreamBody (fst run) |}
      | Some e => emit (WroteStream 200 sent (fst run)) ;;; raise e
      end
  else if pystr_eqb (req_path req) (lit "/chat") then
    ret {| status := 200;
           sent_headers :=
             _send_headers req 200 (lit "text/html; charset=utf-8") [];
           body := TextBody (CHAT_HTML rt) |}
  else ret (_send_json req NOT_FOUND 404).

(** [int(self.headers.get("Content-Length", "0"))] *)
Definition content_length (req : Request) : result Z :=
  int_of_str rt
    (header_get_default (lit "Content-Length") (lit "0") (req_headers req)).

(** [self.rfile.read(n)]: [n] bytes, or everything for a negative [n]. *)
Definition rfile_read (req : Request) (n : Z) : list N :=
  if (n <? 0)%Z then req_rfile req
  else firstn (Z.to_nat n) (req_rfile req).

(** [self.rfile.read(n) if n else b"{}"] *)
Definition raw_body (req : Request) (n : Z) : list N :=
  if (n =? 0)%Z then lit "{}" else rfile_read req n.

(** The first three lines of the [try] of the chat route: the parsed
    body, [{}] when there are no bytes. *)
Definition read_json_body (req : Request) : M json :=
  n <- lift (content_length req) ;;
  let raw := raw_body req n in
  match raw with
  | [] => ret (JObj [])
  | _ => s <- lift (decode_utf8 rt raw) ;; lift (json_loads rt s)
  end.

(** [body.get(key)] on whatever [json.loads] returned. *)
Definition body_get (key : pystr) (body : json) : M (option json) :=
  match body with
  | JObj fields => ret (dict_get key fields)
  | v => raise (no_attribute (type_name v) (lit "get"))
  end.

(** [(body.get("message") or '').strip()] *)
Definition message_of (body : json) : M pystr :=
  m <- body_get (lit "message") body ;;
  match m with
  | None => ret []
  | Some v =>
      if truthy v then
        match v with
        | JStr s => ret (strip s)
        | _ => raise (no_attribute (type_name v) (lit "strip"))
        end
      else ret []
  end.

(** The three lines that read [top_k], [threshold] and [filters]. *)
Definition chat_args (body : json) : M (Z * pyfloat * json) :=
  k <- body_get (lit "top_k") body ;;
  top_k <- match k with
           | Some v => lift (int_of_json rt v)
           | None => ret (TOP_K_DEFAULT cfg)
           end ;;
  t <- body_get (lit "threshold") body ;;
  thr <- match t with
         | Some v => lift (float_of_json rt v)
         | None => ret (THRESH_DEFAULT cfg)
         end ;;
  f <- body_get (lit "filters") body ;;
  let filters :=
    match f with
    | Some v => if truthy v then v else JObj []
    | None => JObj []
    end in
  ret (top_k, thr, filters).

Definition CANNED_EMPTY : json :=
  JObj [ (lit "ok", JBool true);
         (lit "answer", JStr EMPTY_QUESTION);
         (lit "sources", JArr []) ].

(** The body of the [try] of the chat route. *)
Definition chat_body (req : Request) : M HttpResponse :=
  body <- read_json_body req ;;
  q <- message_of body ;;
  match q with
  | [] => ret (_send_json req CANNED_EMPTY 200)
  | _ =>
      args <- chat_args body ;;
      let '(top_k, thr, filters) := args in
      results <- rag_search q top_k thr true (Some filters) ;;
      answer <- llm_answer_any q results ;;
      ret (_send_json req answer 200)
  end.

Definition chat_route (req : Request) : M HttpResponse :=
  if negb (_auth_ok req) then ret (_send_json req UNAUTHORIZED 401)
  else
    try_except (chat_body req)
      (fun e =>
         emit (PrintExc e) ;;;
         ret (_send_json req (error_json e) 500)).

(** [requests.post(url, data=body, headers=headers, timeout=...)] against
    the ingestion endpoint. *)
Definition post_index (url : pystr) (headers : list (pystr * pystr))
    (data : list N) : M (Response json) :=
  fun st =>
    let st' := {| client_made := client_made st;
                  search_posts := search_posts st;
                  trace := trace st
                           ++ [Post url headers (RawData data)
                                 (TIMEOUT_S cfg)] |} in
    match vs_index env with
    | Transport e => (Raise e, st')
    | Responded r => (Ok r, st')
    end.

(** The headers the upload route sends upstream. *)
Definition forwarded_headers (req : Request) : list (pystr * pystr) :=
  let headers := dict_of_items (req_headers req) in
  let headers := dict_pop (lit "Host") headers in
  if nonempty (VS_API_KEY cfg)
  then dict_set (lit "X-LOT-KEY") (VS_API_KEY cfg) headers
  else headers.

Definition upload_route (req : Request) : M HttpResponse :=
  if negb (requests_installed cfg) then
    ret (_send_json req
           (JObj [ (lit "ok", JBool false);
                   (lit "error", JStr (lit "requests not installed")) ])
           500)
  else
    try_except
      (n <- lift (content_length req) ;;
       let body := if (n =? 0)%Z then [] else rfile_read req n in
       let headers := forwarded_headers req in
       r <- post_index (VS_API_BASE cfg ++ lit "/api/vs/index")
              headers body ;;
       j <- lift (json_body r) ;;
       ret (_send_json req j (status_code r)))
      (fun e => ret (_send_json req (error_json e) 500)).

(** [do_POST] after its first line, [parsed = urlparse(self.path)],
    which [serve] below runs first. *)
Definition do_POST (req : Request) : M HttpResponse :=
  if pystr_eqb (req_path req) (lit "/api/chat") then chat_route req
  else if pystr_eqb (req_path req) (lit "/api/upload") then upload_route req
  else ret (_send_json req NOT_FOUND 404).

(** Dispatch on the request method, as the base class does. *)
Definition handle (req : Request) : M HttpResponse :=
  match req_command req with
  | GET => do_GET req
  | POST => do_POST req
  | OPTIONS => do_OPTIONS req
  end.

(** The first line of [do_GET] and of [do_POST],
    [parsed = urlparse(self.path)], with [parse_qs(parsed.query)] of the
    streaming route: the request as the routes read it. *)
Definition parsed_request (raw : RawRequest) : result Request :=
  match urlparse rt (raw_path raw) with
  | Raise e => Raise e
  | Ok (path, query) =>
      Ok {| req_command := raw_command raw;
            req_path := path;
            req_query := parse_qs rt query;
            req_headers := raw_headers raw;
            req_rfile := raw_rfile raw |}
  end.

(** The request of [do_OPTIONS], which does not parse the target. *)
Definition unparsed_request (raw : RawRequest) : Request :=
  {| req_command := raw_command raw;
     req_path := raw_path raw;
     req_query := [];
     req_headers := raw_headers raw;
     req_rfile := raw_rfile raw |}.

(** The handler method called for a request, from its first line on.
    [urlparse] is called outside any [try]. *)
Definition serve (raw : RawRequest) : M HttpResponse :=
  match raw_command raw with
  | OPTIONS => do_OPTIONS (unparsed_request raw)
  | _ => req <- lift (parsed_request raw) ;; handle req
  end.

(** ** Vocabulary of the properties *)

(** [post m P]: whenever [m] returns, the value satisfies [P]. *)
Definition post {A : Type} (m : M A) (P : A -> Prop) : Prop :=
  forall st a st', m st = (Ok a, st') -> P a.

(** The values of all headers called [name] in a header list, names
    compared as HTTP compares them. *)
Definition header_values (name : pystr) (hs : list (pystr * pystr))
  : list pystr :=
  map snd (filter (fun kv => pystr_eqb (lower (fst kv)) (lower name)) hs).

(** Every response of the service has the headers [_send_headers]
    writes, with no extra header or with [Connection: keep-alive]. *)
Definition sent_by_send_headers (req : Request) (resp : HttpResponse)
  : Prop :=
  exists status ct extra,
    sent_headers resp = _send_headers req status ct extra
    /\ (extra = [] \/ extra = [ (lit "Connection", lit "keep-alive") ]).

(** How one attempt ends, read off the reply of the vector store. *)
Definition attempt_result (o : Outcome SearchJson) : attempt :=
  match o with
  | Transport e => Failed (ErrExn e)
  | Responded r =>
      match status_error r with
      | Some e => Failed (ErrExn e)
      | None =>
          match json_body r with
          | Raise e => Failed (ErrExn e)
          | Ok (NotAnObject ty) =>
              Failed (ErrExn (no_attribute ty (lit "get")))
          | Ok (SearchObject ok results) =>
              if truthy_opt ok
              then Returned (match results with
                             | Some v => v
                             | None => ResultList []
                             end)
              else Failed (ErrData (SearchObject ok results))
          end
      end
  end.

(** A message field that is absent, null, or a string of whitespace
    only. *)
Definition empty_message (fields : list (pystr * json)) : Prop :=
  dict_get (lit "message") fields = None
  \/ dict_get (lit "message") fields = Some JNull
  \/ exists s, dict_get (lit "message") fields = Some (JStr s)
               /\ forallb isspace s = true.

(** The state after the one post of the upload route. *)
Definition after_upload_post (req : Request) (n : Z) (st : State) : State :=
  {| client_made := client_made st;
     search_posts := search_posts st;
     trace := trace st
              ++ [Post (VS_API_BASE cfg ++ lit "/api/vs/index")
                    (forwarded_headers req)
                    (RawData (if (n =? 0)%Z then [] else rfile_read req n))
                    (TIMEOUT_S cfg)] |}.

(** The request [rag_search] posts: the headers, the JSON document and
    the call as it appears in the trace. *)
Definition search_headers : list (pystr * pystr) :=
  if nonempty (VS_API_KEY cfg)
  then dict_set (lit "X-LOT-KEY") (VS_API_KEY cfg)
         [ (lit "Content-Type", lit "application/json") ]
  else [ (lit "Content-Type", lit "application/json") ].

Definition search_filters (filters : option json) : json :=
  match filters with
  | Some f => if truthy f then f else JObj []
  | None => JObj []
  end.

Definition search_body (query : pystr) (top_k : Z) (threshold : pyfloat)
    (include_text : bool) (filters : option json) : json :=
  JObj [ (lit "query", JStr query);
         (lit "top_k", JInt top_k);
         (lit "threshold", JFloat threshold);
         (lit "include_text", JBool include_text);
         (lit "filters", search_filters filters) ].

Definition search_post (query : pystr) (top_k : Z) (threshold : pyfloat)
    (include_text : bool) (filters : option json) : event :=
  Post (VS_API_BASE cfg ++ lit "/api/vs/search") search_headers
    (JsonData (search_body query top_k threshold include_text filters))
    (TIMEOUT_S cfg).

(** The pause after an attempt: [time.sleep] runs in the [except] clause
    only. *)
Definition delay (a : attempt) : list event :=
  match a with
  | Failed (ErrExn _) => [Sleep]
  | _ => []
  end.

(** What [log] adds to the trace. *)
Definition log_events (err : last_error) : list event :=
  if pystr_eqb (LOG_LEVEL cfg) (lit "DEBUG")
     || pystr_eqb (LOG_LEVEL cfg) (lit "INFO")
  then [Log err] else [].

Definition with_search (st : State) (posts : nat) (evs : list event)
  : State :=
  {| client_made := client_made st;
     search_posts := search_posts st + posts;
     trace := trace st ++ evs |}.

(** The status codes [raise_for_status] refuses. *)
Definition error_status (code : Z) : Prop := (400 <= code < 600)%Z.

(** The three ways one attempt of [rag_search] can end once the body is
    serialised, read off the reply: an exception inside the [try], a
    reply refused because its success flag is absent or falsy, a reply
    accepted. *)
Inductive attempt_raises : Outcome SearchJson -> exn -> Prop :=
| raises_transport (e : exn) : attempt_raises (Transport e) e
| raises_status (r : Response SearchJson) :
    error_status (status_code r) ->
    attempt_raises (Responded r) (http_error r)
| raises_json (r : Response SearchJson) (e : exn) :
    ~ error_status (status_code r) -> json_body r = Raise e ->
    attempt_raises (Responded r) e
| raises_not_object (r : Response SearchJson) (ty : pystr) :
    ~ error_status (status_code r) -> json_body r = Ok (NotAnObject ty) ->
    attempt_raises (Responded r) (no_attribute ty (lit "get")).

Definition flag_refused (o : Outcome SearchJson) : Prop :=
  exists r ok results,
    o = Responded r /\ ~ error_status (status_code r)
    /\ json_body r = Ok (SearchObject ok results)
    /\ truthy_opt ok = false.

(** A failed attempt, as the code has it: the post raised, the status is
    from 400 to 599, the body is not JSON or not an object, or the value
    of "ok" is absent or falsy. *)
Definition failed_attempt (o : Outcome SearchJson) : Prop :=
  (exists e, attempt_raises o e) \/ flag_refused o.

(** An accepted reply and the value [rag_search] returns for it. *)
Definition attempt_succeeds (o : Outcome SearchJson)
    (v : SearchValue) : Prop :=
  exists r ok results,
    o = Responded r /\ ~ error_status (status_code r)
    /\ json_body r = Ok (SearchObject (Some ok) results)
    /\ truthy ok = true
    /\ v = match results with Some w => w | None => ResultList [] end.

(** The doc_id and the filename of a result can be encoded. *)
Definition meta_encodable (r : SearchResult) : bool :=
  encodable (match doc_id r with Some s => s | None => [] end)
  && encodable (match filename r with Some s => s | None => [] end).

(** The texts before the first one that cannot be encoded. *)
Fixpoint encodable_prefix (texts : list pystr) : list pystr :=
  match texts with
  | [] => []
  | t :: rest => if encodable t then t :: encodable_prefix rest else []
  end.

(** The exception the [try] of [llm_stream] ends with, if any, once the
    stream object is there: the encoding error of the first text that
    cannot be encoded, or else the exception of the iteration. *)
Definition caught_in (s : ChatStream) : option exn :=
  match find (fun t => negb (encodable t)) (fst (relay (stream_items s))) with
  | Some t => Some (encode_error t)
  | None => stream_exception s
  end.

(** The text a stream item carries in its first choice, if any. *)
Definition first_text (ch : ChatChunk) : option pystr :=
  match choices ch with
  | Some (c :: _) =>
      match delta c with
      | Some d =>
          match content d with
          | Some (x :: s) => Some (x :: s)
          | _ => None
          end
      | None => None
      end
  | _ => None
  end.

(** An item whose list of choices is there and empty. *)
Definition empty_choices (ch : ChatChunk) : bool :=
  match choices ch with
  | Some [] => true
  | _ => false
  end.

Definition texts_of (items : list ChatChunk) : list pystr :=
  flat_map (fun ch => match first_text ch with Some t => [t] | None => [] end)
    items.

Definition MISSING_KEY : exn :=
  mkExn RuntimeError (lit "Missing OPENAI_API_KEY").

(** The single string the primary call sends. *)
Definition text_input_of (question : pystr) (results : list SearchResult)
  : pystr :=
  strip (content_at 0 (compose_messages question results) ++ [NL; NL]
         ++ content_at 1 (compose_messages question results)).

Definition with_client (st : State) (evs : list event) : State :=
  {| client_made := true;
     search_posts := search_posts st;
     trace := trace st ++ evs |}.

(** A string that does not begin with a whitespace character. *)
Definition clean_start (s : pystr) : Prop :=
  match s with
  | [] => True
  | c :: _ => isspace c = false
  end.

(** The four lines of the streaming route that read the query string:
    the stripped question, top_k and the threshold. *)
Definition stream_params (req : Request) : result (pystr * Z * pyfloat) :=
  match qs_first (lit "q") [] (req_query req) with
  | Raise e => Raise e
  | Ok q0 =>
      match qs_first (lit "top_k") (str_of_int rt (TOP_K_DEFAULT cfg))
              (req_query req) with
      | Raise e => Raise e
      | Ok k0 =>
          match int_of_str rt k0 with
          | Raise e => Raise e
          | Ok top_k =>
              match qs_first (lit "threshold")
                      (str_of_float rt (THRESH_DEFAULT cfg))
                      (req_query req) with
              | Raise e => Raise e
              | Ok t0 =>
                  match float_of_str rt t0 with
                  | Raise e => Raise e
                  | Ok thr => Ok (strip q0, top_k, thr)
                  end
              end
          end
      end
  end.

(** The status codes the service chooses itself. *)
Definition own_status (s : Z) : Prop :=
  s = 200%Z \/ s = 204%Z \/ s = 401%Z \/ s = 404%Z \/ s = 500%Z.

(** The fixed opening of the user prompt, before the question. *)
Definition compose_opening : pystr := Eval vm_compute in lit "שאלה: ".

(** ** Loop invariant of [build_context] *)

Lemma len_nonneg (s : pystr) : (0 <= len s)%Z.
Proof. unfold len. lia. Qed.

Lemma total_len_cons (r : SearchResult) (rs : list SearchResult) :
  total_len (r :: rs) = (len (format_chunk r) + total_len rs)%Z.
Proof. reflexivity. Qed.

Lemma total_len_nonneg (rs : list SearchResult) : (0 <= total_len rs)%Z.
Proof.
  induction rs as [|r rs IH]; [unfold total_len; simpl; lia|].
  rewrite total_len_cons.
  pose proof (len_nonneg (format_chunk r)). lia.
Qed.

Lemma total_len_list_sum (rs : list SearchResult) :
  total_len rs =
  Z.of_nat (list_sum (map (@length N) (map format_chunk rs))).
Proof.
  induction rs as [|r rs IH]; [reflexivity|].
  rewrite total_len_cons, IH. unfold list_sum, len. cbn [map fold_right]. lia.
Qed.

(** The loop appends to [out] the formatted snippets of a prefix of the
    list: the running total stays within the budget on that prefix, and
    the next snippet, if there is one, would push it past the budget. *)
Lemma build_context_loop_spec (rs : list SearchResult) (max_chars : Z) :
  forall (used : Z) (out : list pystr),
  exists k : nat,
    (k <= length rs)%nat
    /\ build_context_loop rs max_chars used out
       = out ++ map format_chunk (firstn k rs)
    /\ ((0 < k)%nat -> (used + total_len (firstn k rs) <= max_chars)%Z)
    /\ ((k < length rs)%nat ->
        (max_chars < used + total_len (firstn (S k) rs))%Z).
Proof.
  induction rs as [|r rest IH]; intros used out.
  - exists 0%nat. cbn [build_context_loop firstn map length].
    rewrite app_nil_r. repeat split; lia.
  - cbn [build_context_loop].
    destruct (used + len (format_chunk r) >? max_chars)%Z eqn:Hgt.
    + exists 0%nat. rewrite app_nil_r.
      apply Z.gtb_lt in Hgt.
      repeat split; cbn [length]; try lia.
      intros _. cbn [firstn]. rewrite total_len_cons.
      change (total_len []) with 0%Z. lia.
    + destruct (IH (used + len (format_chunk r))%Z (out ++ [format_chunk r]))
        as (k & Hk & Heq & Hin & Hout).
      assert (Hle : (used + len (format_chunk r) <= max_chars)%Z).
      { destruct (Z.gtb_spec (used + len (format_chunk r)) max_chars);
          [discriminate | lia]. }
      exists (S k). repeat split.
      * cbn [length]. lia.
      * rewrite Heq, <- app_assoc. reflexivity.
      * intros _. cbn [firstn]. rewrite total_len_cons.
        destruct k as [|k'].
        -- cbn [firstn]. change (total_len []) with 0%Z. lia.
        -- specialize (Hin ltac:(lia)). lia.
      * intros Hlt. cbn [length] in Hlt.
        specialize (Hout ltac:(lia)).
        change (firstn (S (S k)) (r :: rest)) with (r :: firstn (S k) rest).
        rewrite total_len_cons. lia.
Qed.

(** C3 (as amended). For an empty list [build_context] returns the fixed
    placeholder, whatever the budget.  For a non-empty list it returns
    the newline-join of the formatted snippets ([source: filename] header
    plus excerpt) of a prefix of the list, in the original order: the
    longest prefix whose summed snippet lengths stay within [max_chars],
    accumulation stopping at the first snippet that would push the
    running total past the budget.  The budget counts the snippets but
    not the joining newlines: with [k >= 1] snippets included the string
    has at most [max_chars + (k - 1)] characters, and with none included
    it is empty. *)
Theorem build_context_prefix_by_budget
    (results : list SearchResult) (max_chars : Z) :
  (results = [] -> build_context results max_chars = NO_CONTEXT)
  /\ (results <> [] ->
      exists k : nat,
        (k <= length results)%nat
        /\ build_context results max_chars
           = join [NL] (map format_chunk (firstn k results))
        /\ ((0 < k)%nat -> (total_len (firstn k results) <= max_chars)%Z)
        /\ ((k < length results)%nat ->
            (max_chars < total_len (firstn (S k) results))%Z)
        /\ ((0 < k)%nat ->
            (len (build_context results max_chars)
             <= max_chars + (Z.of_nat k - 1))%Z)
        /\ (k = 0%nat -> build_context results max_chars = [])).
Proof.
  split.
  - intros ->. reflexivity.
  - intros Hne.
    destruct (build_context_loop_spec results max_chars 0 [])
      as (k & Hk & Heq & Hin & Hout).
    assert (Hbc : build_context results max_chars
                  = join [NL] (map format_chunk (firstn k results))).
    { unfold build_context. destruct results as [|r rs]; [congruence|].
      rewrite Heq. reflexivity. }
    exists k.
    split; [exact Hk|]. split; [exact Hbc|].
    split; [intros Hpos; specialize (Hin Hpos); lia|].
    split; [intros Hlt; specialize (Hout Hlt); lia|].
    split.
    + intros Hpos. specialize (Hin Hpos).
      rewrite Hbc. unfold len. rewrite length_join.
      rewrite length_map, length_firstn, Nat.min_l by assumption.
      pose proof (total_len_list_sum (firstn k results)) as Hsum.
      cbn [length]. lia.
    + intros ->. rewrite Hbc. reflexivity.
Qed.

(** C3 (as stated) fails: thirteen results whose formatted snippet has 11
    characters fit a budget of 143 exactly, and the twelve joining
    newlines bring the string to 155 characters, more than the budget plus
    the length of any one snippet. *)
Lemma build_context_budget_counterexample :
  len (build_context (repeat tiny_result 13) 143) = 155%Z
  /\ overshoot_allowance (repeat tiny_result 13) = 11%Z
  /\ ~ (len (build_context (repeat tiny_result 13) 143)
        <= 143 + overshoot_allowance (repeat tiny_result 13))%Z.
Proof.
  repeat split; try (vm_compute; reflexivity).
  vm_compute. intros H. apply H. reflexivity.
Qed.

(** ** Reasoning about [M] *)

Lemma post_ret {A : Type} (a : A) (P : A -> Prop) : P a -> post (ret a) P.
Proof. intros HP st a' st' H. inversion H; subst. exact HP. Qed.

Lemma post_raise {A : Type} (e : exn) (P : A -> Prop) : post (raise e) P.
Proof. intros st a st' H. discriminate H. Qed.

Lemma post_bind {A B : Type} (m : M A) (k : A -> M B) (P : B -> Prop) :
  (forall a, post (k a) P) -> post (bind m k) P.
Proof.
  intros Hk st b st' H. unfold bind in H.
  destruct (m st) as [[a|e] st1]; [|discriminate].
  exact (Hk a st1 b st' H).
Qed.

Lemma post_try_except {A : Type} (m : M A) (h : exn -> M A)
    (P : A -> Prop) :
  post m P -> (forall e, post (h e) P) -> post (try_except m h) P.
Proof.
  intros Hm Hh st a st' H. unfold try_except in H.
  destruct (m st) as [[a1|e] st1] eqn:Hmst.
  - inversion H; subst. exact (Hm st a st' Hmst).
  - exact (Hh e st1 a st' H).
Qed.

Lemma bind_ok {A B : Type} (m : M A) (k : A -> M B) st a st1 :
  m st = (Ok a, st1) -> bind m k st = k a st1.
Proof. intros H. unfold bind. rewrite H. reflexivity. Qed.

Lemma bind_raise {A B : Type} (m : M A) (k : A -> M B) st e st1 :
  m st = (Raise e, st1) -> bind m k st = (Raise e, st1).
Proof. intros H. unfold bind. rewrite H. reflexivity. Qed.

Lemma try_except_ok {A : Type} (m : M A) (h : exn -> M A) st a st1 :
  m st = (Ok a, st1) -> try_except m h st = (Ok a, st1).
Proof. intros H. unfold try_except. rewrite H. reflexivity. Qed.

Lemma try_except_raise {A : Type} (m : M A) (h : exn -> M A) st e st1 :
  m st = (Raise e, st1) -> try_except m h st = h e st1.
Proof. intros H. unfold try_except. rewrite H. reflexivity. Qed.

(** ** CORS headers *)

Lemma header_values_app (name : pystr) (a b : list (pystr * pystr)) :
  header_values name (a ++ b) = header_values name a ++ header_values name b.
Proof. unfold header_values. now rewrite filter_app, map_app. Qed.

Lemma CORS_ALLOW_entries_nonempty (o : pystr) :
  In o (CORS_ALLOW cfg) -> o <> [].
Proof.
  unfold CORS_ALLOW. intros H.
  apply in_map_iff in H as (x & <- & Hx).
  apply filter_In in Hx as [_ Hne].
  destruct (strip x); [discriminate | congruence].
Qed.

Lemma existsb_pystr_eqb (o : pystr) (l : list pystr) :
  existsb (pystr_eqb o) l = true <-> In o l.
Proof.
  rewrite existsb_exists. split.
  - intros (x & Hx & Heq). apply pystr_eqb_eq in Heq. now subst.
  - intros H. exists o. split; [assumption | apply pystr_eqb_refl].
Qed.

(** [allow_origin] with a configured list: the origin itself when it is
    listed, nothing otherwise. *)
Lemma allow_origin_listed (o : pystr) :
  In o (CORS_ALLOW cfg) -> allow_origin cfg (Some o) = Some o.
Proof.
  intros Hin. unfold allow_origin.
  pose proof (CORS_ALLOW_entries_nonempty o Hin) as Hne.
  destruct (CORS_ALLOW cfg) as [|a l] eqn:Hl; [contradiction|].
  rewrite <- Hl in Hin. rewrite <- Hl.
  replace (existsb (pystr_eqb o) (CORS_ALLOW cfg)) with true
    by (symmetry; now apply existsb_pystr_eqb).
  destruct o; [congruence | reflexivity].
Qed.

Lemma allow_origin_unlisted (origin : option pystr) :
  CORS_ALLOW cfg <> [] ->
  (forall o, origin = Some o -> ~ In o (CORS_ALLOW cfg)) ->
  allow_origin cfg origin = None.
Proof.
  intros Hne Hout. unfold allow_origin.
  destruct (CORS_ALLOW cfg) as [|a l] eqn:Hl; [congruence|].
  rewrite <- Hl in *.
  destruct origin as [o|]; [|reflexivity].
  destruct (existsb (pystr_eqb o) (CORS_ALLOW cfg)) eqn:Hex.
  - apply existsb_pystr_eqb in Hex. exfalso. exact (Hout o eq_refl Hex).
  - now rewrite andb_false_r.
Qed.

Lemma allow_origin_wildcard (origin : option pystr) :
  CORS_ALLOW cfg = [] -> allow_origin cfg origin = Some (lit "*").
Proof. intros H. unfold allow_origin. now rewrite H. Qed.

(** The CORS headers of [_send_headers], by what [allow_origin] says. *)
Lemma send_headers_allowed (req : Request) (status : Z) (ct : pystr)
    (extra : list (pystr * pystr)) (c : N) (a : pystr) :
  allow_origin cfg (header_get (lit "Origin") (req_headers req))
  = Some (c :: a) ->
  extra = [] \/ extra = [ (lit "Connection", lit "keep-alive") ] ->
  header_values ACAO (_send_headers req status ct extra) = [c :: a]
  /\ header_values ACAC (_send_headers req status ct extra) = [lit "true"].
Proof.
  intros Hallow Hextra. unfold _send_headers. rewrite Hallow.
  rewrite !header_values_app.
  destruct Hextra as [-> | ->]; split; reflexivity.
Qed.

Lemma send_headers_refused (req : Request) (status : Z) (ct : pystr)
    (extra : list (pystr * pystr)) :
  allow_origin cfg (header_get (lit "Origin") (req_headers req)) = None ->
  extra = [] \/ extra = [ (lit "Connection", lit "keep-alive") ] ->
  header_values ACAO (_send_headers req status ct extra) = [].
Proof.
  intros Hallow Hextra. unfold _send_headers. rewrite Hallow.
  rewrite !header_values_app.
  destruct Hextra as [-> | ->]; reflexivity.
Qed.

Lemma send_json_sent (req : Request) (obj : json) (status : Z) :
  sent_by_send_headers req (_send_json req obj status).
Proof.
  exists status, (lit "application/json"), []. split; [reflexivity|now left].
Qed.

Lemma handle_sent (req : Request) :
  post (handle req) (sent_by_send_headers req).
Proof.
  unfold handle. destruct (req_command req).
  - unfold do_GET.
    repeat match goal with
           | |- post (if ?b then _ else _) _ => destruct b
           | |- post (ret (_send_json _ _ _)) _ =>
               apply post_ret, send_json_sent
           | |- post (bind _ _) _ => apply post_bind; intros
           | |- post (match snd ?x with Some _ => _ | None => _ end) _ =>
               destruct (snd x)
           | |- post (raise _) _ => apply post_raise
           end.
    + apply post_ret. eexists _, _, _. split; [reflexivity|now right].
    + apply post_ret. eexists _, _, _. split; [reflexivity|now left].
  - unfold do_POST, chat_route, chat_body, upload_route.
    repeat match goal with
           | |- post (if ?b then _ else _) _ => destruct b
           | |- post (ret (_send_json _ _ _)) _ =>
               apply post_ret, send_json_sent
           | |- post (bind _ _) _ => apply post_bind; intros
           | |- post (try_except _ _) _ => apply post_try_except; intros
           | |- post (match ?q with [] => _ | _ :: _ => _ end) _ =>
               destruct q
           | |- post (let (_, _) := ?x in _) _ => destruct x
           end.
  - unfold do_OPTIONS. apply post_ret.
    eexists _, _, _. split; [reflexivity|now left].
Qed.

(** C7. With a non-empty CORS allow-list, on every route: a response to
    a request whose Origin header is absent or not in the list carries no
    Access-Control-Allow-Origin header, and a response to a request whose
    Origin is in the list carries exactly one, whose value is that
    origin. *)
Theorem cors_allow_list_echoes_listed_origin
    (req : Request) (st st' : State) (resp : HttpResponse) :
  CORS_ALLOW cfg <> [] ->
  handle req st = (Ok resp, st') ->
  ((forall o, header_get (lit "Origin") (req_headers req) = Some o ->
              ~ In o (CORS_ALLOW cfg)) ->
   header_values ACAO (sent_headers resp) = [])
  /\ (forall o, header_get (lit "Origin") (req_headers req) = Some o ->
                In o (CORS_ALLOW cfg) ->
                header_values ACAO (sent_headers resp) = [o]).
Proof.
  intros Hne Hrun.
  destruct (handle_sent req st resp st' Hrun)
    as (status & ct & extra & -> & Hextra).
  split.
  - intros Hout.
    apply (send_headers_refused req status ct extra); [|exact Hextra].
    apply allow_origin_unlisted; assumption.
  - intros o Ho Hin.
    pose proof (CORS_ALLOW_entries_nonempty o Hin) as Hnonempty.
    destruct o as [|c a]; [congruence|].
    assert (Hallow : allow_origin cfg
                       (header_get (lit "Origin") (req_headers req))
                     = Some (c :: a)).
    { rewrite Ho. now apply allow_origin_listed. }
    exact (proj1 (send_headers_allowed req status ct extra c a Hallow Hextra)).
Qed.

(** C10. With an empty CORS allow-list, every response on every route,
    whatever the Origin header of the request, carries
    Access-Control-Allow-Origin: * together with
    Access-Control-Allow-Credentials: true. *)
Theorem cors_wildcard_with_credentials
    (req : Request) (st st' : State) (resp : HttpResponse) :
  CORS_ALLOW cfg = [] ->
  handle req st = (Ok resp, st') ->
  header_values ACAO (sent_headers resp) = [lit "*"]
  /\ header_values ACAC (sent_headers resp) = [lit "true"].
Proof.
  intros Hempty Hrun.
  destruct (handle_sent req st resp st' Hrun)
    as (status & ct & extra & -> & Hextra).
  pose proof (allow_origin_wildcard
                (header_get (lit "Origin") (req_headers req)) Hempty) as Hallow.
  destruct (lit "*") as [|c a] eqn:Hstar; [discriminate Hstar|].
  exact (send_headers_allowed req status ct extra c a Hallow Hextra).
Qed.

(** ** The RAG client *)

Lemma status_error_refused {B : Type} (r : Response B) :
  error_status (status_code r) -> status_error r = Some (http_error r).
Proof.
  unfold error_status, status_error. intros [H1 H2].
  apply Z.leb_le in H1. apply Z.ltb_lt in H2. now rewrite H1, H2.
Qed.

Lemma status_error_passed {B : Type} (r : Response B) :
  ~ error_status (status_code r) -> status_error r = None.
Proof.
  unfold error_status, status_error. intros H.
  destruct (400 <=? status_code r)%Z eqn:H1;
    destruct (status_code r <? 600)%Z eqn:H2; try reflexivity.
  apply Z.leb_le in H1. apply Z.ltb_lt in H2. exfalso. apply H. lia.
Qed.

Lemma error_status_dec (code : Z) : error_status code \/ ~ error_status code.
Proof. unfold error_status. lia. Qed.

Lemma attempt_raises_result (o : Outcome SearchJson) (e : exn) :
  attempt_raises o e -> attempt_result o = Failed (ErrExn e).
Proof.
  intros H. destruct H as [e | r Hs | r e Hs Hj | r ty Hs Hj];
    unfold attempt_result;
    try rewrite (status_error_refused r Hs);
    try rewrite (status_error_passed r Hs);
    try rewrite Hj; reflexivity.
Qed.

Lemma flag_refused_result (o : Outcome SearchJson) :
  flag_refused o -> exists d, attempt_result o = Failed (ErrData d).
Proof.
  intros (r & ok & results & -> & Hs & Hj & Hok).
  unfold attempt_result. rewrite (status_error_passed r Hs), Hj, Hok. eauto.
Qed.

Lemma attempt_succeeds_result (o : Outcome SearchJson) (v : SearchValue) :
  attempt_succeeds o v -> attempt_result o = Returned v.
Proof.
  intros (r & ok & results & -> & Hs & Hj & Hok & ->).
  unfold attempt_result. rewrite (status_error_passed r Hs), Hj.
  cbn [truthy_opt]. now rewrite Hok.
Qed.

Lemma failed_attempt_result (o : Outcome SearchJson) :
  failed_attempt o -> exists err, attempt_result o = Failed err.
Proof.
  intros [[e H] | H].
  - rewrite (attempt_raises_result o e H). eauto.
  - destruct (flag_refused_result o H) as [d ->]. eauto.
Qed.

(** Every reply either fails the attempt or is accepted. *)
Lemma attempt_classified (o : Outcome SearchJson) :
  failed_attempt o \/ exists v, attempt_succeeds o v.
Proof.
  destruct o as [e|r].
  - left. left. exists e. constructor.
  - destruct (error_status_dec (status_code r)) as [Hs|Hs].
    + left. left. eexists. now apply raises_status.
    + destruct (json_body r) as [[ty|ok results]|e] eqn:Hj.
      * left. left. eexists. now apply (raises_not_object r ty).
      * destruct (truthy_opt ok) eqn:Hok.
        -- right. destruct ok as [ok|]; [|discriminate Hok].
           eexists. exists r, ok, results. repeat split; eauto.
        -- left. right. exists r, ok, results. repeat split; eauto.
      * left. left. eexists. now apply (raises_json r e).
Qed.

Lemma posts_in_app (a b : list event) :
  posts_in (a ++ b) = (posts_in a + posts_in b)%nat.
Proof. unfold posts_in. now rewrite filter_app, length_app. Qed.

(** One pass through the loop body, in full, when the body can be
    serialised: one post, then the pause if an exception was raised. *)
Lemma search_attempt_exact (url : pystr) (headers : list (pystr * pystr))
    (body : json) (st : State) :
  dumps_error rt body = None ->
  search_attempt url headers body st
  = (Ok (attempt_result (vs_search env (search_posts st))),
     with_search st 1
       (Post url headers (JsonData body) (TIMEOUT_S cfg)
        :: delay (attempt_result (vs_search env (search_posts st))))).
Proof.
  intros Hd.
  unfold search_attempt, attempt_result, try_except, bind, post_search,
    raise_for_status, lift, emit, ret, raise, with_search.
  rewrite Hd, Nat.add_1_r.
  destruct (vs_search env (search_posts st)) as [e|r];
    [cbn [trace delay]; rewrite <- app_assoc; reflexivity|].
  destruct (status_error r) as [e|];
    [cbn [trace delay]; rewrite <- app_assoc; reflexivity|].
  destruct (json_body r) as [[ty|ok results]|e];
    try (cbn [trace delay]; rewrite <- app_assoc; reflexivity).
  destruct (truthy_opt ok); reflexivity.
Qed.

(** One pass when [json.dumps] raises: no post, the pause, and the
    exception as the last error. *)
Lemma search_attempt_unserialisable (url : pystr)
    (headers : list (pystr * pystr)) (body : json) (st : State) (e : exn) :
  dumps_error rt body = Some e ->
  search_attempt url headers body st
  = (Ok (Failed (ErrExn e)), with_search st 0 [Sleep]).
Proof.
  intros Hd.
  unfold search_attempt, try_except, bind, post_search, emit, ret,
    with_search.
  rewrite Hd, Nat.add_0_r. reflexivity.
Qed.

Lemma log_exact (err : last_error) (st : State) :
  log err st = (Ok tt, with_search st 0 (log_events err)).
Proof.
  unfold log, log_events, with_search. rewrite Nat.add_0_r.
  destruct (pystr_eqb (LOG_LEVEL cfg) (lit "DEBUG")
            || pystr_eqb (LOG_LEVEL cfg) (lit "INFO")).
  - reflexivity.
  - unfold ret. rewrite app_nil_r. now destruct st.
Qed.

Lemma with_search_with_search (st : State) (p q : nat) (a b : list event) :
  with_search (with_search st p a) q b = with_search st (p + q) (a ++ b).
Proof.
  unfold with_search. cbn [client_made search_posts trace].
  now rewrite Nat.add_assoc, app_assoc.
Qed.

(** The two passes of the loop, and the code after it, in full. *)
Lemma search_loop_two_exact (url : pystr) (headers : list (pystr * pystr))
    (body : json) (st : State) :
  dumps_error rt body = None ->
  search_loop 2 url headers body NoError st
  = let p := Post url headers (JsonData body) (TIMEOUT_S cfg) in
    let a1 := attempt_result (vs_search env (search_posts st)) in
    let a2 := attempt_result (vs_search env (S (search_posts st))) in
    match a1 with
    | Returned v => (Ok v, with_search st 1 (p :: delay a1))
    | Failed _ =>
        match a2 with
        | Returned v =>
            (Ok v, with_search st 2 ((p :: delay a1) ++ p :: delay a2))
        | Failed err =>
            (Ok (ResultList []),
             with_search st 2
               (((p :: delay a1) ++ p :: delay a2) ++ log_events err))
        end
    end.
Proof.
  intros Hd. cbv zeta. cbn [search_loop].
  unfold bind at 1. rewrite (search_attempt_exact _ _ _ _ Hd).
  destruct (attempt_result (vs_search env (search_posts st))) as [v|e1];
    [reflexivity|].
  unfold bind at 1. rewrite (search_attempt_exact _ _ _ _ Hd).
  rewrite with_search_with_search.
  replace (search_posts (with_search st 1
             (Post url headers (JsonData body) (TIMEOUT_S cfg)
              :: delay (Failed e1))))
    with (S (search_posts st))
    by (unfold with_search; cbn [search_posts]; lia).
  destruct (attempt_result (vs_search env (S (search_posts st)))) as [v|e2];
    [reflexivity|].
  unfold bind, ret. rewrite log_exact, with_search_with_search.
  reflexivity.
Qed.

(** The loop when [json.dumps] raises: two passes without post. *)
Lemma search_loop_two_unserialisable (url : pystr)
    (headers : list (pystr * pystr)) (body : json) (st : State) (e : exn) :
  dumps_error rt body = Some e ->
  search_loop 2 url headers body NoError st
  = (Ok (ResultList []),
     with_search st 0 ([Sleep; Sleep] ++ log_events (ErrExn e))).
Proof.
  intros Hd. cbn [search_loop].
  unfold bind at 1. rewrite (search_attempt_unserialisable _ _ _ _ _ Hd).
  unfold bind at 1. rewrite (search_attempt_unserialisable _ _ _ _ _ Hd).
  unfold bind, ret. rewrite log_exact, !with_search_with_search.
  reflexivity.
Qed.

Lemma rag_search_unfold (query : pystr) (top_k : Z) (threshold : pyfloat)
    (include_text : bool) (filters : option json) (st : State) :
  requests_installed cfg = true ->
  rag_search query top_k threshold include_text filters st
  = search_loop 2 (VS_API_BASE cfg ++ lit "/api/vs/search") search_headers
      (search_body query top_k threshold include_text filters) NoError
      (with_search st 0
         [CallRagSearch query top_k threshold include_text
            (search_filters filters)]).
Proof.
  intros Hreq. unfold rag_search. rewrite Hreq. cbn [negb].
  unfold bind at 1, emit, with_search. rewrite Nat.add_0_r. reflexivity.
Qed.

(** [rag_search] without the requests library. *)
Lemma rag_search_without_requests (query : pystr) (top_k : Z)
    (threshold : pyfloat) (include_text : bool) (filters : option json)
    (st : State) :
  requests_installed cfg = false ->
  rag_search query top_k threshold include_text filters st
  = (Ok (ResultList []),
     with_search st 0
       [CallRagSearch query top_k threshold include_text
          (search_filters filters)]).
Proof.
  intros Hreq. unfold rag_search. rewrite Hreq. cbn [negb].
  unfold bind, emit, ret, with_search. rewrite Nat.add_0_r. reflexivity.
Qed.

(** [rag_search] in full, when the requests library is there and the
    body can be serialised. *)
Lemma rag_search_exact (query : pystr) (top_k : Z) (threshold : pyfloat)
    (include_text : bool) (filters : option json) (st : State) :
  requests_installed cfg = true ->
  dumps_error rt (search_body query top_k threshold include_text filters)
  = None ->
  rag_search query top_k threshold include_text filters st
  = let call := CallRagSearch query top_k threshold include_text
                  (search_filters filters) in
    let p := search_post query top_k threshold include_text filters in
    let a1 := attempt_result (vs_search env (search_posts st)) in
    let a2 := attempt_result (vs_search env (S (search_posts st))) in
    match a1 with
    | Returned v => (Ok v, with_search st 1 (call :: p :: delay a1))
    | Failed _ =>
        match a2 with
        | Returned v =>
            (Ok v,
             with_search st 2 (call :: (p :: delay a1) ++ p :: delay a2))
        | Failed err =>
            (Ok (ResultList []),
             with_search st 2
               (call :: ((p :: delay a1) ++ p :: delay a2)
                        ++ log_events err))
        end
    end.
Proof.
  intros Hreq Hd.
  rewrite (rag_search_unfold _ _ _ _ _ _ Hreq),
    (search_loop_two_exact _ _ _ _ Hd).
  cbv zeta. fold (search_post query top_k threshold include_text filters).
  change (search_posts
            (with_search st 0
               [CallRagSearch query top_k threshold include_text
                  (search_filters filters)]))
    with (search_posts st + 0)%nat.
  rewrite Nat.add_0_r.
  destruct (attempt_result (vs_search env (search_posts st))) as [v|e1];
    [now rewrite with_search_with_search|].
  destruct (attempt_result (vs_search env (S (search_posts st))))
    as [v|e2]; now rewrite with_search_with_search.
Qed.

(** [rag_search] in full, when [json.dumps] raises on the body. *)
Lemma rag_search_unserialisable (query : pystr) (top_k : Z)
    (threshold : pyfloat) (include_text : bool) (filters : option json)
    (st : State) (e : exn) :
  requests_installed cfg = true ->
  dumps_error rt (search_body query top_k threshold include_text filters)
  = Some e ->
  rag_search query top_k threshold include_text filters st
  = (Ok (ResultList []),
     with_search st 0
       ([ CallRagSearch query top_k threshold include_text
            (search_filters filters); Sleep; Sleep ]
        ++ log_events (ErrExn e))).
Proof.
  intros Hreq Hd.
  rewrite (rag_search_unfold _ _ _ _ _ _ Hreq),
    (search_loop_two_unserialisable _ _ _ _ _ Hd).
  now rewrite with_search_with_search.
Qed.

Lemma delay_no_post (a : attempt) (p : event) :
  Forall (fun ev => is_post ev = true -> ev = p) (delay a).
Proof.
  destruct a as [v|[| |e]]; cbn [delay];
    repeat apply Forall_cons; try apply Forall_nil; discriminate.
Qed.

Lemma log_events_no_post (err : last_error) (p : event) :
  Forall (fun ev => is_post ev = true -> ev = p) (log_events err).
Proof.
  unfold log_events.
  destruct (pystr_eqb (LOG_LEVEL cfg) (lit "DEBUG")
            || pystr_eqb (LOG_LEVEL cfg) (lit "INFO"));
    repeat apply Forall_cons; try apply Forall_nil; discriminate.
Qed.

Lemma posts_in_delay (a : attempt) : posts_in (delay a) = 0%nat.
Proof. now destruct a as [v|[| |e]]. Qed.

Lemma posts_in_log_events (err : last_error) :
  posts_in (log_events err) = 0%nat.
Proof.
  unfold log_events.
  now destruct (pystr_eqb (LOG_LEVEL cfg) (lit "DEBUG")
                || pystr_eqb (LOG_LEVEL cfg) (lit "INFO")).
Qed.

Lemma posts_in_cons_post (url : pystr) (headers : list (pystr * pystr))
    (data : post_data) (timeout : Z) (evs : list event) :
  posts_in (Post url headers data timeout :: evs) = S (posts_in evs).
Proof. reflexivity. Qed.

Lemma posts_in_cons_call (query : pystr) (top_k : Z) (threshold : pyfloat)
    (include_text : bool) (filters : json) (evs : list event) :
  posts_in (CallRagSearch query top_k threshold include_text filters :: evs)
  = posts_in evs.
Proof. reflexivity. Qed.

Lemma rag_search_ok (query : pystr) (top_k : Z) (threshold : pyfloat)
    (include_text : bool) (filters : option json) (st : State) :
  exists v st',
    rag_search query top_k threshold include_text filters st = (Ok v, st').
Proof.
  destruct (requests_installed cfg) eqn:Hreq.
  - destruct (dumps_error rt
                (search_body query top_k threshold include_text filters))
      as [e|] eqn:Hd.
    + rewrite (rag_search_unserialisable _ _ _ _ _ _ _ Hreq Hd). eauto.
    + rewrite (rag_search_exact _ _ _ _ _ _ Hreq Hd). cbv zeta.
      destruct (attempt_result (vs_search env (search_posts st)));
        [eauto|].
      destruct (attempt_result (vs_search env (S (search_posts st))));
        eauto.
  - rewrite (rag_search_without_requests _ _ _ _ _ _ Hreq). eauto.
Qed.

(** C2, amended.  [rag_search] never raises, whatever its arguments, and
    posts to the vector store at most twice.  Without the requests
    library, or when [json.dumps] raises on the body, it posts nothing
    and returns the empty list.  Otherwise an attempt fails when the post
    raises, when the status is one raise_for_status refuses (400 to 599),
    when the body is not JSON or not an object, or when the value of "ok"
    is absent or falsy; any other reply is accepted, whatever its status,
    and the value under "results" (the empty list when the key is
    absent) is returned at once, as it is.  After a failed first attempt
    a second one is made, and when both fail the result is the empty
    list.  Every reply either fails the attempt or is accepted. *)
Theorem rag_search_never_raises_two_attempts
    (query : pystr) (top_k : Z) (threshold : pyfloat) (include_text : bool)
    (filters : option json) (st : State) :
  let first := vs_search env (search_posts st) in
  let second := vs_search env (S (search_posts st)) in
  let body := search_body query top_k threshold include_text filters in
  (exists v st' evs,
     rag_search query top_k threshold include_text filters st = (Ok v, st')
     /\ trace st' = trace st ++ evs
     /\ (posts_in evs <= 2)%nat
     /\ (requests_installed cfg = false ->
         v = ResultList [] /\ posts_in evs = 0%nat)
     /\ (forall e,
           requests_installed cfg = true -> dumps_error rt body = Some e ->
           v = ResultList [] /\ posts_in evs = 0%nat)
     /\ (requests_installed cfg = true -> dumps_error rt body = None ->
         (forall w, attempt_succeeds first w ->
                    v = w /\ posts_in evs = 1%nat)
         /\ (failed_attempt first ->
             posts_in evs = 2%nat
             /\ (forall w, attempt_succeeds second w -> v = w)
             /\ (failed_attempt second -> v = ResultList []))))
  /\ (forall o, failed_attempt o \/ exists w, attempt_succeeds o w)
  /\ (forall o w, failed_attempt o -> ~ attempt_succeeds o w).
Proof.
  intros first second body.
  split; [|split; [exact attempt_classified|]].
  2:{ intros o w Hf Hs.
      destruct (failed_attempt_result o Hf) as [err Herr].
      rewrite (attempt_succeeds_result o w Hs) in Herr. discriminate. }
  destruct (requests_installed cfg) eqn:Hreq.
  - destruct (dumps_error rt body) as [e|] eqn:Hd.
    + rewrite (rag_search_unserialisable _ _ _ _ _ _ e Hreq Hd).
      eexists _, _, _. split; [reflexivity|]. split; [reflexivity|].
      assert (Hposts : posts_in
                ([CallRagSearch query top_k threshold include_text
                    (search_filters filters); Sleep; Sleep]
                 ++ log_events (ErrExn e)) = 0%nat).
      { rewrite posts_in_app, posts_in_log_events. reflexivity. }
      rewrite Hposts.
      split; [lia|]. split; [discriminate|].
      split; [intros e' _ _; split; reflexivity|].
      intros _ Hnone. discriminate Hnone.
    + rewrite (rag_search_exact _ _ _ _ _ _ Hreq Hd). cbv zeta.
      fold first second.
      set (p := search_post query top_k threshold include_text filters).
      set (call := CallRagSearch query top_k threshold include_text
                     (search_filters filters)).
      assert (Hp : forall evs, posts_in (p :: evs) = S (posts_in evs))
        by reflexivity.
      assert (Hc : forall evs, posts_in (call :: evs) = posts_in evs)
        by reflexivity.
      destruct (attempt_result first) as [v|e1] eqn:H1.
      * eexists _, _, _. split; [reflexivity|]. split; [reflexivity|].
        rewrite Hc, Hp, posts_in_delay.
        split; [lia|]. split; [discriminate|].
        split; [intros e' _ H; discriminate H|].
        intros _ _. split.
        -- intros w Hw. rewrite (attempt_succeeds_result _ _ Hw) in H1.
           split; [congruence | reflexivity].
        -- intros Hf. destruct (failed_attempt_result _ Hf) as [err Herr].
           congruence.
      * destruct (attempt_result second) as [v|e2] eqn:H2.
        -- eexists _, _, _. split; [reflexivity|]. split; [reflexivity|].
           rewrite Hc, posts_in_app, !Hp, !posts_in_delay.
           split; [lia|]. split; [discriminate|].
           split; [intros e' _ H; discriminate H|].
           intros _ _. split.
           ++ intros w Hw. rewrite (attempt_succeeds_result _ _ Hw) in H1.
              discriminate.
           ++ intros _. split; [reflexivity|]. split.
              ** intros w Hw.
                 rewrite (attempt_succeeds_result _ _ Hw) in H2. congruence.
              ** intros Hf.
                 destruct (failed_attempt_result _ Hf) as [err Herr].
                 congruence.
        -- eexists _, _, _. split; [reflexivity|]. split; [reflexivity|].
           rewrite Hc, !posts_in_app, !Hp, !posts_in_delay,
             posts_in_log_events.
           split; [lia|]. split; [discriminate|].
           split; [intros e' _ H; discriminate H|].
           intros _ _. split.
           ++ intros w Hw. rewrite (attempt_succeeds_result _ _ Hw) in H1.
              discriminate.
           ++ intros _. split; [reflexivity|]. split.
              ** intros w Hw.
                 rewrite (attempt_succeeds_result _ _ Hw) in H2. discriminate.
              ** reflexivity.
  - rewrite (rag_search_without_requests _ _ _ _ _ _ Hreq).
    eexists _, _, _. split; [reflexivity|]. split; [reflexivity|].
    split; [cbv; lia|]. split; [intros _; split; reflexivity|].
    split; [intros e H; discriminate H | intros H; discriminate H].
Qed.

Lemma emit_spec (ev : event) (st : State) :
  emit ev st
  = (Ok tt, {| client_made := client_made st;
               search_posts := search_posts st;
               trace := trace st ++ [ev] |}).
Proof. reflexivity. Qed.

(** ** The LLM invoker *)

Lemma encodable_opt_str (o : option pystr) :
  encodable (json_dumps (opt_str o))
  = encodable (match o with Some s => s | None => [] end).
Proof.
  destruct o as [s|]; [|reflexivity].
  unfold json_dumps. cbn [opt_str dumps]. apply encodable_quoted.
Qed.

Lemma encodable_opt_float (o : option pyfloat) :
  (forall f, encodable (str_of_float rt f) = true) ->
  encodable (json_dumps (opt_float o)) = true.
Proof.
  intros Hfr. destruct o as [[m e|[|]|]|]; try reflexivity.
  unfold json_dumps. cbn [opt_float dumps]. apply Hfr.
Qed.

Lemma json_dumps_meta_json (r : SearchResult) :
  json_dumps (meta_json r)
  = lit "{"
    ++ (quoted (lit "doc_id") ++ lit ": " ++ json_dumps (opt_str (doc_id r)))
    ++ lit ", "
    ++ (quoted (lit "filename") ++ lit ": "
        ++ json_dumps (opt_str (filename r)))
    ++ lit ", "
    ++ (quoted (lit "score") ++ lit ": " ++ json_dumps (opt_float (score r)))
    ++ lit "}".
Proof.
  unfold json_dumps, meta_json. cbn [dumps map join].
  repeat rewrite <- app_assoc. reflexivity.
Qed.

Lemma encodable_meta_json (r : SearchResult) :
  (forall f, encodable (str_of_float rt f) = true) ->
  encodable (json_dumps (meta_json r)) = meta_encodable r.
Proof.
  intros Hfr. rewrite json_dumps_meta_json.
  rewrite !encodable_app, !encodable_opt_str, (encodable_opt_float _ Hfr).
  unfold meta_encodable.
  destruct (encodable match doc_id r with Some s => s | None => [] end);
    destruct (encodable match filename r with Some s => s | None => [] end);
    reflexivity.
Qed.

Lemma json_dumps_meta_doc (results : list SearchResult) :
  json_dumps (meta_doc results)
  = lit "{"
    ++ (quoted (lit "type") ++ lit ": " ++ quoted (lit "meta"))
    ++ lit ", "
    ++ (quoted (lit "sources") ++ lit ": "
        ++ (lit "["
            ++ join (lit ", ") (map json_dumps (map meta_json results))
            ++ lit "]"))
    ++ lit "}".
Proof.
  unfold json_dumps, meta_doc. cbn [dumps map join].
  repeat rewrite <- app_assoc. reflexivity.
Qed.

(** The meta line can be encoded exactly when the doc_id and the
    filename of every result can. *)
Lemma encodable_meta_text (results : list SearchResult) :
  (forall f, encodable (str_of_float rt f) = true) ->
  encodable (json_dumps (meta_doc results) ++ [NL])
  = forallb meta_encodable results.
Proof.
  intros Hfr. rewrite json_dumps_meta_doc.
  rewrite !encodable_app, (encodable_join (lit ", ")) by reflexivity.
  assert (Hall : forallb encodable (map json_dumps (map meta_json results))
                 = forallb meta_encodable results).
  { induction results as [|r rs IH]; [reflexivity|].
    cbn [map forallb]. now rewrite (encodable_meta_json r Hfr), IH. }
  rewrite Hall.
  destruct (forallb meta_encodable results); reflexivity.
Qed.

Lemma json_dumps_error_doc (e : exn) :
  json_dumps (error_doc e)
  = lit "{"
    ++ (quoted (lit "type") ++ lit ": " ++ quoted (lit "error"))
    ++ lit ", "
    ++ (quoted (lit "detail") ++ lit ": " ++ quoted (exn_msg e))
    ++ lit "}".
Proof.
  unfold json_dumps, error_doc. cbn [dumps map join].
  repeat rewrite <- app_assoc. reflexivity.
Qed.

(** The error line can be encoded exactly when the text of the exception
    can. *)
Lemma encodable_error_text (e : exn) :
  encodable ([NL] ++ json_dumps (error_doc e) ++ [NL])
  = encodable (exn_msg e).
Proof.
  rewrite json_dumps_error_doc.
  rewrite !encodable_app, !encodable_quoted.
  destruct (encodable (exn_msg e)); reflexivity.
Qed.

Lemma closing_spec (e : exn) :
  closing e
  = if encodable (exn_msg e)
    then ([utf8_bytes ([NL] ++ json_dumps (error_doc e) ++ [NL])], None)
    else ([], Some (encode_error ([NL] ++ json_dumps (error_doc e) ++ [NL]))).
Proof.
  unfold closing, error_line, encode_utf8.
  rewrite encodable_error_text. now destruct (encodable (exn_msg e)).
Qed.

Lemma encode_texts_spec (texts : list pystr) :
  encode_texts texts
  = (map utf8_bytes (encodable_prefix texts),
     match find (fun t => negb (encodable t)) texts with
     | Some t => Some (encode_error t)
     | None => None
     end).
Proof.
  induction texts as [|t texts IH]; [reflexivity|].
  cbn [encode_texts encodable_prefix find]. unfold encode_utf8.
  destruct (encodable t); cbn [negb]; [|reflexivity].
  rewrite IH. reflexivity.
Qed.

(** What the body of the [try] yields, by how it ends. *)
Lemma stream_frames_spec (s : ChatStream) :
  stream_frames s
  = (map utf8_bytes (encodable_prefix (fst (relay (stream_items s))))
     ++ match caught_in s with Some _ => [] | None => [[NL]] end,
     caught_in s).
Proof.
  unfold stream_frames, caught_in, stream_exception.
  destruct (relay (stream_items s)) as [texts interrupted]. cbn [fst snd].
  rewrite encode_texts_spec.
  destruct (find (fun t => negb (encodable t)) texts);
    [now rewrite app_nil_r|].
  destruct interrupted; [now rewrite app_nil_r|].
  destruct (stream_failure s); [now rewrite app_nil_r | reflexivity].
Qed.

(** When the meta line cannot be encoded, nothing is yielded and nothing
    is called. *)
Lemma llm_stream_meta_raises (question : pystr)
    (results : list SearchResult) (st : State) (e : exn) :
  meta_line results = Raise e ->
  llm_stream question results st
  = (Ok ([], Some e), snd (emit (CallLlmStream question results) st)).
Proof.
  intros Hmeta. unfold llm_stream. unfold bind at 1.
  rewrite emit_spec, Hmeta. reflexivity.
Qed.

(** [llm_stream] after the meta line, by how the [try] ends. *)
Lemma llm_stream_after_meta (question : pystr)
    (results : list SearchResult) (st : State) (meta : chunk) :
  meta_line results = Ok meta ->
  llm_stream question results st
  = match call_chat_stream (compose_messages question results)
            (snd (emit (CallLlmStream question results) st)) with
    | (Raise e, st2) =>
        (Ok (meta :: fst (closing e), snd (closing e)), st2)
    | (Ok s, st2) =>
        (Ok (match snd (stream_frames s) with
             | None => (meta :: fst (stream_frames s), None)
             | Some e =>
                 (meta :: fst (stream_frames s) ++ fst (closing e),
                  snd (closing e))
             end), st2)
    end.
Proof.
  intros Hmeta. unfold llm_stream. unfold bind at 1.
  rewrite emit_spec, Hmeta. cbv beta iota.
  unfold bind at 1, try_except. unfold bind at 1.
  destruct (call_chat_stream (compose_messages question results) _)
    as [[s|e] st2].
  - unfold ret. cbn [fst snd].
    destruct (snd (stream_frames s)); reflexivity.
  - unfold ret. reflexivity.
Qed.

(** C4, amended.  The float texts of the runtime taken as encodable,
    [llm_stream], consumed to its end, does the following.  When the
    doc_id or the filename of some result holds a lone surrogate, the
    meta line cannot be encoded: the generator raises the encoding error
    before yielding anything and before any call.  Otherwise its first
    chunk is the UTF-8 encoding of the line made of
    json.dumps({"type": "meta", "sources": [...]}) and a newline, the
    sources holding one entry per result, in order, each with doc_id,
    filename and score and nothing else.  Then come the encoded texts of
    the stream, as far as they can be encoded, and the final newline.
    When the completion call, the iteration or the encoding of a text
    raises, the last chunk is instead the line, between two newlines, of
    json.dumps({"type": "error", "detail": str(e)}); when that text
    cannot be encoded either, the encoding error leaves the
    generator. *)
Theorem llm_stream_conforms
    (question : pystr) (results : list SearchResult) (st : State) :
  let msgs := compose_messages question results in
  let st1 := snd (emit (CallLlmStream question results) st) in
  let text_of := fun o : option pystr =>
    match o with Some s => s | None => [] end in
  let fits := fun r : SearchResult =>
    encodable (text_of (doc_id r)) && encodable (text_of (filename r)) in
  let doc :=
    JObj [ (lit "type", JStr (lit "meta"));
           (lit "sources",
            JArr (map (fun r =>
                         JObj [ (lit "doc_id",
                                 match doc_id r with
                                 | Some s => JStr s
                                 | None => JNull
                                 end);
                                (lit "filename",
                                 match filename r with
                                 | Some s => JStr s
                                 | None => JNull
                                 end);
                                (lit "score",
                                 match score r with
                                 | Some f => JFloat f
                                 | None => JNull
                                 end) ])
                    results)) ] in
  let meta := utf8_bytes (json_dumps doc ++ [NL]) in
  let error_text := fun e : exn =>
    [NL]
    ++ json_dumps (JObj [ (lit "type", JStr (lit "error"));
                          (lit "detail", JStr (exn_msg e)) ])
    ++ [NL] in
  let finish := fun (frames : list chunk) (caught : option exn) =>
    match caught with
    | None => (meta :: frames ++ [[NL]], None)
    | Some e =>
        if encodable (exn_msg e)
        then (meta :: frames ++ [utf8_bytes (error_text e)], None)
        else (meta :: frames, Some (encode_error (error_text e)))
    end in
  (forall f, encodable (str_of_float rt f) = true) ->
  (forallb fits results = false ->
   llm_stream question results st
   = (Ok ([], Some (encode_error (json_dumps doc ++ [NL]))), st1))
  /\ (forallb fits results = true ->
      (forall e st2,
         call_chat_stream msgs st1 = (Raise e, st2) ->
         llm_stream question results st = (Ok (finish [] (Some e)), st2))
      /\ (forall s st2,
            call_chat_stream msgs st1 = (Ok s, st2) ->
            llm_stream question results st
            = (Ok (finish
                     (map utf8_bytes
                        (encodable_prefix (fst (relay (stream_items s)))))
                     (match find (fun t => negb (encodable t))
                              (fst (relay (stream_items s))) with
                      | Some t => Some (encode_error t)
                      | None => stream_exception s
                      end)),
               st2))).
Proof.
  intros msgs st1 text_of fits doc meta error_text finish Hfr.
  change doc with (meta_doc results) in *.
  change (forallb fits results) with (forallb meta_encodable results).
  pose proof (encodable_meta_text results Hfr) as Henc.
  split.
  - intros Hbad. apply llm_stream_meta_raises.
    unfold meta_line. apply encode_utf8_raise. now rewrite Henc.
  - intros Hgood.
    assert (Hmeta : meta_line results = Ok meta).
    { unfold meta_line. apply encode_utf8_ok. now rewrite Henc. }
    split.
    + intros e st2 Hcall.
      rewrite (llm_stream_after_meta _ _ _ _ Hmeta).
      fold msgs st1. rewrite Hcall, closing_spec.
      unfold finish. destruct (encodable (exn_msg e)); reflexivity.
    + intros s st2 Hcall.
      rewrite (llm_stream_after_meta _ _ _ _ Hmeta).
      fold msgs st1. rewrite Hcall, stream_frames_spec. cbn [fst snd].
      fold (caught_in s).
      destruct (caught_in s) as [e|].
      * rewrite closing_spec, app_nil_r. unfold finish.
        destruct (encodable (exn_msg e)); cbn [fst snd];
          rewrite ?app_nil_r; reflexivity.
      * reflexivity.
Qed.

Lemma llm_answer_unfold (question : pystr) (results : list SearchResult)
    (st : State) :
  llm_answer question results st
  = match try_except (primary_call (compose_messages question results))
            (fun _ => fallback_call (compose_messages question results))
            (snd (emit (CallLlmAnswer question results) st)) with
    | (Ok tu, st') => (Ok (answer_json tu results), st')
    | (Raise e, st') => (Raise e, st')
    end.
Proof.
  unfold llm_answer, bind, ret, emit. cbn [snd].
  destruct (try_except _ _ _) as [[tu|e] st']; reflexivity.
Qed.


(** When the client is available, the fallback reaches the provider: the
    chat-completion call is the one event it adds. *)
Lemma fallback_call_reaches_provider (msgs : list message) (st st1 : State) :
  client st = (Ok tt, st1) ->
  exists r st2,
    fallback_call msgs st = (r, st2)
    /\ trace st2 = trace st ++ [ChatCreate (CHAT_MODEL cfg) msgs false].
Proof.
  intros Hclient.
  assert (Htr : trace st1 = trace st).
  { unfold client in Hclient.
    destruct (nonempty (OPENAI_API_KEY cfg)); [|discriminate].
    destruct (client_made st); [now inversion Hclient|].
    destruct (openai_installed cfg); [|discriminate].
    now inversion Hclient. }
  unfold fallback_call, call_chat.
  unfold bind at 1. unfold bind at 1. rewrite Hclient.
  unfold bind at 1. rewrite emit_spec. unfold lift.
  destruct (chat_create env) as [c|e].
  - destruct (message_contents c) as [|[s|] l]; unfold bind, raise, ret;
      eexists _, _; (split; [reflexivity|]); cbn [trace]; now rewrite Htr.
  - eexists _, _. split; [reflexivity|]. cbn [trace]. now rewrite Htr.
Qed.

(** An exception of [llm_answer] leaves the chat route through its
    [except] clause. *)
Lemma chat_body_llm_raises (req : Request) (st sta stb stc std ste : State)
    (body : json) (c : N) (q : pystr) (top_k : Z) (thr : pyfloat)
    (filters : json) (results : SearchValue) (e : exn) :
  read_json_body req st = (Ok body, sta) ->
  message_of body sta = (Ok (c :: q), stb) ->
  chat_args body stb = (Ok (top_k, thr, filters), stc) ->
  rag_search (c :: q) top_k thr true (Some filters) stc = (Ok results, std) ->
  llm_answer_any (c :: q) results std = (Raise e, ste) ->
  chat_body req st = (Raise e, ste).
Proof.
  intros Hbody Hmsg Hargs Hrag Hllm.
  unfold chat_body.
  rewrite (bind_ok _ _ _ _ _ Hbody), (bind_ok _ _ _ _ _ Hmsg).
  rewrite (bind_ok _ _ _ _ _ Hargs). cbv beta iota.
  rewrite (bind_ok _ _ _ _ _ Hrag).
  now rewrite (bind_raise _ _ _ _ _ Hllm).
Qed.

Lemma chat_route_except (req : Request) (st st' : State) (e : exn) :
  _auth_ok req = true ->
  chat_body req st = (Raise e, st') ->
  chat_route req st
  = (Ok (_send_json req (error_json e) 500), snd (emit (PrintExc e) st')).
Proof.
  intros Hauth Hbody. unfold chat_route. rewrite Hauth. cbn [negb].
  rewrite (try_except_raise _ _ _ _ _ Hbody). reflexivity.
Qed.

(** C5. In [llm_answer] the fallback chat-completion call runs whenever
    the primary call raises, and the primary call raises when the flag
    deselects it.  What the fallback returns becomes the answer; an
    exception of the fallback is not caught in [llm_answer]: it leaves
    [llm_answer] as it is, and the chat route turns it into a status-500
    JSON body [{"ok": false, "error": ...}] with the text of the
    exception. *)
Theorem llm_answer_falls_back
    (question : pystr) (results : list SearchResult) (st : State) :
  let msgs := compose_messages question results in
  let st1 := snd (emit (CallLlmAnswer question results) st) in
  (CHAT_USE_RESP cfg = false ->
   primary_call msgs st1
   = (Raise (mkExn RuntimeError (lit "FORCE_FALLBACK")), st1))
  /\ (forall e st2,
        primary_call msgs st1 = (Raise e, st2) ->
        (forall tu st3,
           fallback_call msgs st2 = (Ok tu, st3) ->
           llm_answer question results st
           = (Ok (answer_json tu results), st3))
        /\ (forall e' st3,
              fallback_call msgs st2 = (Raise e', st3) ->
              llm_answer question results st = (Raise e', st3))
        /\ (forall st2',
              client st2 = (Ok tt, st2') ->
              exists r st3,
                fallback_call msgs st2 = (r, st3)
                /\ trace st3
                   = trace st2 ++ [ChatCreate (CHAT_MODEL cfg) msgs false]))
  /\ (forall req sa sb sc sd se parsed c q top_k thr filters e',
        _auth_ok req = true ->
        question = c :: q ->
        read_json_body req sa = (Ok parsed, sb) ->
        message_of parsed sb = (Ok question, sc) ->
        chat_args parsed sc = (Ok (top_k, thr, filters), sd) ->
        rag_search question top_k thr true (Some filters) sd
        = (Ok (ResultList results), st) ->
        llm_answer question results st = (Raise e', se) ->
        chat_route req sa
        = (Ok (_send_json req (error_json e') 500),
           snd (emit (PrintExc e') se))
        /\ status (_send_json req (error_json e') 500) = 500%Z
        /\ body (_send_json req (error_json e') 500)
           = JsonBody (JObj [ (lit "ok", JBool false);
                              (lit "error", JStr (exn_msg e')) ])).
Proof.
  intros msgs st1. split; [|split].
  - intros Hflag. unfold primary_call. now rewrite Hflag.
  - intros e st2 Hprim. split; [|split].
    + intros tu st3 Hfb. rewrite llm_answer_unfold.
      fold msgs st1. rewrite (try_except_raise _ _ _ _ _ Hprim).
      now rewrite Hfb.
    + intros e' st3 Hfb. rewrite llm_answer_unfold.
      fold msgs st1. rewrite (try_except_raise _ _ _ _ _ Hprim).
      now rewrite Hfb.
    + intros st2' Hclient.
      exact (fallback_call_reaches_provider msgs st2 st2' Hclient).
  - intros req sa sb sc sd se parsed c q top_k thr filters e'
      Hauth Hq Hbody Hmsg Hargs Hrag Hllm.
    split; [|split; reflexivity].
    apply chat_route_except; [assumption|].
    subst question.
    exact (chat_body_llm_raises req sa sb sc sd st se parsed c q top_k thr
             filters (ResultList results) e' Hbody Hmsg Hargs Hrag Hllm).
Qed.

(** ** The chat route *)

Lemma read_json_body_pure (req : Request) (st st1 : State) (r : result json) :
  read_json_body req st = (r, st1) -> st1 = st.
Proof.
  unfold read_json_body, bind, lift, ret.
  destruct (content_length req) as [n|e]; [|now inversion 1].
  destruct (raw_body req n); [now inversion 1|].
  destruct (decode_utf8 rt _) as [s|e]; now inversion 1.
Qed.

Lemma message_of_empty (fields : list (pystr * json)) (st : State) :
  empty_message fields -> message_of (JObj fields) st = (Ok [], st).
Proof.
  unfold message_of, body_get, bind, ret.
  intros [H | [H | (s & H & Hs)]]; rewrite H; try reflexivity.
  destruct s as [|c s]; [reflexivity|].
  cbn [truthy]. now rewrite (strip_whitespace_only (c :: s) Hs).
Qed.

Lemma read_json_body_decode_raises (req : Request) (st : State)
    (n : Z) (e : exn) :
  content_length req = Ok n ->
  raw_body req n <> [] ->
  decode_utf8 rt (raw_body req n) = Raise e ->
  read_json_body req st = (Raise e, st).
Proof.
  intros Hn Hraw Hdec. unfold read_json_body, bind, lift.
  rewrite Hn. destruct (raw_body req n); [congruence|]. now rewrite Hdec.
Qed.

Lemma read_json_body_parse_raises (req : Request) (st : State)
    (n : Z) (s : pystr) (e : exn) :
  content_length req = Ok n ->
  raw_body req n <> [] ->
  decode_utf8 rt (raw_body req n) = Ok s ->
  json_loads rt s = Raise e ->
  read_json_body req st = (Raise e, st).
Proof.
  intros Hn Hraw Hdec Hparse. unfold read_json_body, bind, lift.
  rewrite Hn. destruct (raw_body req n); [congruence|].
  now rewrite Hdec, Hparse.
Qed.

(** C6. On POST /api/chat, for a request that passes auth: when the JSON
    body is an object whose message field is absent, null, or whitespace
    only, the handler answers [{"ok": true, "answer": <the canned
    empty-question string>, "sources": []}] and the state is untouched:
    no call of [rag_search] or of the LLM invoker, no event at all.  When
    decoding the body or parsing it as JSON raises, the handler answers
    with status 500 and a JSON body holding the text of the exception. *)
Theorem chat_route_empty_message_and_bad_body (req : Request) (st : State) :
  _auth_ok req = true ->
  (forall fields st1,
     read_json_body req st = (Ok (JObj fields), st1) ->
     empty_message fields ->
     chat_route req st = (Ok (_send_json req CANNED_EMPTY 200), st)
     /\ body (_send_json req CANNED_EMPTY 200)
        = JsonBody (JObj [ (lit "ok", JBool true);
                           (lit "answer", JStr EMPTY_QUESTION);
                           (lit "sources", JArr []) ]))
  /\ (forall n e,
        content_length req = Ok n ->
        raw_body req n <> [] ->
        (decode_utf8 rt (raw_body req n) = Raise e
         \/ exists s, decode_utf8 rt (raw_body req n) = Ok s
                      /\ json_loads rt s = Raise e) ->
        chat_route req st
        = (Ok (_send_json req (error_json e) 500),
           snd (emit (PrintExc e) st))
        /\ status (_send_json req (error_json e) 500) = 500%Z
        /\ body (_send_json req (error_json e) 500)
           = JsonBody (JObj [ (lit "ok", JBool false);
                              (lit "error", JStr (exn_msg e)) ])).
Proof.
  intros Hauth. split.
  - intros fields st1 Hbody Hempty. split; [|reflexivity].
    pose proof (read_json_body_pure req st st1 _ Hbody) as ->.
    unfold chat_route. rewrite Hauth. cbn [negb].
    apply try_except_ok. unfold chat_body.
    rewrite (bind_ok _ _ _ _ _ Hbody).
    now rewrite (bind_ok _ _ _ _ _ (message_of_empty fields st Hempty)).
  - intros n e Hn Hraw Hfail. split; [|split; reflexivity].
    apply chat_route_except; [assumption|].
    unfold chat_body. apply bind_raise.
    destruct Hfail as [Hdec | (s & Hdec & Hparse)].
    + now apply read_json_body_decode_raises with (n := n).
    + now apply read_json_body_parse_raises with (n := n) (s := s).
Qed.

(** ** The auth gate *)

Lemma auth_ok_without_secret (req : Request) :
  CHAT_API_SECRET cfg = [] -> _auth_ok req = true.
Proof. intros H. unfold _auth_ok. now rewrite H. Qed.

Lemma auth_ok_with_secret (req : Request) :
  CHAT_API_SECRET cfg <> [] ->
  (_auth_ok req = true <->
   header_get (lit "X-LOT-KEY") (req_headers req)
   = Some (CHAT_API_SECRET cfg)).
Proof.
  intros Hne. unfold _auth_ok, header_get_default.
  destruct (CHAT_API_SECRET cfg) as [|c s] eqn:Hs; [congruence|].
  cbn [nonempty negb].
  destruct (header_get (lit "X-LOT-KEY") (req_headers req)) as [v|].
  - rewrite pystr_eqb_eq. split; congruence.
  - rewrite pystr_eqb_eq. split; congruence.
Qed.

(** The two chat routes refuse a request that fails the check, before
    anything else happens. *)
Lemma chat_route_unauthorized (req : Request) (st : State) :
  _auth_ok req = false ->
  chat_route req st = (Ok (_send_json req UNAUTHORIZED 401), st).
Proof. intros H. unfold chat_route. now rewrite H. Qed.

Lemma stream_route_unauthorized (req : Request) (st : State) :
  req_path req = lit "/api/chat/stream" ->
  _auth_ok req = false ->
  do_GET req st = (Ok (_send_json req UNAUTHORIZED 401), st).
Proof. intros Hp H. unfold do_GET. rewrite Hp, H. reflexivity. Qed.

(** ** The upload proxy *)










(* ================================================================== *)
(** ** Further properties of the prompt composer *)
(* ================================================================== *)

Lemma source_name_nonempty (r : SearchResult) : source_name r <> [].
Proof.
  unfold source_name.
  destruct (filename r) as [[|c s]|]; destruct (doc_id r) as [[|c' s']|];
    discriminate.
Qed.

Lemma format_chunk_min (r : SearchResult) : (11 <= len (format_chunk r))%Z.
Proof.
  unfold format_chunk, len. rewrite !length_app.
  pose proof (source_name_nonempty r) as Hne.
  destruct (source_name r) as [|c s]; [congruence|].
  change (length SOURCE_OPEN) with 7%nat.
  change (length (lit "]")) with 1%nat. cbn [length]. lia.
Qed.

Lemma total_len_firstn_min (rs : list SearchResult) :
  forall k : nat,
    (k <= length rs)%nat -> (11 * Z.of_nat k <= total_len (firstn k rs))%Z.
Proof.
  induction rs as [|r rs IH]; intros k Hk.
  - cbn [length] in Hk. replace k with 0%nat by lia.
    change (total_len (firstn 0 [])) with 0%Z. lia.
  - destruct k as [|k]; [change (total_len (firstn 0 (r :: rs))) with 0%Z; lia|].
    cbn [firstn]. rewrite total_len_cons.
    cbn [length] in Hk. specialize (IH k ltac:(lia)).
    pose proof (format_chunk_min r). lia.
Qed.

Lemma total_len_firstn_le (rs : list SearchResult) :
  forall k : nat, (total_len (firstn k rs) <= total_len rs)%Z.
Proof.
  induction rs as [|r rs IH]; intros k.
  - rewrite firstn_nil. lia.
  - destruct k as [|k].
    + change (total_len (firstn 0 (r :: rs))) with 0%Z.
      apply total_len_nonneg.
    + cbn [firstn]. rewrite !total_len_cons. specialize (IH k). lia.
Qed.

Lemma len_join_chunks (rs : list SearchResult) :
  rs <> [] ->
  len (join [NL] (map format_chunk rs))
  = (total_len rs + (Z.of_nat (length rs) - 1))%Z.
Proof.
  intros Hne. unfold len. rewrite length_join, length_map.
  rewrite (total_len_list_sum rs).
  destruct rs as [|r rs]; [congruence|]. cbn [length]. lia.
Qed.

Lemma compose_opening_eq : compose_opening = lit "שאלה: ".
Proof. vm_compute. reflexivity. Qed.

Lemma build_context_len_nonempty
    (results : list SearchResult) (max_chars : Z) :
  (0 <= max_chars)%Z ->
  results <> [] ->
  (len (build_context results max_chars) <= max_chars + max_chars / 11)%Z.
Proof.
  intros Hbudget Hres.
  assert (Hdiv : (0 <= max_chars / 11)%Z) by (apply Z.div_pos; lia).
  destruct (build_context_loop_spec results max_chars 0 [])
    as (k & Hk & Heq & Hin & _).
  assert (Hbc : build_context results max_chars
                = join [NL] (map format_chunk (firstn k results))).
  { unfold build_context. destruct results as [|r rs]; [congruence|].
    rewrite Heq. reflexivity. }
  rewrite Hbc.
  destruct k as [|k]; [cbn; unfold len; cbn; lia|].
  specialize (Hin ltac:(lia)).
  rewrite len_join_chunks.
  2:{ destruct results; [cbn [length] in Hk; lia | discriminate]. }
  rewrite length_firstn, Nat.min_l by assumption.
  pose proof (total_len_firstn_min results (S k) Hk) as Hmin.
  assert (Z.of_nat (S k) <= max_chars / 11)%Z
    by (apply Z.div_le_lower_bound; lia).
  lia.
Qed.

Lemma len_app (s t : pystr) : len (s ++ t) = (len s + len t)%Z.
Proof. unfold len. rewrite length_app. lia. Qed.

(** X1. [compose_messages] always produces exactly two messages: the
    system message, whose content is the fixed persona whatever the
    question and the results, and the user message, whose content is the
    fixed template around the question text verbatim, the number of
    results in decimal and the context block of [build_context] at the
    default budget.  The user content is therefore never longer than the
    question, the digits of the count and 3990 further characters: 172
    of the template and at most 3818 of context. *)
Theorem compose_messages_shape :
  exists middle closing ending,
    forall (question : pystr) (results : list SearchResult),
      compose_messages question results
      = [ (lit "system", SYSTEM_HE);
          (lit "user",
           compose_opening ++ question ++ middle
           ++ str_of_nat (length results)
           ++ closing ++ build_context results 3500 ++ ending) ]
      /\ (len (content_at 1 (compose_messages question results))
          <= len question + len (str_of_nat (length results)) + 3990)%Z.
Proof.
  exists ([NL; NL] ++ lit "מקטעי רקע רלוונטיים (עד "),
         (lit "):" ++ [NL]),
         ([NL; NL]
          ++ lit "הנחיות ניסוח:" ++ [NL]
          ++ lit "- ענה בתמצית, במבנה נקודתי ברור." ++ [NL]
          ++ lit "- ציין מקורות בקצרה (שם קובץ/מסמך)." ++ [NL]
          ++ lit "- אם יש פערים/סתירות במקורות – הדגש והצע דרך בדיקה." ++ [NL]).
  intros question results.
  assert (Heq : compose_messages question results
      = [ (lit "system", SYSTEM_HE);
          (lit "user",
           compose_opening ++ question
           ++ ([NL; NL] ++ lit "מקטעי רקע רלוונטיים (עד ")
           ++ str_of_nat (length results)
           ++ (lit "):" ++ [NL]) ++ build_context results 3500
           ++ ([NL; NL]
               ++ lit "הנחיות ניסוח:" ++ [NL]
               ++ lit "- ענה בתמצית, במבנה נקודתי ברור." ++ [NL]
               ++ lit "- ציין מקורות בקצרה (שם קובץ/מסמך)." ++ [NL]
               ++ lit "- אם יש פערים/סתירות במקורות – הדגש והצע דרך בדיקה."
               ++ [NL])) ]).
  { rewrite compose_opening_eq.
    unfold compose_messages, TEMPLATE_HE, DEFAULT_MAX_CHARS.
    repeat rewrite <- app_assoc. reflexivity. }
  split; [exact Heq|].
  rewrite Heq. cbn [content_at nth snd].
  assert (Hctx : (len (build_context results 3500) <= 3818)%Z).
  { destruct results as [|r rs].
    - vm_compute. discriminate.
    - pose proof (build_context_len_nonempty (r :: rs) 3500 ltac:(lia)
                    ltac:(discriminate)) as H.
      change (3500 + 3500 / 11)%Z with 3818%Z in H. exact H. }
  set (middle := [NL; NL] ++ lit "מקטעי רקע רלוונטיים (עד ").
  set (closing := lit "):" ++ [NL]).
  set (ending := [NL; NL]
               ++ lit "הנחיות ניסוח:" ++ [NL]
               ++ lit "- ענה בתמצית, במבנה נקודתי ברור." ++ [NL]
               ++ lit "- ציין מקורות בקצרה (שם קובץ/מסמך)." ++ [NL]
               ++ lit "- אם יש פערים/סתירות במקורות – הדגש והצע דרך בדיקה."
               ++ [NL]).
  assert (Hsum : (len compose_opening + len middle + len closing
                  + len ending = 172)%Z) by (vm_compute; reflexivity).
  clearbody middle closing ending.
  rewrite !len_app. lia.
Qed.

(** X2. For a budget that is not negative, the string [build_context]
    returns has at most [max_chars + max_chars / 11] characters when the
    list is not empty (every formatted snippet has at least 11
    characters, which bounds the number of joining newlines), and is the
    18-character placeholder when it is. *)
Theorem build_context_length_bound
    (results : list SearchResult) (max_chars : Z) :
  (0 <= max_chars)%Z ->
  (len (build_context results max_chars)
   <= Z.max (len NO_CONTEXT) (max_chars + max_chars / 11))%Z
  /\ (results <> [] ->
      (len (build_context results max_chars)
       <= max_chars + max_chars / 11)%Z)
  /\ (results = [] ->
      build_context results max_chars = NO_CONTEXT /\ len NO_CONTEXT = 18%Z).
Proof.
  intros Hbudget.
  assert (Hdiv : (0 <= max_chars / 11)%Z) by (apply Z.div_pos; lia).
  pose proof (build_context_len_nonempty results max_chars Hbudget) as Hne.
  split; [|split; [exact Hne|]].
  - destruct results as [|r rs].
    + cbn [build_context]. lia.
    + specialize (Hne ltac:(discriminate)). lia.
  - intros ->. split; [reflexivity | vm_compute; reflexivity].
Qed.

(** X3. Two edges of the budget.  When the summed length of all formatted
    snippets is within the budget, every snippet is included, in order.
    When the first snippet alone is longer than the budget, the result is
    the empty string, not the placeholder. *)
Theorem build_context_budget_edges
    (results : list SearchResult) (max_chars : Z) :
  (results <> [] ->
   (total_len results <= max_chars)%Z ->
   build_context results max_chars = join [NL] (map format_chunk results))
  /\ (forall r rest,
        results = r :: rest ->
        (max_chars < len (format_chunk r))%Z ->
        build_context results max_chars = []).
Proof.
  split.
  - intros Hne Hfit.
    destruct (build_context_loop_spec results max_chars 0 [])
      as (k & Hk & Heq & _ & Hout).
    assert (Hall : k = length results).
    { destruct (Nat.eq_dec k (length results)) as [->|Hneq]; [reflexivity|].
      specialize (Hout ltac:(lia)).
      pose proof (total_len_firstn_le results (S k)). lia. }
    subst k. rewrite firstn_all in Heq.
    unfold build_context. destruct results as [|r rs]; [congruence|].
    rewrite Heq. reflexivity.
  - intros r rest -> Hlong.
    unfold build_context. cbn [build_context_loop].
    replace (0 + len (format_chunk r) >? max_chars)%Z with true
      by (symmetry; apply Z.gtb_lt; lia).
    reflexivity.
Qed.

(* ================================================================== *)
(** ** Further properties of the RAG client *)
(* ================================================================== *)

(** X4. [rag_search] always returns, and every request it makes is the
    same: a post to VS_API_BASE + "/api/vs/search" whose JSON document
    holds the query, top_k, threshold, include_text and the filters (an
    empty object when none or a falsy value is given), with Content-Type
    application/json and, exactly when a key is configured, that key
    under X-LOT-KEY.  A retry repeats the request unchanged. *)
Theorem rag_search_request
    (query : pystr) (top_k : Z) (threshold : pyfloat) (include_text : bool)
    (filters : option json) (st : State) :
  (exists v st' evs,
     rag_search query top_k threshold include_text filters st = (Ok v, st')
     /\ trace st' = trace st ++ evs
     /\ Forall (fun ev =>
                  is_post ev = true ->
                  ev = search_post query top_k threshold include_text filters)
          evs)
  /\ search_post query top_k threshold include_text filters
     = Post (VS_API_BASE cfg ++ lit "/api/vs/search") search_headers
         (JsonData
            (JObj [ (lit "query", JStr query);
                    (lit "top_k", JInt top_k);
                    (lit "threshold", JFloat threshold);
                    (lit "include_text", JBool include_text);
                    (lit "filters", search_filters filters) ]))
         (TIMEOUT_S cfg)
  /\ dict_get (lit "Content-Type") search_headers
     = Some (lit "application/json")
  /\ dict_get (lit "X-LOT-KEY") search_headers
     = (if nonempty (VS_API_KEY cfg) then Some (VS_API_KEY cfg) else None)
  /\ (filters = None \/ filters = Some JNull \/ filters = Some (JObj []) ->
      search_filters filters = JObj [])
  /\ (forall f, filters = Some f -> truthy f = true ->
                search_filters filters = f).
Proof.
  split; [|split; [reflexivity|split; [|split; [|split]]]].
  - destruct (requests_installed cfg) eqn:Hreq.
    + destruct (dumps_error rt
                  (search_body query top_k threshold include_text filters))
        as [e|] eqn:Hd.
      * rewrite (rag_search_unserialisable _ _ _ _ _ _ _ Hreq Hd).
        eexists _, _, _. split; [reflexivity|]. split; [reflexivity|].
        apply Forall_app. split; [|apply log_events_no_post].
        repeat apply Forall_cons; try apply Forall_nil; discriminate.
      * rewrite (rag_search_exact _ _ _ _ _ _ Hreq Hd). cbv zeta.
        destruct (attempt_result (vs_search env (search_posts st)))
          as [v|e1];
          [|destruct (attempt_result (vs_search env (S (search_posts st))))
              as [v|e2]];
          eexists _, _, _;
          (split; [reflexivity|]);
          (split; [reflexivity|]);
          apply Forall_cons; try discriminate;
          repeat first
            [ apply Forall_app; split
            | apply delay_no_post
            | apply log_events_no_post
            | apply Forall_cons; [intros _; reflexivity|] ].
    + rewrite (rag_search_without_requests _ _ _ _ _ _ Hreq).
      eexists _, _, _. split; [reflexivity|].
      split; [reflexivity|].
      repeat apply Forall_cons; try apply Forall_nil; discriminate.
  - unfold search_headers. destruct (nonempty (VS_API_KEY cfg)); reflexivity.
  - unfold search_headers. destruct (nonempty (VS_API_KEY cfg)); reflexivity.
  - intros [-> | [-> | ->]]; reflexivity.
  - intros f -> Hf. unfold search_filters. now rewrite Hf.
Qed.

(** X5. With the requests library and a body that can be serialised,
    [rag_search] returns the value of the first attempt that is accepted
    and stops there: one post when the first reply is accepted, two when
    the first attempt fails and the second is accepted.  A reply is
    accepted when its status is not from 400 to 599, the body is a JSON
    object and its "ok" value is truthy; the value returned is the one
    under "results", whatever it is, and the empty list when the key is
    missing. *)
Theorem rag_search_returns_accepted_reply
    (query : pystr) (top_k : Z) (threshold : pyfloat) (include_text : bool)
    (filters : option json) (st : State) (v : SearchValue) :
  requests_installed cfg = true ->
  dumps_error rt (search_body query top_k threshold include_text filters)
  = None ->
  (attempt_succeeds (vs_search env (search_posts st)) v ->
   rag_search query top_k threshold include_text filters st
   = (Ok v,
      with_search st 1
        [ CallRagSearch query top_k threshold include_text
            (search_filters filters);
          search_post query top_k threshold include_text filters ]))
  /\ (failed_attempt (vs_search env (search_posts st)) ->
      attempt_succeeds (vs_search env (S (search_posts st))) v ->
      exists st',
        rag_search query top_k threshold include_text filters st
        = (Ok v, st')
        /\ search_posts st' = (search_posts st + 2)%nat)
  /\ (forall r ok,
        ~ error_status (status_code r) -> truthy ok = true ->
        (forall w, json_body r = Ok (SearchObject (Some ok) (Some w)) ->
                   attempt_succeeds (Responded r) w)
        /\ (json_body r = Ok (SearchObject (Some ok) None) ->
            attempt_succeeds (Responded r) (ResultList []))).
Proof.
  intros Hreq Hd. rewrite (rag_search_exact _ _ _ _ _ _ Hreq Hd). cbv zeta.
  split; [|split].
  - intros Hok. now rewrite (attempt_succeeds_result _ _ Hok).
  - intros Hfail Hok.
    destruct (failed_attempt_result _ Hfail) as [err ->].
    rewrite (attempt_succeeds_result _ _ Hok).
    eexists. split; reflexivity.
  - intros r ok Hs Hok. split.
    + intros w Hj. exists r, ok, (Some w). repeat split; assumption.
    + intros Hj. exists r, ok, None. repeat split; assumption.
Qed.

(** X6. The pause and the log of [rag_search].  The 0.3 s pause follows
    an attempt that ended by an exception (transport error, status from
    400 to 599, body that is not a JSON object); a reply refused for its
    success flag is retried at once, without pause.  When both attempts
    fail the result is the empty list and the last error is logged, once,
    exactly when LOG_LEVEL is DEBUG or INFO.  When json.dumps raises on
    the body, both attempts end by that exception before any post: two
    pauses, no post, and the empty list. *)
Theorem rag_search_pause_and_log
    (query : pystr) (top_k : Z) (threshold : pyfloat) (include_text : bool)
    (filters : option json) (st : State) :
  let call := CallRagSearch query top_k threshold include_text
                (search_filters filters) in
  let p := search_post query top_k threshold include_text filters in
  let body := search_body query top_k threshold include_text filters in
  requests_installed cfg = true ->
  (dumps_error rt body = None ->
   (forall e v,
      attempt_raises (vs_search env (search_posts st)) e ->
      attempt_succeeds (vs_search env (S (search_posts st))) v ->
      rag_search query top_k threshold include_text filters st
      = (Ok v, with_search st 2 [call; p; Sleep; p]))
   /\ (forall v,
         flag_refused (vs_search env (search_posts st)) ->
         attempt_succeeds (vs_search env (S (search_posts st))) v ->
         rag_search query top_k threshold include_text filters st
         = (Ok v, with_search st 2 [call; p; p]))
   /\ (forall e1 e2,
         attempt_raises (vs_search env (search_posts st)) e1 ->
         attempt_raises (vs_search env (S (search_posts st))) e2 ->
         rag_search query top_k threshold include_text filters st
         = (Ok (ResultList []),
            with_search st 2
              ([call; p; Sleep; p; Sleep] ++ log_events (ErrExn e2)))))
  /\ (forall e,
        dumps_error rt body = Some e ->
        rag_search query top_k threshold include_text filters st
        = (Ok (ResultList []),
           with_search st 0
             ([call; Sleep; Sleep] ++ log_events (ErrExn e))))
  /\ (forall err,
        log_events err
        = if pystr_eqb (LOG_LEVEL cfg) (lit "DEBUG")
             || pystr_eqb (LOG_LEVEL cfg) (lit "INFO")
          then [Log err] else []).
Proof.
  intros call p body Hreq.
  split; [|split].
  - intros Hd.
    rewrite (rag_search_exact _ _ _ _ _ _ Hreq Hd). cbv zeta.
    split; [|split].
    + intros e v Hraise Hok.
      rewrite (attempt_raises_result _ _ Hraise).
      now rewrite (attempt_succeeds_result _ _ Hok).
    + intros v Hflag Hok.
      destruct (flag_refused_result _ Hflag) as [d ->].
      now rewrite (attempt_succeeds_result _ _ Hok).
    + intros e1 e2 H1 H2.
      rewrite (attempt_raises_result _ _ H1).
      now rewrite (attempt_raises_result _ _ H2).
  - intros e Hd. exact (rag_search_unserialisable _ _ _ _ _ _ _ Hreq Hd).
  - reflexivity.
Qed.

(* ================================================================== *)
(** ** Further properties of the LLM invoker *)
(* ================================================================== *)

Lemma client_ok_inv (st st1 : State) :
  client st = (Ok tt, st1) -> st1 = with_client st [].
Proof.
  unfold client, with_client. rewrite app_nil_r.
  destruct (nonempty (OPENAI_API_KEY cfg)); [|discriminate].
  destruct (client_made st) eqn:Hmade.
  - intros H. inversion H; subst. destruct st1; cbn in *. now subst.
  - destruct (openai_installed cfg); [|discriminate].
    intros H. now inversion H.
Qed.

Lemma client_missing_key (st : State) :
  OPENAI_API_KEY cfg = [] -> client st = (Raise MISSING_KEY, st).
Proof. intros H. unfold client. now rewrite H. Qed.

(** X7. [client()] fails with "Missing OPENAI_API_KEY" whenever the key
    is empty, and with "Missing 'openai' package" when the key is set but
    the package is absent and no client was made yet.  When it succeeds
    the client is made, nothing else changes (no call, no post), and
    every later [client()] succeeds and changes nothing. *)
Theorem client_lazy_and_cached (st : State) :
  (OPENAI_API_KEY cfg = [] -> client st = (Raise MISSING_KEY, st))
  /\ (OPENAI_API_KEY cfg <> [] -> client_made st = false ->
      openai_installed cfg = false ->
      client st
      = (Raise (mkExn RuntimeError (lit "Missing 'openai' package")), st))
  /\ (forall st1,
        client st = (Ok tt, st1) ->
        client_made st1 = true
        /\ trace st1 = trace st
        /\ search_posts st1 = search_posts st
        /\ client st1 = (Ok tt, st1)).
Proof.
  split; [apply client_missing_key|]. split.
  - intros Hkey Hmade Hpkg. unfold client.
    destruct (OPENAI_API_KEY cfg); [congruence|].
    cbn [nonempty]. now rewrite Hmade, Hpkg.
  - intros st1 Hok.
    pose proof (client_ok_inv st st1 Hok) as ->.
    unfold with_client. cbn [client_made trace search_posts].
    rewrite app_nil_r. repeat split.
    unfold client in *. cbn [client_made].
    destruct (nonempty (OPENAI_API_KEY cfg)); [reflexivity|discriminate].
Qed.

(** X8. When the flag selects the primary mode, the client is available
    and the responses-style call returns, [llm_answer] makes that one
    call, on the system and user contents joined by a blank line and
    stripped, and never reaches the chat-completion call.  The answer is
    the stripped output text (empty when there is none), with one source
    per result and the token usage. *)
Theorem llm_answer_primary_success
    (question : pystr) (results : list SearchResult) (st st2 : State)
    (resp : ResponsesReply) :
  CHAT_USE_RESP cfg = true ->
  client (snd (emit (CallLlmAnswer question results) st)) = (Ok tt, st2) ->
  responses_create env = Ok resp ->
  llm_answer question results st
  = (Ok (answer_json
           (strip (match output_text resp with Some s => s | None => [] end),
            usage_json (responses_usage resp))
           results),
     with_client st
       [ CallLlmAnswer question results;
         ResponsesCreate (CHAT_MODEL cfg) (text_input_of question results) ]).
Proof.
  intros Hflag Hclient Hresp.
  pose proof (client_ok_inv _ _ Hclient) as Hst2.
  rewrite llm_answer_unfold.
  unfold try_except, primary_call. rewrite Hflag.
  unfold call_responses.
  unfold bind at 1. unfold bind at 1. rewrite Hclient.
  unfold bind at 1. rewrite emit_spec. unfold lift. rewrite Hresp.
  unfold ret. f_equal.
  subst st2. unfold with_client, text_input_of.
  cbn [client_made search_posts trace emit snd].
  now rewrite app_nil_r, <- app_assoc.
Qed.

Lemma llm_answer_missing_key
    (question : pystr) (results : list SearchResult) (st : State) :
  OPENAI_API_KEY cfg = [] ->
  llm_answer question results st
  = (Raise MISSING_KEY, snd (emit (CallLlmAnswer question results) st)).
Proof.
  intros Hkey.
  rewrite llm_answer_unfold. unfold try_except.
  assert (Hfb : forall s, fallback_call (compose_messages question results) s
                          = (Raise MISSING_KEY, s)).
  { intros s. unfold fallback_call, call_chat.
    unfold bind at 1. unfold bind at 1.
    now rewrite (client_missing_key s Hkey). }
  unfold primary_call. destruct (CHAT_USE_RESP cfg).
  - unfold call_responses. unfold bind at 1. unfold bind at 1.
    rewrite (client_missing_key _ Hkey). now rewrite Hfb.
  - unfold raise. now rewrite Hfb.
Qed.

(** X9. With an empty OPENAI_API_KEY neither entry point reaches the
    provider.  [llm_answer] raises "Missing OPENAI_API_KEY", whatever the
    flag: the primary path fails on [client()] and so does the fallback.
    [llm_stream], when its meta line can be encoded, yields that line and
    then the error line with that text, and does not raise; when the
    meta line cannot be encoded it raises before [client()] is
    reached. *)
Theorem missing_api_key_surfaces
    (question : pystr) (results : list SearchResult) (st : State) :
  OPENAI_API_KEY cfg = [] ->
  llm_answer question results st
  = (Raise MISSING_KEY, snd (emit (CallLlmAnswer question results) st))
  /\ (forall meta,
        meta_line results = Ok meta ->
        llm_stream question results st
        = (Ok ([ meta;
                 utf8_bytes
                   ([NL]
                    ++ json_dumps
                         (JObj [ (lit "type", JStr (lit "error"));
                                 (lit "detail",
                                  JStr (lit "Missing OPENAI_API_KEY")) ])
                    ++ [NL]) ],
               None),
           snd (emit (CallLlmStream question results) st)))
  /\ (forall e,
        meta_line results = Raise e ->
        llm_stream question results st
        = (Ok ([], Some e), snd (emit (CallLlmStream question results) st))).
Proof.
  intros Hkey. split; [|split].
  - exact (llm_answer_missing_key question results st Hkey).
  - intros meta Hmeta.
    rewrite (llm_stream_after_meta _ _ _ _ Hmeta).
    unfold call_chat_stream. unfold bind at 1.
    rewrite (client_missing_key _ Hkey), closing_spec.
    reflexivity.
  - intros e Hmeta. exact (llm_stream_meta_raises _ _ _ _ Hmeta).
Qed.

Lemma relay_nonempty (items : list ChatChunk) :
  Forall (fun f => f <> []) (fst (relay items)).
Proof.
  induction items as [|ch rest IH]; cbn [relay]; [constructor|].
  destruct (choices ch) as [[|c l]|]; [constructor| |exact IH].
  destruct (delta c) as [d|]; [|exact IH].
  destruct (content d) as [[|x s]|]; try exact IH.
  destruct (relay rest) as [fs e]. cbn [fst] in *.
  constructor; [discriminate | exact IH].
Qed.

Lemma relay_cons_good (ch : ChatChunk) (rest : list ChatChunk) :
  empty_choices ch = false ->
  relay (ch :: rest)
  = (match first_text ch with Some t => [t] | None => [] end
     ++ fst (relay rest), snd (relay rest)).
Proof.
  unfold empty_choices, first_text. cbn [relay].
  destruct (choices ch) as [[|c l]|]; [discriminate| |];
    intros _; try now destruct (relay rest).
  destruct (delta c) as [d|]; [|now destruct (relay rest)].
  destruct (content d) as [[|x s]|]; now destruct (relay rest).
Qed.

(** X10. The relay loop of [llm_stream] forwards the text of the first
    choice of each item, in order, and nothing else: items without
    choices, delta or text are skipped, and no fragment is empty.  An
    item whose list of choices is empty stops the relay with an
    IndexError after the fragments of the items before it. *)
Theorem relay_forwards_first_choice_text :
  (forall items, Forall (fun f => f <> []) (fst (relay items)))
  /\ (forall items,
        forallb (fun ch => negb (empty_choices ch)) items = true ->
        relay items = (texts_of items, None))
  /\ (forall good bad rest,
        forallb (fun ch => negb (empty_choices ch)) good = true ->
        empty_choices bad = true ->
        relay (good ++ bad :: rest) = (texts_of good, Some index_error)).
Proof.
  split; [exact relay_nonempty|]. split.
  - induction items as [|ch rest IH]; [reflexivity|].
    cbn [forallb]. intros H. apply andb_true_iff in H as [Hch Hrest].
    apply negb_true_iff in Hch.
    rewrite (relay_cons_good ch rest Hch), (IH Hrest). reflexivity.
  - induction good as [|ch good IH]; intros bad rest Hgood Hbad.
    + cbn [app relay texts_of flat_map]. unfold empty_choices in Hbad.
      destruct (choices bad) as [[|c l]|]; try discriminate. reflexivity.
    + cbn [forallb] in Hgood. apply andb_true_iff in Hgood as [Hch Hrest].
      apply negb_true_iff in Hch.
      change ((ch :: good) ++ bad :: rest) with (ch :: (good ++ bad :: rest)).
      rewrite (relay_cons_good ch _ Hch), (IH bad rest Hrest Hbad).
      reflexivity.
Qed.

(** X11. When the client is available and the meta line can be encoded,
    [llm_stream] calls the provider exactly once, with stream=True and
    the messages of [compose_messages], and that is all it does to the
    outside world, whether the stream then fails or not; the meta line is
    its first chunk.  When the meta line cannot be encoded, it calls
    nothing. *)
Theorem llm_stream_calls_provider_once
    (question : pystr) (results : list SearchResult) (st st2 : State) :
  client (snd (emit (CallLlmStream question results) st)) = (Ok tt, st2) ->
  (forall meta,
     meta_line results = Ok meta ->
     exists frames escaped,
       llm_stream question results st
       = (Ok (meta :: frames, escaped),
          with_client st
            [ CallLlmStream question results;
              ChatCreate (CHAT_MODEL cfg)
                (compose_messages question results) true ]))
  /\ (forall e,
        meta_line results = Raise e ->
        llm_stream question results st
        = (Ok ([], Some e), snd (emit (CallLlmStream question results) st))).
Proof.
  intros Hclient. split.
  2:{ intros e Hmeta. exact (llm_stream_meta_raises _ _ _ _ Hmeta). }
  intros meta Hmeta.
  pose proof (client_ok_inv _ _ Hclient) as Hst2.
  rewrite (llm_stream_after_meta _ _ _ _ Hmeta).
  unfold call_chat_stream. unfold bind at 1. rewrite Hclient.
  unfold bind at 1. rewrite emit_spec. unfold lift.
  assert (Hfinal : {| client_made := client_made st2;
                      search_posts := search_posts st2;
                      trace := trace st2
                               ++ [ChatCreate (CHAT_MODEL cfg)
                                     (compose_messages question results)
                                     true] |}
                   = with_client st
                       [ CallLlmStream question results;
                         ChatCreate (CHAT_MODEL cfg)
                           (compose_messages question results) true ]).
  { subst st2. unfold with_client.
    cbn [client_made search_posts trace emit snd].
    now rewrite app_nil_r, <- app_assoc. }
  rewrite Hfinal.
  destruct (chat_create_stream env) as [s|e].
  - destruct (snd (stream_frames s)); eexists _, _; reflexivity.
  - eexists _, _. reflexivity.
Qed.

(* ================================================================== *)
(** ** Further properties of the HTTP front door *)
(* ================================================================== *)

Lemma lstrip_clean (s : pystr) : clean_start (lstrip s).
Proof.
  induction s as [|c s IH]; cbn [lstrip]; [exact I|].
  destruct (isspace c) eqn:Hc; [exact IH | exact Hc].
Qed.

Lemma lstrip_id (s : pystr) : clean_start s -> lstrip s = s.
Proof. destruct s as [|c s]; cbn; [reflexivity|]. now intros ->. Qed.

Lemma lstrip_app_nonspace (l : pystr) (c : N) :
  isspace c = false -> lstrip (l ++ [c]) = lstrip l ++ [c].
Proof.
  intros Hc. induction l as [|x l IH]; cbn [app lstrip].
  - now rewrite Hc.
  - destruct (isspace x); [exact IH | reflexivity].
Qed.

Lemma rstrip_clean_start (t : pystr) : clean_start t -> clean_start (rstrip t).
Proof.
  destruct t as [|c t]; [intros _; exact I|].
  cbn [clean_start]. intros Hc. unfold rstrip. cbn [rev].
  rewrite (lstrip_app_nonspace _ c Hc), rev_app_distr. exact Hc.
Qed.

Lemma rstrip_idempotent (t : pystr) : rstrip (rstrip t) = rstrip t.
Proof.
  unfold rstrip. rewrite rev_involutive.
  now rewrite (lstrip_id _ (lstrip_clean (rev t))).
Qed.

(** What [strip] returns has no whitespace at either end, so stripping it
    again changes nothing. *)
Lemma strip_idempotent (s : pystr) : strip (strip s) = strip s.
Proof.
  unfold strip.
  rewrite (lstrip_id (rstrip (lstrip s))
             (rstrip_clean_start _ (lstrip_clean s))).
  apply rstrip_idempotent.
Qed.

Lemma strip_clean_ends (s : pystr) :
  clean_start (strip s) /\ clean_start (rev (strip s)).
Proof.
  split.
  - apply rstrip_clean_start, lstrip_clean.
  - unfold strip, rstrip. rewrite rev_involutive. apply lstrip_clean.
Qed.

Lemma primary_call_stripped (msgs : list message) (st st' : State)
    (tu : pystr * json) :
  primary_call msgs st = (Ok tu, st') -> exists x, fst tu = strip x.
Proof.
  unfold primary_call. destruct (CHAT_USE_RESP cfg); [|discriminate].
  unfold bind, ret.
  destruct (call_responses _ st) as [[resp|e] s]; [|discriminate].
  intros H. inversion H; subst. cbn [fst]. eauto.
Qed.

Lemma fallback_call_stripped (msgs : list message) (st st' : State)
    (tu : pystr * json) :
  fallback_call msgs st = (Ok tu, st') -> exists x, fst tu = strip x.
Proof.
  unfold fallback_call. unfold bind at 1.
  destruct (call_chat msgs st) as [[c|e] s]; [|discriminate].
  destruct (message_contents c) as [|[t|] l]; unfold bind, raise, ret;
    try discriminate.
  intros H. inversion H; subst. cbn [fst]. eauto.
Qed.

(** X12. Whenever [llm_answer] returns, the dictionary has the four keys
    ok, answer, sources and tokens: ok is true, the answer carries no
    whitespace at either end, and sources has one entry per result, in
    order, each with the five keys doc_id, filename, score, excerpt and
    tags. *)
Theorem llm_answer_shape
    (question : pystr) (results : list SearchResult) (st st' : State)
    (j : json) :
  llm_answer question results st = (Ok j, st') ->
  exists txt tokens,
    j = JObj [ (lit "ok", JBool true);
               (lit "answer", JStr txt);
               (lit "sources", JArr (map source_json results));
               (lit "tokens", tokens) ]
    /\ strip txt = txt
    /\ clean_start txt /\ clean_start (rev txt)
    /\ length (map source_json results) = length results.
Proof.
  rewrite llm_answer_unfold. unfold try_except.
  set (msgs := compose_messages question results).
  set (st1 := snd (emit (CallLlmAnswer question results) st)).
  intros H.
  assert (Hstripped : exists tu x,
             j = answer_json tu results /\ fst tu = strip x).
  { destruct (primary_call msgs st1) as [[tu|e] s] eqn:Hprim.
    - inversion H; subst. exists tu.
      destruct (primary_call_stripped _ _ _ _ Hprim) as [x Hx]. eauto.
    - destruct (fallback_call msgs s) as [[tu|e'] s'] eqn:Hfb;
        [|discriminate].
      inversion H; subst. exists tu.
      destruct (fallback_call_stripped _ _ _ _ Hfb) as [x Hx]. eauto. }
  destruct Hstripped as (tu & x & -> & Hx).
  exists (fst tu), (snd tu). split; [reflexivity|].
  rewrite Hx. split; [apply strip_idempotent|].
  split; [apply strip_clean_ends|].
  split; [apply strip_clean_ends | apply length_map].
Qed.

Lemma chat_route_responds (req : Request) (st : State) :
  exists resp st', chat_route req st = (Ok resp, st').
Proof.
  unfold chat_route. destruct (negb (_auth_ok req)); [unfold ret; eauto|].
  unfold try_except. destruct (chat_body req st) as [[resp|e] s]; [eauto|].
  unfold bind, emit, ret. eauto.
Qed.

Lemma upload_route_responds (req : Request) (st : State) :
  exists resp st', upload_route req st = (Ok resp, st').
Proof.
  unfold upload_route.
  destruct (negb (requests_installed cfg)); [unfold ret; eauto|].
  unfold try_except.
  match goal with
  | |- context [match ?m st with _ => _ end] =>
      destruct (m st) as [[resp|e] s]
  end; unfold ret; eauto.
Qed.

Lemma bind_lift_ok {A B : Type} (a : A) (k : A -> M B) (st : State) :
  bind (lift (Ok a)) k st = k a st.
Proof. reflexivity. Qed.

Lemma bind_lift_raise {A B : Type} (e : exn) (k : A -> M B) (st : State) :
  bind (lift (Raise e)) k st = (Raise e, st).
Proof. reflexivity. Qed.

Lemma handle_responds (req : Request) (st : State) :
  req_command req <> GET \/ req_path req <> lit "/api/chat/stream" ->
  exists resp st', handle req st = (Ok resp, st').
Proof.
  intros Hwhere. unfold handle.
  destruct (req_command req) eqn:Hcmd.
  - destruct Hwhere as [Hc | Hpath]; [congruence|].
    unfold do_GET.
    destruct (pystr_eqb (req_path req) (lit "/health")); [unfold ret; eauto|].
    destruct (pystr_eqb (req_path req) (lit "/api/chat/stream")) eqn:Hs.
    + apply pystr_eqb_eq in Hs. congruence.
    + destruct (pystr_eqb (req_path req) (lit "/chat")); unfold ret; eauto.
  - unfold do_POST.
    destruct (pystr_eqb (req_path req) (lit "/api/chat"));
      [apply chat_route_responds|].
    destruct (pystr_eqb (req_path req) (lit "/api/upload"));
      [apply upload_route_responds | unfold ret; eauto].
  - unfold do_OPTIONS, ret. eauto.
Qed.

(** X13. Which requests make the handler raise before it answers.
    OPTIONS never does: it answers 204 without reading the target.  On
    GET and POST the target is parsed first, outside any [try]: when
    [urlparse] raises, the exception leaves the handler at once, before
    any effect.  When the target parses, a POST always reaches the call
    that sends its answer: whatever is raised inside the [try] of the
    chat route or of the upload route is caught there and answered
    through [_send_json], and the other paths answer directly.  The same
    holds for every GET whose path is not the streaming route. *)
Theorem handler_always_responds (raw : RawRequest) (st : State) :
  (raw_command raw = OPTIONS ->
   serve raw st
   = (Ok {| status := 204;
            sent_headers :=
              _send_headers (unparsed_request raw) 204
                (lit "application/json") [];
            body := NoBody |}, st))
  /\ (forall e,
        raw_command raw <> OPTIONS ->
        urlparse rt (raw_path raw) = Raise e ->
        serve raw st = (Raise e, st))
  /\ (forall path query,
        urlparse rt (raw_path raw) = Ok (path, query) ->
        raw_command raw = POST
        \/ (raw_command raw = GET /\ path <> lit "/api/chat/stream") ->
        exists resp st', serve raw st = (Ok resp, st')).
Proof.
  split; [|split].
  - intros Hcmd. unfold serve. rewrite Hcmd. reflexivity.
  - intros e Hcmd Hparse. unfold serve, parsed_request. rewrite Hparse.
    destruct (raw_command raw); try reflexivity. congruence.
  - intros path query Hparse Hwhere.
    assert (Hreq : parsed_request raw
                   = Ok {| req_command := raw_command raw;
                           req_path := path;
                           req_query := parse_qs rt query;
                           req_headers := raw_headers raw;
                           req_rfile := raw_rfile raw |}).
    { unfold parsed_request. now rewrite Hparse. }
    unfold serve. rewrite Hreq.
    destruct Hwhere as [Hcmd | [Hcmd Hpath]]; rewrite Hcmd;
      rewrite bind_lift_ok; apply handle_responds; cbn [req_command req_path].
    + left. discriminate.
    + right. exact Hpath.
Qed.

(** [llm_stream] always runs to an end: what it yields, and the exception
    that leaves it, if one does. *)
Lemma llm_stream_total (question : pystr) (results : list SearchResult)
    (st : State) :
  exists frames escaped st',
    llm_stream question results st = (Ok (frames, escaped), st')
    /\ (forall meta, meta_line results = Ok meta ->
                     exists rest, frames = meta :: rest)
    /\ (forall e, meta_line results = Raise e ->
                  frames = [] /\ escaped = Some e
                  /\ st' = snd (emit (CallLlmStream question results) st)).
Proof.
  destruct (meta_line results) as [meta|e] eqn:Hmeta.
  - rewrite (llm_stream_after_meta _ _ _ _ Hmeta).
    destruct (call_chat_stream _ _) as [[s|e] st2].
    + destruct (snd (stream_frames s));
        eexists _, _, _; (split; [reflexivity|]);
        (split; [intros m Hm; inversion Hm; subst; eauto
                |intros e' He'; discriminate He']).
    + eexists _, _, _. split; [reflexivity|].
      split; [intros m Hm; inversion Hm; subst; eauto
             |intros e' He'; discriminate He'].
  - rewrite (llm_stream_meta_raises _ _ _ _ Hmeta).
    eexists _, _, _. split; [reflexivity|].
    split; [intros m Hm; discriminate Hm|].
    intros e' He'. inversion He'; subst. repeat split.
Qed.

(** X14. The streaming route.  Its parameters are read outside any
    [try]: when the query string holds a top_k that is not an integer, or
    a threshold that is not a number, the exception leaves [do_GET]
    before any search and any response.  When the parameters read, the
    route searches with the stripped question, include_text on and no
    filters, and runs [llm_stream] on what the search returned.  When the
    generator ends without raising, the answer is 200 text/plain with
    Connection: keep-alive and its chunks.  When an exception leaves the
    generator, it leaves [do_GET] as well, after the headers and the
    chunks yielded so far were written.  For a list of results whose meta
    line can be encoded the first chunk is that line; when it cannot, or
    when the search returned a value that is not a list, the exception
    leaves before any chunk. *)
Theorem stream_route_parameters (req : Request) (st : State) :
  req_path req = lit "/api/chat/stream" ->
  _auth_ok req = true ->
  (forall e, stream_params req = Raise e -> do_GET req st = (Raise e, st))
  /\ (forall q top_k thr,
        stream_params req = Ok (q, top_k, thr) ->
        let sent :=
          _send_headers req 200 (lit "text/plain; charset=utf-8")
            [ (lit "Connection", lit "keep-alive") ] in
        exists v st1 frames escaped st2,
          rag_search q top_k thr true None st = (Ok v, st1)
          /\ llm_stream_any q v st1 = (Ok (frames, escaped), st2)
          /\ (escaped = None ->
              do_GET req st
              = (Ok {| status := 200; sent_headers := sent;
                       body := StreamBody frames |}, st2))
          /\ (forall e,
                escaped = Some e ->
                do_GET req st
                = (Raise e, snd (emit (WroteStream 200 sent frames) st2)))
          /\ (forall rs meta,
                v = ResultList rs -> meta_line rs = Ok meta ->
                exists rest, frames = meta :: rest)
          /\ (forall rs e,
                v = ResultList rs -> meta_line rs = Raise e ->
                frames = [] /\ escaped = Some e)
          /\ (forall o e,
                v = NotAList o -> meta_error o = Some e ->
                frames = [] /\ escaped = Some e /\ st2 = st1)
          /\ (forall o,
                v = NotAList o -> meta_error o = None ->
                llm_stream_any q v st1 = llm_stream q [] st1)).
Proof.
  intros Hpath Hauth. unfold do_GET, stream_params.
  rewrite Hpath, Hauth. cbn [negb].
  change (pystr_eqb (lit "/api/chat/stream") (lit "/health")) with false.
  rewrite pystr_eqb_refl. cbv iota.
  destruct (qs_first (lit "q") [] (req_query req)) as [q0|e0];
    [rewrite bind_lift_ok | rewrite bind_lift_raise].
  2:{ split; [intros e H; now inversion H | intros q k t H; discriminate]. }
  destruct (qs_first (lit "top_k") _ (req_query req)) as [k0|e0];
    [rewrite bind_lift_ok | rewrite bind_lift_raise].
  2:{ split; [intros e H; now inversion H | intros q k t H; discriminate]. }
  destruct (int_of_str rt k0) as [top_k|e0];
    [rewrite bind_lift_ok | rewrite bind_lift_raise].
  2:{ split; [intros e H; now inversion H | intros q k t H; discriminate]. }
  destruct (qs_first (lit "threshold") _ (req_query req)) as [t0|e0];
    [rewrite bind_lift_ok | rewrite bind_lift_raise].
  2:{ split; [intros e H; now inversion H | intros q k t H; discriminate]. }
  destruct (float_of_str rt t0) as [thr|e0];
    [rewrite bind_lift_ok | rewrite bind_lift_raise].
  2:{ split; [intros e H; now inversion H | intros q k t H; discriminate]. }
  split; [intros e H; discriminate|].
  intros q k t H. inversion H; subst q k t. clear H.
  destruct (rag_search_ok (strip q0) top_k thr true None st)
    as (v & st1 & Hrag).
  assert (Hrun : exists frames escaped st2,
             llm_stream_any (strip q0) v st1 = (Ok (frames, escaped), st2)
             /\ (forall rs meta,
                   v = ResultList rs -> meta_line rs = Ok meta ->
                   exists rest, frames = meta :: rest)
             /\ (forall rs e,
                   v = ResultList rs -> meta_line rs = Raise e ->
                   frames = [] /\ escaped = Some e)
             /\ (forall o e,
                   v = NotAList o -> meta_error o = Some e ->
                   frames = [] /\ escaped = Some e /\ st2 = st1)).
  { destruct v as [rs|o]; cbn [llm_stream_any].
    - destruct (llm_stream_total (strip q0) rs st1)
        as (frames & escaped & st2 & Hllm & Hfirst & Hnone).
      exists frames, escaped, st2. split; [exact Hllm|].
      split; [intros rs' meta Hv; inversion Hv; subst; now apply Hfirst|].
      split; [|intros o e Hv; discriminate Hv].
      intros rs' e Hv Hm. inversion Hv; subst.
      destruct (Hnone e Hm) as (Hf & He & _). now split.
    - destruct (meta_error o) as [e|] eqn:Herr.
      + exists [], (Some e), st1. split; [reflexivity|].
        split; [intros rs meta Hv; discriminate Hv|].
        split; [intros rs e' Hv; discriminate Hv|].
        intros o' e' Hv He'. inversion Hv; subst.
        rewrite Herr in He'. inversion He'; subst. repeat split.
      + destruct (llm_stream_total (strip q0) [] st1)
          as (frames & escaped & st2 & Hllm & _ & _).
        exists frames, escaped, st2. split; [exact Hllm|].
        split; [intros rs meta Hv; discriminate Hv|].
        split; [intros rs e' Hv; discriminate Hv|].
        intros o' e' Hv He'. inversion Hv; subst. congruence. }
  destruct Hrun as (frames & escaped & st2 & Hllm & Hfirst & Hbad & Hnot).
  exists v, st1, frames, escaped, st2.
  split; [exact Hrag|]. split; [exact Hllm|].
  rewrite (bind_ok _ _ _ _ _ Hrag), (bind_ok _ _ _ _ _ Hllm).
  cbn [fst snd].
  split; [intros ->; reflexivity|].
  split; [intros e ->; reflexivity|].
  split; [exact Hfirst|]. split; [exact Hbad|]. split; [exact Hnot|].
  intros o -> Herr. cbn [llm_stream_any]. now rewrite Herr.
Qed.

(** X15. The health check, the UI page and the not-found answer are
    served without the shared secret and without touching anything: on
    GET, every path other than the streaming route leaves the state as it
    is; /health answers 200 with ok, time, port, model and vs; /chat
    answers 200 with the page as text/html; any other path answers 404
    with not_found. *)
Theorem public_get_routes (req : Request) (st : State) :
  req_path req <> lit "/api/chat/stream" ->
  exists resp,
    do_GET req st = (Ok resp, st)
    /\ (req_path req = lit "/health" ->
        status resp = 200%Z
        /\ body resp
           = JsonBody (JObj [ (lit "ok", JBool true);
                              (lit "time", JInt (now env));
                              (lit "port", JInt (PORT cfg));
                              (lit "model", JStr (CHAT_MODEL cfg));
                              (lit "vs", JStr (VS_API_BASE cfg)) ]))
    /\ (req_path req = lit "/chat" ->
        status resp = 200%Z
        /\ body resp = TextBody (CHAT_HTML rt)
        /\ header_values (lit "Content-Type") (sent_headers resp)
           = [lit "text/html; charset=utf-8"])
    /\ (req_path req <> lit "/health" -> req_path req <> lit "/chat" ->
        status resp = 404%Z /\ body resp = JsonBody NOT_FOUND).
Proof.
  intros Hstream. unfold do_GET.
  destruct (pystr_eqb (req_path req) (lit "/health")) eqn:Hh.
  { apply pystr_eqb_eq in Hh. eexists. split; [reflexivity|].
    split; [intros _; split; reflexivity|].
    split; [intros Hc; rewrite Hh in Hc; discriminate Hc|].
    intros Hn. congruence. }
  apply pystr_eqb_neq in Hh.
  destruct (pystr_eqb (req_path req) (lit "/api/chat/stream")) eqn:Hs.
  { apply pystr_eqb_eq in Hs. congruence. }
  destruct (pystr_eqb (req_path req) (lit "/chat")) eqn:Hc.
  - apply pystr_eqb_eq in Hc. eexists. split; [reflexivity|].
    split; [congruence|]. split; [|congruence].
    intros _. cbn [status body sent_headers].
    split; [reflexivity|]. split; [reflexivity|].
    unfold _send_headers. rewrite !header_values_app.
    destruct (allow_origin cfg _) as [[|c a]|]; reflexivity.
  - apply pystr_eqb_neq in Hc. eexists. split; [reflexivity|].
    split; [congruence|]. split; [congruence|].
    intros _ _. split; reflexivity.
Qed.

(** X16. The auth gate of the two chat routes.  With a secret
    configured, a request whose X-LOT-KEY header is missing or differs
    from the secret is answered 401 with the unauthorized body on POST
    /api/chat and on GET /api/chat/stream, and the state is untouched: no
    search, no provider call.  A request passes the check exactly when
    the header equals the secret. *)
Theorem chat_routes_require_key (req : Request) (st : State) :
  CHAT_API_SECRET cfg <> [] ->
  (_auth_ok req = true <->
   header_get (lit "X-LOT-KEY") (req_headers req)
   = Some (CHAT_API_SECRET cfg))
  /\ (header_get (lit "X-LOT-KEY") (req_headers req)
      <> Some (CHAT_API_SECRET cfg) ->
      (req_command req = POST -> req_path req = lit "/api/chat" ->
       handle req st = (Ok (_send_json req UNAUTHORIZED 401), st))
      /\ (req_command req = GET -> req_path req = lit "/api/chat/stream" ->
          handle req st = (Ok (_send_json req UNAUTHORIZED 401), st))
      /\ status (_send_json req UNAUTHORIZED 401) = 401%Z
      /\ body (_send_json req UNAUTHORIZED 401)
         = JsonBody (JObj [ (lit "error", JStr (lit "unauthorized")) ])).
Proof.
  intros Hsecret.
  pose proof (auth_ok_with_secret req Hsecret) as Hiff.
  split; [exact Hiff|].
  intros Hkey.
  assert (Hno : _auth_ok req = false).
  { destruct (_auth_ok req); [|reflexivity].
    exfalso. apply Hkey. now apply Hiff. }
  split; [|split; [|split; reflexivity]].
  - intros Hcmd Hpath. unfold handle, do_POST. rewrite Hcmd, Hpath.
    rewrite pystr_eqb_refl. now apply chat_route_unauthorized.
  - intros Hcmd Hpath. unfold handle. rewrite Hcmd.
    now apply stream_route_unauthorized.
Qed.

(** X17. On the chat route a body that parses as JSON but is not an
    object, or whose message is a truthy value that is not a string, is
    answered 500 with the text of the AttributeError, and neither the
    search nor the provider is called: the only event is the printed
    traceback. *)
Theorem chat_route_rejects_odd_bodies
    (req : Request) (st : State) (v : json) :
  _auth_ok req = true ->
  read_json_body req st = (Ok v, st) ->
  ((forall fields, v <> JObj fields) ->
   chat_route req st
   = (Ok (_send_json req
            (error_json (no_attribute (type_name v) (lit "get"))) 500),
      snd (emit (PrintExc (no_attribute (type_name v) (lit "get"))) st)))
  /\ (forall fields m,
        v = JObj fields ->
        dict_get (lit "message") fields = Some m ->
        truthy m = true ->
        (forall s, m <> JStr s) ->
        chat_route req st
        = (Ok (_send_json req
                 (error_json (no_attribute (type_name m) (lit "strip"))) 500),
           snd (emit (PrintExc (no_attribute (type_name m) (lit "strip")))
                  st))).
Proof.
  intros Hauth Hbody. split.
  - intros Hnot. apply chat_route_except; [assumption|].
    unfold chat_body. rewrite (bind_ok _ _ _ _ _ Hbody).
    apply bind_raise. unfold message_of. apply bind_raise.
    destruct v; try reflexivity. exfalso. now apply (Hnot fields).
  - intros fields m -> Hm Htruthy Hnot.
    apply chat_route_except; [assumption|].
    unfold chat_body. rewrite (bind_ok _ _ _ _ _ Hbody).
    apply bind_raise. unfold message_of, body_get.
    unfold bind, ret. rewrite Hm, Htruthy.
    destruct m; try reflexivity. exfalso. now apply (Hnot s).
Qed.



Lemma send_headers_fixed (req : Request) (status : Z) (ct : pystr)
    (extra : list (pystr * pystr)) :
  extra = [] \/ extra = [ (lit "Connection", lit "keep-alive") ] ->
  header_values (lit "Cache-Control") (_send_headers req status ct extra)
  = [lit "no-cache"]
  /\ header_values (lit "Content-Type") (_send_headers req status ct extra)
     = [ct]
  /\ (header_values (lit "Vary") (_send_headers req status ct extra)
      = [lit "Origin"]
      /\ header_values ACAO (_send_headers req status ct extra) <> []
      \/ header_values (lit "Vary") (_send_headers req status ct extra) = []
         /\ header_values ACAO (_send_headers req status ct extra) = []).
Proof.
  intros Hextra. unfold _send_headers. rewrite !header_values_app.
  destruct (allow_origin cfg _) as [[|c a]|];
    destruct Hextra as [-> | ->];
    (split; [reflexivity|]); (split; [reflexivity|]);
    first [ right; split; reflexivity
          | left; split; [reflexivity | discriminate] ].
Qed.

(** X18. Every response of the service carries Cache-Control: no-cache
    and exactly one Content-Type, and it carries Vary: Origin exactly
    when it carries Access-Control-Allow-Origin. *)
Theorem every_response_headers
    (req : Request) (st st' : State) (resp : HttpResponse) :
  handle req st = (Ok resp, st') ->
  header_values (lit "Cache-Control") (sent_headers resp) = [lit "no-cache"]
  /\ (exists ct, header_values (lit "Content-Type") (sent_headers resp) = [ct])
  /\ (header_values (lit "Vary") (sent_headers resp) = [lit "Origin"]
      /\ header_values ACAO (sent_headers resp) <> []
      \/ header_values (lit "Vary") (sent_headers resp) = []
         /\ header_values ACAO (sent_headers resp) = []).
Proof.
  intros Hrun.
  destruct (handle_sent req st resp st' Hrun)
    as (status & ct & extra & -> & Hextra).
  destruct (send_headers_fixed req status ct extra Hextra) as (H1 & H2 & H3).
  split; [exact H1|]. split; [eauto | exact H3].
Qed.

(** X19. The status of every response is one the service chooses itself
    (200, 204, 401, 404 or 500), except on POST /api/upload, where it may
    also be the status code of the upstream answer. *)
Theorem response_status_codes
    (req : Request) (st st' : State) (resp : HttpResponse) :
  handle req st = (Ok resp, st') ->
  own_status (status resp)
  \/ (req_command req = POST /\ req_path req = lit "/api/upload"
      /\ exists r, vs_index env = Responded r
                   /\ status resp = status_code r).
Proof.
  unfold own_status.
  revert st resp st'.
  change (post (handle req)
            (fun resp =>
               (status resp = 200%Z \/ status resp = 204%Z
                \/ status resp = 401%Z \/ status resp = 404%Z
                \/ status resp = 500%Z)
               \/ (req_command req = POST /\ req_path req = lit "/api/upload"
                   /\ exists r, vs_index env = Responded r
                                /\ status resp = status_code r))).
  unfold handle. destruct (req_command req) eqn:Hcmd.
  - unfold do_GET.
    repeat match goal with
           | |- post (if ?b then _ else _) _ => destruct b
           | |- post (ret _) _ => apply post_ret; cbn [status _send_json]; tauto
           | |- post (bind _ _) _ => apply post_bind; intros
           | |- post (match snd ?x with Some _ => _ | None => _ end) _ =>
               destruct (snd x)
           | |- post (raise _) _ => apply post_raise
           end.
  - unfold do_POST.
    destruct (pystr_eqb (req_path req) (lit "/api/chat")).
    + unfold chat_route, chat_body.
      repeat match goal with
             | |- post (if ?b then _ else _) _ => destruct b
             | |- post (ret _) _ =>
                 apply post_ret; cbn [status _send_json]; tauto
             | |- post (bind _ _) _ => apply post_bind; intros
             | |- post (try_except _ _) _ => apply post_try_except; intros
             | |- post (match ?q with [] => _ | _ :: _ => _ end) _ =>
                 destruct q
             | |- post (let (_, _) := ?x in _) _ => destruct x
             end.
    + destruct (pystr_eqb (req_path req) (lit "/api/upload")) eqn:Hup;
        [|apply post_ret; cbn [status _send_json]; tauto].
      apply pystr_eqb_eq in Hup.
      unfold upload_route.
      destruct (negb (requests_installed cfg));
        [apply post_ret; cbn [status _send_json]; tauto|].
      apply post_try_except;
        [|intros e; apply post_ret; cbn [status _send_json]; tauto].
      apply post_bind. intros n.
      intros s resp s' Hrun. unfold bind, post_index, lift, ret in Hrun.
      destruct (vs_index env) as [e|r] eqn:Hidx; [discriminate|].
      destruct (json_body r) as [j|e]; [|discriminate].
      inversion Hrun; subst. cbn [status _send_json].
      right. split; [reflexivity|]. split; [assumption|]. eauto.
  - unfold do_OPTIONS. apply post_ret. cbn [status]. tauto.
Qed.

(** X20. The CORS allow-list is read from the comma-separated value with
    each piece stripped and the blank pieces dropped: every entry is
    non-empty, carries no whitespace at either end and is a stripped
    piece of the value, and every piece that is not blank gives an entry.
    A value made of blanks and commas only gives the empty list, that is,
    the wildcard mode. *)
Theorem cors_allow_list_is_trimmed :
  (forall o,
     In o (CORS_ALLOW cfg) <->
     o <> [] /\ exists piece,
                  In piece (split_on 44 (CORS_ALLOW_ORIGINS cfg))
                  /\ o = strip piece)
  /\ (forall o, In o (CORS_ALLOW cfg) ->
                strip o = o /\ clean_start o /\ clean_start (rev o))
  /\ ((forall piece, In piece (split_on 44 (CORS_ALLOW_ORIGINS cfg)) ->
                     strip piece = []) ->
      CORS_ALLOW cfg = []).
Proof.
  assert (Hchar : forall o,
             In o (CORS_ALLOW cfg) <->
             o <> [] /\ exists piece,
                          In piece (split_on 44 (CORS_ALLOW_ORIGINS cfg))
                          /\ o = strip piece).
  { intros o. unfold CORS_ALLOW. rewrite in_map_iff. split.
    - intros (x & <- & Hx). apply filter_In in Hx as [Hin Hne].
      split; [destruct (strip x); [discriminate|congruence] | eauto].
    - intros (Hne & piece & Hin & ->). exists piece.
      split; [reflexivity|]. apply filter_In. split; [assumption|].
      destruct (strip piece); [congruence | reflexivity]. }
  split; [exact Hchar|]. split.
  - intros o Ho. apply Hchar in Ho as (_ & piece & _ & ->).
    split; [apply strip_idempotent | apply strip_clean_ends].
  - intros Hblank.
    destruct (CORS_ALLOW cfg) as [|o l] eqn:Hl; [reflexivity|].
    assert (Ho : In o (o :: l)) by now left.
    apply Hchar in Ho as (Hne & piece & Hin & ->).
    exfalso. apply Hne. now apply Hblank.
Qed.

End Server.

(** ** Closed examples *)

Lemma cors_allow_list_echoes_listed_origin_witness :
  let cfg := demo_cfg [] GOOD_ORIGIN true in
  let req := request GET (lit "/health") [ (lit "Origin", GOOD_ORIGIN) ] [] in
  CORS_ALLOW cfg <> []
  /\ In GOOD_ORIGIN (CORS_ALLOW cfg)
  /\ header_values ACAO
       (sent_headers (_send_json cfg env0 req
          (JObj [ (lit "ok", JBool true);
                  (lit "time", JInt (now env0));
                  (lit "port", JInt (PORT cfg));
                  (lit "model", JStr (CHAT_MODEL cfg));
                  (lit "vs", JStr (VS_API_BASE cfg)) ]) 200))
     = [GOOD_ORIGIN].
Proof.
  intros cfg req.
  assert (Hne : CORS_ALLOW cfg <> []) by (vm_compute; discriminate).
  assert (Hin : In GOOD_ORIGIN (CORS_ALLOW cfg)) by (vm_compute; now left).
  split; [exact Hne|]. split; [exact Hin|].
  refine (proj2 (cors_allow_list_echoes_listed_origin cfg env0 demo_rt
                   req st0 st0 _ Hne _) GOOD_ORIGIN _ Hin);
    reflexivity.
Defined.

Lemma cors_wildcard_with_credentials_witness :
  let cfg := demo_cfg [] [] true in
  let req := request OPTIONS (lit "/api/chat")
               [ (lit "Origin", lit "https://evil.example") ] [] in
  CORS_ALLOW cfg = []
  /\ header_values ACAO
       (_send_headers cfg env0 req 204 (lit "application/json") [])
     = [lit "*"]
  /\ header_values ACAC
       (_send_headers cfg env0 req 204 (lit "application/json") [])
     = [lit "true"].
Proof.
  intros cfg req.
  split; [reflexivity|].
  exact (cors_wildcard_with_credentials cfg env0 demo_rt req st0 st0
           {| status := 204;
              sent_headers :=
                _send_headers cfg env0 req 204 (lit "application/json") [];
              body := NoBody |}
           eq_refl eq_refl).
Defined.

Lemma rag_search_never_raises_two_attempts_witness :
  failed_attempt (vs_search env_down 0)
  /\ failed_attempt (vs_search env_down 1)
  /\ exists st',
       rag_search (demo_cfg [] [] true) env_down demo_rt (lit "q") 5
         (Finite 1 (-2)) true None st0
       = (Ok (ResultList []), st')
       /\ posts_in (trace st') = 2%nat.
Proof.
  assert (Hdown : failed_attempt (Transport BOOM)).
  { left. exists BOOM. constructor. }
  split; [exact Hdown|]. split; [exact Hdown|].
  destruct (rag_search_never_raises_two_attempts (demo_cfg [] [] true)
              env_down demo_rt (lit "q") 5 (Finite 1 (-2)) true None st0)
    as ((v & st' & evs & Hrun & Htrace & _ & _ & _ & Hmain) & _).
  destruct (Hmain eq_refl eq_refl) as (_ & Hfail).
  destruct (Hfail Hdown) as (Hposts & _ & Hempty).
  exists st'. rewrite Hrun, (Hempty Hdown), Htrace.
  split; [reflexivity | exact Hposts].
Defined.

(** C2 (as stated) fails on a reply with a status outside 200 to 299 that
    [raise_for_status] does not refuse.  The vector store answers 300
    with a true flag and one result: in the words of the claim both
    attempts would fail, yet the first reply is accepted, after one post,
    and its result is returned. *)
Lemma rag_search_redirect_counterexample :
  claimed_failure (vs_search env_redirect 0)
  /\ claimed_failure (vs_search env_redirect 1)
  /\ rag_search (demo_cfg [] [] true) env_redirect demo_rt (lit "q") 5
       (Finite 1 (-2)) true None st0
     = (Ok (ResultList [a_result]),
        with_search st0 1
          [ CallRagSearch (lit "q") 5 (Finite 1 (-2)) true (JObj []);
            search_post (demo_cfg [] [] true) (lit "q") 5 (Finite 1 (-2))
              true None ])
  /\ posts_in
       [ CallRagSearch (lit "q") 5 (Finite 1 (-2)) true (JObj []);
         search_post (demo_cfg [] [] true) (lit "q") 5 (Finite 1 (-2))
           true None ] = 1%nat
  /\ ResultList [a_result] <> ResultList [].
Proof.
  assert (Hclaimed : claimed_failure redirect_reply).
  { apply claimed_status. cbn [status_code]. lia. }
  split; [exact Hclaimed|]. split; [exact Hclaimed|].
  split; [vm_compute; reflexivity|].
  split; [reflexivity | discriminate].
Qed.

Lemma rt_floats_encodable (f : pyfloat) :
  encodable (str_of_float rt_floats f) = true.
Proof.
  destruct f as [m e|[|]|]; cbn [str_of_float rt_floats demo_float_repr];
    try reflexivity.
  destruct ((m =? 3) && (e =? -2))%Z; reflexivity.
Qed.

Lemma llm_stream_conforms_witness :
  exists st',
    llm_stream (demo_cfg [] [] true) env0 rt_floats (lit "hi") [a_result] st0
    = (Ok ([ utf8_bytes
               (json_text
                  "{'type': 'meta', 'sources': [{'doc_id': 'd1', 'filename': 'plan.pdf', 'score': 0.75}]}"
                ++ [NL]);
             utf8_bytes (lit "an"); utf8_bytes (lit "swer"); [NL] ],
           None), st').
Proof.
  destruct (llm_stream_conforms (demo_cfg [] [] true) env0 rt_floats
              (lit "hi") [a_result] st0 rt_floats_encodable)
    as (_ & Hgood).
  destruct (Hgood eq_refl) as (_ & Hstream).
  eexists. rewrite (Hstream _ _ eq_refl). vm_compute. reflexivity.
Defined.

(** C4 (as stated) fails on a result whose doc_id holds a lone surrogate:
    the meta line cannot be encoded, so the generator raises before it
    yields anything, and no line is emitted at all.  Nothing was called
    either: the trace holds the entry into [llm_stream] only. *)
Lemma llm_stream_surrogate_counterexample :
  llm_stream (demo_cfg [] [] true) env0 rt_floats (lit "hi")
    [surrogate_result] st0
  = (Ok ([],
         Some (mkExn UnicodeEncodeError
                 (lit "'utf-8' codec can't encode character '\ud800' in position 42: surrogates not allowed"))),
     with_search st0 0 [CallLlmStream (lit "hi") [surrogate_result]]).
Proof. vm_compute. reflexivity. Qed.

Lemma llm_answer_falls_back_witness :
  exists st1 st2,
    llm_answer cfg_fallback env_llm_down (lit "hi") [a_result] st1
    = (Raise BOOM, st2)
    /\ exists st',
         chat_route cfg_fallback env_llm_down demo_rt
           (chat_request HI_BODY) st0
         = (Ok (_send_json cfg_fallback env_llm_down (chat_request HI_BODY)
                  (error_json BOOM) 500), st').
Proof.
  pose (q := lit "hi").
  pose (sd := snd (chat_args cfg_fallback demo_rt HI_JSON st0)).
  pose (st1 := snd (rag_search cfg_fallback env_llm_down demo_rt q 5
                      (THRESH_DEFAULT cfg_fallback) true (Some (JObj [])) sd)).
  pose (sa := snd (emit (CallLlmAnswer q [a_result]) st1)).
  pose (sb := snd (fallback_call cfg_fallback env_llm_down
                     (compose_messages q [a_result]) sa)).
  destruct (llm_answer_falls_back cfg_fallback env_llm_down demo_rt
              q [a_result] st1)
    as (Hflag & Hprimary & Hroute).
  destruct (Hprimary _ sa (Hflag eq_refl)) as (_ & Hraise & _).
  pose proof (Hraise BOOM sb eq_refl) as Hllm.
  exists st1, sb. split; [exact Hllm|].
  eexists.
  refine (proj1 (Hroute (chat_request HI_BODY) st0 st0 st0 sd sb HI_JSON
                   104%N [105%N] 5%Z (THRESH_DEFAULT cfg_fallback) (JObj [])
                   BOOM eq_refl eq_refl eq_refl eq_refl eq_refl eq_refl Hllm)).
Defined.

Lemma chat_route_empty_message_and_bad_body_witness :
  chat_route (demo_cfg [] [] true) env0 demo_rt (chat_request (lit "{}")) st0
  = (Ok (_send_json (demo_cfg [] [] true) env0 (chat_request (lit "{}"))
           CANNED_EMPTY 200), st0)
  /\ exists st',
       chat_route (demo_cfg [] [] true) env0 demo_rt
         (chat_request (lit "{")) st0
       = (Ok (_send_json (demo_cfg [] [] true) env0 (chat_request (lit "{"))
                (error_json (mkExn ValueError (lit "Expecting value"))) 500),
          st').
Proof.
  split.
  - refine (proj1 (proj1 (chat_route_empty_message_and_bad_body
                            (demo_cfg [] [] true) env0 demo_rt
                            (chat_request (lit "{}")) st0 eq_refl)
                     [] st0 eq_refl _)).
    left. reflexivity.
  - eexists.
    refine (proj1 (proj2 (chat_route_empty_message_and_bad_body
                            (demo_cfg [] [] true) env0 demo_rt
                            (chat_request (lit "{")) st0 eq_refl)
                     1%Z (mkExn ValueError (lit "Expecting value"))
                     eq_refl _ _)).
    + discriminate.
    + right. exists (lit "{"). split; reflexivity.
Defined.



(** C1 fails on the upload route.  With a secret configured, a request
    to POST /api/upload that carries no X-LOT-KEY header does not pass
    [_auth_ok], and yet it is not answered with 401: its body is posted
    to the ingestion endpoint and the upstream answer is relayed. *)
Theorem upload_route_skips_auth_check :
  let cfg := demo_cfg (lit "s3cret") [] true in
  let req := upload_request (lit "3") in
  _auth_ok cfg req = false
  /\ handle cfg env0 demo_rt req st0
     = (Ok (_send_json cfg env0 req (JObj [ (lit "ok", JBool true) ]) 200),
        after_upload_post cfg req 3 st0)
  /\ posts_in (trace (after_upload_post cfg req 3 st0)) = 1%nat
  /\ status (_send_json cfg env0 req (JObj [ (lit "ok", JBool true) ]) 200)
     <> 401%Z.
Proof.
  intros cfg req. split; [reflexivity|].
  split; [vm_compute; reflexivity|].
  split; [reflexivity | discriminate].
Qed.

Lemma build_context_prefix_by_budget_witness :
  exists k : nat,
    (k <= 2)%nat
    /\ build_context [tiny_result; tiny_result] 11
       = join [NL] (map format_chunk (firstn k [tiny_result; tiny_result]))
    /\ ((0 < k)%nat ->
        (total_len (firstn k [tiny_result; tiny_result]) <= 11)%Z)
    /\ ((k < 2)%nat ->
        (11 < total_len (firstn (S k) [tiny_result; tiny_result]))%Z)
    /\ ((0 < k)%nat ->
        (len (build_context [tiny_result; tiny_result] 11)
         <= 11 + (Z.of_nat k - 1))%Z)
    /\ (k = 0%nat -> build_context [tiny_result; tiny_result] 11 = []).
Proof.
  apply (proj2 (build_context_prefix_by_budget
                  [tiny_result; tiny_result] 11)).
  discriminate.
Defined.

(** *** Closed examples of the further properties *)

Lemma build_context_length_bound_witness :
  (0 <= 11)%Z
  /\ (len (build_context [tiny_result; tiny_result] 11) <= 11 + 11 / 11)%Z.
Proof.
  split; [lia|].
  apply (proj1 (proj2 (build_context_length_bound
                         [tiny_result; tiny_result] 11 ltac:(lia)))).
  discriminate.
Defined.

Lemma build_context_budget_edges_witness :
  build_context [tiny_result; tiny_result] 30
  = join [NL] (map format_chunk [tiny_result; tiny_result])
  /\ build_context [tiny_result] 5 = [].
Proof.
  split.
  - apply (proj1 (build_context_budget_edges [tiny_result; tiny_result] 30)).
    + discriminate.
    + vm_compute. discriminate.
  - apply (proj2 (build_context_budget_edges [tiny_result] 5)
             tiny_result [] eq_refl).
    vm_compute. reflexivity.
Defined.

Lemma rag_search_request_witness :
  dict_get (lit "X-LOT-KEY") (search_headers (demo_cfg [] [] true))
  = Some (lit "vs-key")
  /\ dict_get (lit "X-LOT-KEY") (search_headers cfg_no_key) = None
  /\ search_filters (Some JNull) = JObj [].
Proof.
  destruct (rag_search_request (demo_cfg [] [] true) env0 demo_rt (lit "q") 5
              (Finite 1 (-2)) true (Some JNull) st0)
    as (_ & _ & _ & Hkey & Hfilters & _).
  destruct (rag_search_request cfg_no_key env0 demo_rt (lit "q") 5
              (Finite 1 (-2)) true None st0)
    as (_ & _ & _ & Hnokey & _).
  split; [exact Hkey|]. split; [exact Hnokey|].
  apply Hfilters. right. left. reflexivity.
Defined.

Lemma rag_search_returns_accepted_reply_witness :
  attempt_succeeds (vs_search env_null 0) (NotAList NLNull)
  /\ rag_search (demo_cfg [] [] true) env_null demo_rt (lit "q") 5
       (Finite 1 (-2)) true None st0
     = (Ok (NotAList NLNull),
        with_search st0 1
          [ CallRagSearch (lit "q") 5 (Finite 1 (-2)) true (JObj []);
            search_post (demo_cfg [] [] true) (lit "q") 5 (Finite 1 (-2))
              true None ]).
Proof.
  destruct (rag_search_returns_accepted_reply (demo_cfg [] [] true) env_null
              demo_rt (lit "q") 5 (Finite 1 (-2)) true None st0
              (NotAList NLNull) eq_refl eq_refl)
    as (Hfirst & _ & Haccepted).
  assert (Hok : attempt_succeeds (vs_search env_null 0) (NotAList NLNull)).
  { refine (proj1 (Haccepted
                     {| status_code := 200; http_error := HTTP_ERROR;
                        json_body :=
                          Ok (SearchObject (Some (JBool true))
                                (Some (NotAList NLNull))) |}
                     (JBool true) _ eq_refl) _ eq_refl).
    unfold error_status. cbn [status_code]. lia. }
  split; [exact Hok | exact (Hfirst Hok)].
Defined.

Lemma rag_search_pause_and_log_witness :
  attempt_raises (vs_search env_down 0) BOOM
  /\ attempt_raises (vs_search env_down 1) BOOM
  /\ rag_search (demo_cfg [] [] true) env_down demo_rt (lit "q") 5
       (Finite 1 (-2)) true None st0
     = (Ok (ResultList []),
        with_search st0 2
          [ CallRagSearch (lit "q") 5 (Finite 1 (-2)) true (JObj []);
            search_post (demo_cfg [] [] true) (lit "q") 5 (Finite 1 (-2))
              true None;
            Sleep;
            search_post (demo_cfg [] [] true) (lit "q") 5 (Finite 1 (-2))
              true None;
            Sleep;
            Log (ErrExn BOOM) ])
  /\ rag_search (demo_cfg [] [] true) env0 rt_limit (lit "q") HUGE
       (Finite 1 (-2)) true None st0
     = (Ok (ResultList []),
        with_search st0 0
          [ CallRagSearch (lit "q") HUGE (Finite 1 (-2)) true (JObj []);
            Sleep; Sleep; Log (ErrExn DIGITS_ERROR) ]).
Proof.
  split; [constructor|]. split; [constructor|].
  split.
  - destruct (rag_search_pause_and_log (demo_cfg [] [] true) env_down
                demo_rt (lit "q") 5 (Finite 1 (-2)) true None st0 eq_refl)
      as (Hposted & _).
    destruct (Hposted eq_refl) as (_ & _ & Hboth).
    exact (Hboth BOOM BOOM (raises_transport BOOM) (raises_transport BOOM)).
  - destruct (rag_search_pause_and_log (demo_cfg [] [] true) env0
                rt_limit (lit "q") HUGE (Finite 1 (-2)) true None st0
                eq_refl)
      as (_ & Hdumps & _).
    apply Hdumps. vm_compute. reflexivity.
Defined.

Lemma client_lazy_and_cached_witness :
  client cfg_no_key st0 = (Raise MISSING_KEY, st0)
  /\ client (demo_cfg [] [] true) (with_client st0 [])
     = (Ok tt, with_client st0 []).
Proof.
  split.
  - exact (proj1 (client_lazy_and_cached cfg_no_key st0) eq_refl).
  - exact (proj2 (proj2 (proj2
             (proj2 (proj2 (client_lazy_and_cached (demo_cfg [] [] true) st0))
                (with_client st0 []) eq_refl)))).
Defined.

Lemma llm_answer_primary_success_witness :
  llm_answer (demo_cfg [] [] true) env0 (lit "hi") [a_result] st0
  = (Ok (answer_json (lit "answer", JNull) [a_result]),
     with_client st0
       [ CallLlmAnswer (lit "hi") [a_result];
         ResponsesCreate (lit "gpt-4o-mini")
           (text_input_of (lit "hi") [a_result]) ]).
Proof.
  exact (llm_answer_primary_success (demo_cfg [] [] true) env0 (lit "hi")
           [a_result] st0 _ _ eq_refl eq_refl eq_refl).
Defined.

Lemma missing_api_key_surfaces_witness :
  llm_stream cfg_no_key env0 rt_floats (lit "hi") [a_result] st0
  = (Ok ([ utf8_bytes
             (json_text
                "{'type': 'meta', 'sources': [{'doc_id': 'd1', 'filename': 'plan.pdf', 'score': 0.75}]}"
              ++ [NL]);
           utf8_bytes
             ([NL]
              ++ json_text
                   "{'type': 'error', 'detail': 'Missing OPENAI_API_KEY'}"
              ++ [NL]) ],
         None),
     snd (emit (CallLlmStream (lit "hi") [a_result]) st0)).
Proof.
  rewrite (proj1 (proj2 (missing_api_key_surfaces cfg_no_key env0 rt_floats
                           (lit "hi") [a_result] st0 eq_refl))
             (utf8_bytes
                (json_text
                   "{'type': 'meta', 'sources': [{'doc_id': 'd1', 'filename': 'plan.pdf', 'score': 0.75}]}"
                 ++ [NL])));
    vm_compute; reflexivity.
Defined.

Lemma relay_forwards_first_choice_text_witness :
  relay [text_item (lit "an"); {| choices := None |}; text_item (lit "swer")]
  = ([lit "an"; lit "swer"], None)
  /\ relay [text_item (lit "an"); no_choice_item; text_item (lit "swer")]
     = ([lit "an"], Some index_error).
Proof.
  destruct relay_forwards_first_choice_text as (_ & Hgood & Hbad).
  split.
  - exact (Hgood [text_item (lit "an"); {| choices := None |};
                  text_item (lit "swer")] eq_refl).
  - exact (Hbad [text_item (lit "an")] no_choice_item
             [text_item (lit "swer")] eq_refl eq_refl).
Defined.

Lemma llm_stream_calls_provider_once_witness :
  exists meta frames escaped,
    meta_line rt_floats [a_result] = Ok meta
    /\ llm_stream (demo_cfg [] [] true) env_down rt_floats (lit "hi")
         [a_result] st0
       = (Ok (meta :: frames, escaped),
          with_client st0
            [ CallLlmStream (lit "hi") [a_result];
              ChatCreate (lit "gpt-4o-mini")
                (compose_messages (lit "hi") [a_result]) true ]).
Proof.
  destruct (meta_line rt_floats [a_result]) as [meta|e] eqn:Hmeta;
    [|vm_compute in Hmeta; discriminate Hmeta].
  destruct (proj1 (llm_stream_calls_provider_once (demo_cfg [] [] true)
                     env_down rt_floats (lit "hi") [a_result] st0 _ eq_refl)
              meta Hmeta)
    as (frames & escaped & Hrun).
  exists meta, frames, escaped. split; [reflexivity | exact Hrun].
Defined.

Lemma llm_answer_shape_witness :
  exists txt tokens,
    answer_json (lit "answer", JNull) [a_result]
    = JObj [ (lit "ok", JBool true);
             (lit "answer", JStr txt);
             (lit "sources", JArr (map source_json [a_result]));
             (lit "tokens", tokens) ]
    /\ strip txt = txt
    /\ clean_start txt /\ clean_start (rev txt)
    /\ length (map source_json [a_result]) = 1%nat.
Proof.
  exact (llm_answer_shape (demo_cfg [] [] true) env0 (lit "hi") [a_result]
           st0 _ _ eq_refl).
Defined.

Lemma handler_always_responds_witness :
  serve (demo_cfg [] [] true) env_down demo_rt
    (raw_request POST BAD_TARGET [] []) st0
  = (Raise (mkExn ValueError (lit "Invalid IPv6 URL")), st0)
  /\ exists resp st',
       serve (demo_cfg [] [] true) env_down demo_rt
         (raw_request POST (lit "/api/chat?x=1")
            [ (lit "Content-Length", lit "0") ] []) st0
       = (Ok resp, st').
Proof.
  split.
  - refine (proj1 (proj2 (handler_always_responds (demo_cfg [] [] true)
                            env_down demo_rt
                            (raw_request POST BAD_TARGET [] []) st0))
              _ _ eq_refl).
    discriminate.
  - refine (proj2 (proj2 (handler_always_responds (demo_cfg [] [] true)
                            env_down demo_rt
                            (raw_request POST (lit "/api/chat?x=1")
                               [ (lit "Content-Length", lit "0") ] []) st0))
              (lit "/api/chat") (lit "x=1") _ _).
    + vm_compute. reflexivity.
    + left. reflexivity.
Defined.

Lemma stream_route_parameters_witness :
  do_GET (demo_cfg [] [] true) env0 rt_floats (stream_request (lit "many"))
    st0
  = (Raise (invalid_int_literal (lit "many")), st0)
  /\ (exists frames st2,
        do_GET (demo_cfg [] [] true) env0 rt_floats
          (stream_request (lit "3")) st0
        = (Ok {| status := 200;
                 sent_headers :=
                   _send_headers (demo_cfg [] [] true) env0
                     (stream_request (lit "3")) 200
                     (lit "text/plain; charset=utf-8")
                     [ (lit "Connection", lit "keep-alive") ];
                 body := StreamBody frames |},
           st2))
  /\ (exists st2,
        do_GET (demo_cfg [] [] true) env_null rt_floats
          (stream_request (lit "3")) st0
        = (Raise (not_iterable (lit "NoneType")), st2)).
Proof.
  split; [|split].
  - exact (proj1 (stream_route_parameters (demo_cfg [] [] true) env0
                    rt_floats (stream_request (lit "many")) st0
                    eq_refl eq_refl)
             _ eq_refl).
  - destruct (proj2 (stream_route_parameters (demo_cfg [] [] true) env0
                       rt_floats (stream_request (lit "3")) st0
                       eq_refl eq_refl)
                (lit "hi") 3%Z (Finite 1 0) eq_refl)
      as (v & st1 & frames & escaped & st2 & Hrag & Hllm & Hget & _).
    vm_compute in Hrag. inversion Hrag; subst v st1. clear Hrag.
    vm_compute in Hllm. inversion Hllm; subst escaped. clear Hllm.
    exists frames, st2. exact (Hget eq_refl).
  - destruct (proj2 (stream_route_parameters (demo_cfg [] [] true) env_null
                       rt_floats (stream_request (lit "3")) st0
                       eq_refl eq_refl)
                (lit "hi") 3%Z (Finite 1 0) eq_refl)
      as (v & st1 & frames & escaped & st2 & Hrag & _ & _ & Hraise & _ & _
          & Hnot & _).
    vm_compute in Hrag. inversion Hrag; subst v st1. clear Hrag.
    destruct (Hnot NLNull (not_iterable (lit "NoneType")) eq_refl eq_refl)
      as (_ & Hesc & _).
    eexists. exact (Hraise _ Hesc).
Defined.

Lemma public_get_routes_witness :
  exists resp,
    do_GET (demo_cfg (lit "s3cret") [] true) env0 demo_rt
      (request GET (lit "/health") [] []) st0
    = (Ok resp, st0)
    /\ status resp = 200%Z.
Proof.
  destruct (public_get_routes (demo_cfg (lit "s3cret") [] true) env0 demo_rt
              (request GET (lit "/health") [] []) st0)
    as (resp & Hrun & Hhealth & _).
  - discriminate.
  - exists resp. split; [exact Hrun|]. exact (proj1 (Hhealth eq_refl)).
Defined.

Lemma chat_routes_require_key_witness :
  handle (demo_cfg (lit "s3cret") [] true) env0 demo_rt
    (chat_request HI_BODY) st0
  = (Ok (_send_json (demo_cfg (lit "s3cret") [] true) env0
           (chat_request HI_BODY) UNAUTHORIZED 401), st0).
Proof.
  refine (proj1 (proj2 (chat_routes_require_key
                          (demo_cfg (lit "s3cret") [] true) env0 demo_rt
                          (chat_request HI_BODY) st0 _) _)
            eq_refl eq_refl); discriminate.
Defined.

Lemma chat_route_rejects_odd_bodies_witness :
  chat_route (demo_cfg [] [] true) env0 rt_lists (chat_request (lit "[]")) st0
  = (Ok (_send_json (demo_cfg [] [] true) env0 (chat_request (lit "[]"))
           (error_json (no_attribute (lit "list") (lit "get"))) 500),
     snd (emit (PrintExc (no_attribute (lit "list") (lit "get"))) st0)).
Proof.
  apply (proj1 (chat_route_rejects_odd_bodies (demo_cfg [] [] true) env0
                  rt_lists (chat_request (lit "[]")) st0 (JArr [])
                  eq_refl eq_refl)).
  discriminate.
Defined.


Lemma every_response_headers_witness :
  header_values (lit "Cache-Control")
    (sent_headers
       (_send_json (demo_cfg [] [] true) env0
          (request POST (lit "/nowhere") [] []) NOT_FOUND 404))
  = [lit "no-cache"].
Proof.
  exact (proj1 (every_response_headers (demo_cfg [] [] true) env0 demo_rt
                  (request POST (lit "/nowhere") [] []) st0 st0 _ eq_refl)).
Defined.

Lemma response_status_codes_witness :
  own_status 404
  \/ (POST = POST /\ lit "/nowhere" = lit "/api/upload"
      /\ exists r, vs_index env0 = Responded r /\ 404%Z = status_code r).
Proof.
  exact (response_status_codes (demo_cfg [] [] true) env0 demo_rt
           (request POST (lit "/nowhere") [] []) st0 st0
           (_send_json (demo_cfg [] [] true) env0
              (request POST (lit "/nowhere") [] []) NOT_FOUND 404)
           eq_refl).
Defined.

Lemma cors_allow_list_is_trimmed_witness :
  CORS_ALLOW cfg_no_key = []
  /\ strip GOOD_ORIGIN = GOOD_ORIGIN.
Proof.
  destruct (cors_allow_list_is_trimmed cfg_no_key) as (_ & _ & Hblank).
  destruct (cors_allow_list_is_trimmed
              (demo_cfg [] (lit " https://good.example ,") true))
    as (_ & Htrim & _).
  split.
  - apply Hblank. intros piece Hin. vm_compute in Hin.
    repeat (destruct Hin as [<- | Hin]; [reflexivity|]). contradiction.
  - apply Htrim. vm_compute. left. reflexivity.
Defined.

End chat_server.
